(** * Redwood background jobs: the Executor and the [rw-jobs-worker] process

    A shallow embedding of [packages/jobs/src/core/Executor.ts] and
    [packages/jobs/src/bins/rw-jobs-worker.ts], and the properties of
    their success / failure reporting, error classification, construction
    checks and signal handling.

    Layout:
    - [Js]: the values of the JavaScript fragment the two files rely
      on, with [ToString], truthiness, own properties, object spread and
      the settling of promises;
    - [Runtime]: completions, the outside world with its collaborators,
      and the effect monad [M] with [throw], [try]/[catch] and [await];
    - [Json]: a concrete [JSON.parse] for the integer-number fragment;
    - [Errors]: the error classes imported from ['../errors'];
    - [Exec]: class [Executor], its constructor and [perform];
    - [Loop]: the [Worker] that the process makes and runs;
    - [Bin]: [parseArgs], [setProcessTitle], [setupSignals] and [main]
      of the worker process, and the delivery of a signal to it;
    - [Demo]: concrete collaborators on which everything runs;
    - [Obs]: what is observed of a run;
    - then the lemmas, the properties of [Executor] and of the process,
      the steps of [perform] and the start of the process, and concrete
      runs. *)

From Stdlib Require Import String Ascii List ZArith Bool Lia.
From Stdlib Require Import DecimalString.
From ExtLib Require Import Structures.Monad Structures.MonadExc.
Import ListNotations.
Import MonadNotation.

Set Warnings "-register-all".
Local Open Scope string_scope.
Local Open Scope list_scope.

(* ===================================================================== *)
(** * The JavaScript fragment *)
(* ===================================================================== *)

Module Js.

(** State of a promise. [Unsettled] stands for a promise that never
    settles (a hung handler). *)
Inductive pstate : Type := Fulfilled | Rejected | Unsettled.

(** Run-time values.

    - Numbers are doubles with an integer value: [VNum n] is the
      double nearest to the integer [n], which is [n] itself up to
      [2^53] in absolute value and an infinity from [2^1024 - 2^970]
      on. Text is ASCII.
    - [VObj] is a plain data object: its own enumerable properties in
      insertion order, keys unique.
    - [VRef l] is an object owned by the outside world (a job record held
      by the adapter): its properties live in the external store and may
      change between two reads.
    - [VError cls msg] is an instance of the error class [cls] with
      [message] [msg].
    - [VRegExp src] is the regular expression of the literal text [src]
      (no metacharacters).
    - Callable properties exist only where this program calls them: the
      level methods of a logger, [success] and [failure] of an adapter,
      [perform] of a job instance, [match] of a string; a job class is a
      constructor. *)
Inductive value : Type :=
| VUndefined
| VNull
| VBool (b : bool)
| VNum (n : Z)
| VStr (s : string)
| VArr (items : list value)
| VObj (props : list (string * value))
| VRef (l : nat)
| VError (cls : string) (msg : string)
| VRegExp (source : string)
| VPromise (st : pstate) (payload : value)
| VLogger (name : string)
| VAdapter (a : nat)
| VClass (c : nat)
| VInstance (i : nat).

Definition props : Type := list (string * value).

(** ** Strings *)

Definition string_of_Z (n : Z) : string :=
  NilZero.string_of_int (Z.to_int n).

Definition string_of_nat (n : nat) : string := string_of_Z (Z.of_nat n).

(** ** Numbers

    [Number::toString] in radix 10, on the numbers with an integer
    value. *)

Local Open Scope Z_scope.

(** The exponent of the unit in the last place of the doubles around
    [n > 0]: [0] below [2^53], where every integer is a double. *)
Definition ulp_exponent (n : Z) : Z := Z.max 0 (Z.log2 n - 52).

(** The double nearest to the integer [n > 0], ties to the even
    significand. *)
Definition nearest_double (n : Z) : Z :=
  let e := ulp_exponent n in
  if e =? 0 then n
  else
    let q := Z.shiftr n e in
    let r := n - Z.shiftl q e in
    let half := Z.shiftl 1 (e - 1) in
    if (r <? half) || ((r =? half) && Z.even q)
    then Z.shiftl q e else Z.shiftl (q + 1) e.

(** The shortest decimal that reads back as the double [v >= 2^53]:
    the multiple of the highest power of ten [p = 10^j] that rounds to
    [v], the closest one to [v] when there are two. [lo4] and [hi4] are
    four times the bounds of what rounds to [v], [closed] tells whether
    the bounds themselves do. The result is the decimal and [j]. *)
Fixpoint shortest (v lo4 hi4 : Z) (closed : bool) (j : nat) (p : Z)
  : Z * nat :=
  let c1 := (v / p) * p in
  let c2 := c1 + p in
  let ok c := if closed then (lo4 <=? 4 * c) && (4 * c <=? hi4)
              else (lo4 <? 4 * c) && (4 * c <? hi4) in
  match ok c1, ok c2 with
  | true, true =>
      if (v - c1 <? c2 - v) || ((v - c1 =? c2 - v) && Z.even (c1 / p))
      then (c1, j) else (c2, j)
  | true, false => (c1, j)
  | false, true => (c2, j)
  | false, false =>
      match j with
      | O => (v, O)
      | S j' => shortest v lo4 hi4 closed j' (p / 10)
      end
  end.

Definition shortest_decimal (v : Z) : Z * nat :=
  let e := ulp_exponent v in
  let m := Z.shiftr v e in
  let hi4 := 4 * v + Z.shiftl 1 (e + 1) in
  let lo4 := 4 * v - (if m =? 2 ^ 52 then Z.shiftl 1 e
                      else Z.shiftl 1 (e + 1)) in
  let j := String.length (string_of_Z v) in
  shortest v lo4 hi4 (Z.even m) j (10 ^ Z.of_nat j).

(** [Number::toString] on a number with an integer value [n > 0]. *)
Definition positive_toString (n : Z) : string :=
  if n <? 2 ^ 53 then string_of_Z n
  else
    let v := nearest_double n in
    if 2 ^ 1024 <=? v then "Infinity"
    else
      let '(c, j) := shortest_decimal v in
      let digits := string_of_Z c in
      let n := String.length digits in
      if Nat.leb n 21 then digits
      else
        let k := (n - j)%nat in
        String.substring 0 1 digits
        ++ (if Nat.leb k 1 then "" else "." ++ String.substring 1 (k - 1) digits)
        ++ "e+" ++ string_of_Z (Z.of_nat (n - 1)).

Definition Number_toString (n : Z) : string :=
  if n <? 0 then "-" ++ positive_toString (- n)
  else positive_toString n.

Local Close Scope Z_scope.

(** [includes pat s]: the text [pat] occurs in [s]
    ([String.prototype.includes]; also what matching the regular
    expression of a literal text decides). *)
Fixpoint includes (pat s : string) : bool :=
  String.prefix pat s ||
  match s with
  | EmptyString => false
  | String _ s' => includes pat s'
  end.

Fixpoint join_with (sep : string) (l : list string) : string :=
  match l with
  | [] => ""
  | [x] => x
  | x :: r => x ++ sep ++ join_with sep r
  end.

(** [ToString] of the language, on the values of the model. *)
Fixpoint ToString (v : value) : string :=
  match v with
  | VUndefined => "undefined"
  | VNull => "null"
  | VBool true => "true"
  | VBool false => "false"
  | VNum n => Number_toString n
  | VStr s => s
  | VArr items =>
      join_with "," (map (fun x => match x with
                              | VUndefined | VNull => ""
                              | _ => ToString x
                              end) items)
  | VError cls msg => if String.eqb msg "" then cls else cls ++ ": " ++ msg
  | VRegExp src => "/" ++ src ++ "/"
  | VPromise _ _ => "[object Promise]"
  | VClass _ => "class { }"
  | VObj _ | VRef _ | VLogger _ | VAdapter _ | VInstance _ => "[object Object]"
  end.

(** ** Truthiness ([ToBoolean]) *)

Definition truthy (v : value) : bool :=
  match v with
  | VUndefined | VNull => false
  | VBool b => b
  | VNum n => negb (Z.eqb n 0)
  | VStr s => negb (String.eqb s "")
  | _ => true
  end.

Definition nullish (v : value) : bool :=
  match v with
  | VUndefined | VNull => true
  | _ => false
  end.

(** ** Own properties of plain objects *)

Fixpoint lookup (k : string) (o : props) : option value :=
  match o with
  | [] => None
  | (k', v) :: r => if String.eqb k k' then Some v else lookup k r
  end.

(** [o[k] = v]: an existing key keeps its position, a new key is
    appended. *)
Fixpoint assign (k : string) (v : value) (o : props) : props :=
  match o with
  | [] => [(k, v)]
  | (k', v') :: r =>
      if String.eqb k k' then (k, v) :: r else (k', v') :: assign k v r
  end.

(** The own properties of an object, each key once: in a list that
    repeats a key the first entry is the property, the later ones are
    dead. *)
Fixpoint own (o : props) : props :=
  match o with
  | [] => []
  | (k, v) :: r =>
      (k, v) :: filter (fun kv => negb (String.eqb k (fst kv))) (own r)
  end.

(** [{ ...a, ...b }]: the properties of [a], then the own properties of
    [b], written one after the other. *)
Definition spread (a b : props) : props :=
  fold_left (fun acc kv => assign (fst kv) (snd kv) acc) (own b) a.

Definition field (k : string) (o : props) : value :=
  match lookup k o with
  | Some v => v
  | None => VUndefined
  end.

(** Index of [k] when it is the canonical text of a number below [n]. *)
Fixpoint index_of_key (k : string) (n : nat) : option nat :=
  match n with
  | O => None
  | S m =>
      match index_of_key k m with
      | Some i => Some i
      | None => if String.eqb k (string_of_nat m) then Some m else None
      end
  end.

Fixpoint chars (s : string) : list value :=
  match s with
  | EmptyString => []
  | String c r => VStr (String c EmptyString) :: chars r
  end.

Definition indexed (k : string) (items : list value) : value :=
  if String.eqb k "length" then VNum (Z.of_nat (List.length items))
  else match index_of_key k (List.length items) with
       | Some i => nth i items VUndefined
       | None => VUndefined
       end.

(** ** Promises *)

(** How [await v] completes: a fulfilled promise gives its value, a
    rejected one throws its reason, a promise resolved with another one
    follows it, any other value is given back. *)
Inductive awaited : Type :=
| Got (v : value)
| Raised (e : value)
| Never.

Fixpoint settle (v : value) : awaited :=
  match v with
  | VPromise Fulfilled p => settle p
  | VPromise Rejected e => Raised e
  | VPromise Unsettled _ => Never
  | _ => Got v
  end.

End Js.

(* ===================================================================== *)
(** * Effects: the outside world, completions and the monad [M] *)
(* ===================================================================== *)

Module Runtime.
Import Js.

(** How the evaluation of an expression or a call completes. [Exit] is
    [process.exit(code)], which never returns and cannot be caught;
    [Killed] is the default disposition of [SIGINT] and [SIGTERM] when
    nobody listens; [Pending] is an [await] on a promise that never
    settles. *)
Inductive completion (A : Type) : Type :=
| Normal (a : A)
| Throw (e : value)
| Exit (code : Z)
| Killed (signal : string)
| Pending.

Arguments Normal {A} a.
Arguments Throw {A} e.
Arguments Exit {A} code.
Arguments Killed {A} signal.
Arguments Pending {A}.

(** What the program does to its collaborators, in order. [ELog] is the
    call of a method of a logger, recorded when the call is made,
    whether it then returns or throws. *)
Inductive event : Type :=
| ELog (logger level : string) (args : list value)
| ELoadJob (name : value)
| ENew (c : nat) (args : list value)
| EPerform (i : nat) (args : list value)
| ESuccess (a : nat) (job : value)
| EFailure (a : nat) (job error opts : value)
| ELoadLogger
| ELoadAdapter
| ENewWorker (options : props)
| ERun.

(** Modelled from the spec: the instance of [Worker] of the process
    (['../core/Worker'] is not part of the sources at hand), with the
    fields the spec lists and the mutable [forever] flag. *)
Record Worker : Type := mkWorker {
  w_adapter : value;
  w_logger : value;
  processName : value;
  queue : value;
  workoff : value;
  clear : value;
  forever : bool
}.

(** The closures of [rw-jobs-worker.ts], each with the logger it
    captured (the two listeners also capture the one [worker] of the
    process): the listeners of [setupSignals] and the callback [main]
    attaches to the promise of [worker.run()]. *)
Inductive closure : Type :=
| OnSIGINT (logger : value)
| OnSIGTERM (logger : value)
| OnFinished (logger : value).

Section World.

(** [Σ]: the state of everything outside the program (the job store
    behind the adapter, the module registry, the log, the clock). *)
Context {Σ : Type}.

(** [title] is the title of the process; [listeners] are the listeners
    of signals registered with the process, those a signal is delivered
    to; [worker] is the [Worker] object once it exists; [reactions] are
    the callbacks attached to the promise of [worker.run()]. *)
Record world : Type := mkWorld {
  store : Σ;
  trace : list event;
  title : string;
  listeners : list (string * closure);
  worker : option Worker;
  reactions : list closure
}.

Definition M (A : Type) : Type := world -> completion A * world.

#[export] Instance Monad_M : Monad M := {
  ret := fun _ a w => (Normal a, w);
  bind := fun _ _ m k w =>
    match m w with
    | (Normal a, w') => k a w'
    | (Throw e, w') => (Throw e, w')
    | (Exit c, w') => (Exit c, w')
    | (Killed s, w') => (Killed s, w')
    | (Pending, w') => (Pending, w')
    end
}.

(** [raise e] is [throw e]; [catch m h] is [try { m } catch (e) { h e }]. *)
#[export] Instance Exc_M : MonadExc value M := {
  raise := fun _ e w => (Throw e, w);
  catch := fun _ m h w =>
    match m w with
    | (Throw e, w') => h e w'
    | r => r
    end
}.

Definition exit {A} (code : Z) : M A := fun w => (Exit code, w).
Definition pending {A} : M A := fun w => (Pending, w).

(** The completion [c] of a computation without effect. *)
Definition complete {A} (c : completion A) : M A := fun w => (c, w).

Definition emit (ev : event) : M unit :=
  fun w => (Normal tt, mkWorld (store w) (trace w ++ [ev]) (title w)
                               (listeners w) (worker w) (reactions w)).

Definition effect : Type := Σ -> completion value * Σ.

(** A call into a collaborator: it is recorded, then acts on the outside
    world. *)
Definition call (ev : event) (f : effect) : M value :=
  fun w =>
    let '(c, s) := f (store w) in
    (c, mkWorld s (trace w ++ [ev]) (title w) (listeners w) (worker w)
                (reactions w)).

(** The collaborators: everything the two files import or are handed,
    and how the module of the process is run. *)
Record collaborators : Type := mkCollaborators {
  (** a property of an object of the outside world *)
  read : Σ -> nat -> string -> value;
  (** the lines of [error.stack] after its first, for an error of the
      given class and message *)
  frames : string -> string -> string;
  (** [JSON.parse] on the text of its argument *)
  JSON_parse : string -> completion value;
  (** [loadJob] of ['../loaders'] *)
  loadJob : value -> effect;
  (** [new C(...args)] for a job class [C] *)
  construct : nat -> list value -> effect;
  (** [instance.perform(...args)] *)
  perform_of : nat -> list value -> effect;
  (** [adapter.success(job)] *)
  success : nat -> value -> effect;
  (** [adapter.failure(job, error, options)] *)
  failure : nat -> value -> value -> value -> effect;
  (** the methods the logger of the given name has *)
  levels : string -> list string;
  (** [logger.level(...args)], for a method the logger has: like any
      other call, it may throw *)
  log : string -> string -> list value -> effect;
  (** [new Date().toISOString()]: the text, and the outside world once
      the clock was read *)
  now : Σ -> string * Σ;
  (** the [yargs] parser configured in [parseArgs], which gives the
      options or ends the process ([--help], an argument it refuses) *)
  yargs : list string -> completion props;
  (** whether the module of the process runs as strict code (as a
      module does) or was made sloppy code on the way *)
  strict : bool;
  (** whether the namespace object of ['node:process'] inherits what
      the process object inherits, [on] among it (as it does where a
      bundler made it from the prototype of the process object), or
      has the exports of the module alone *)
  on_inherited : bool;
  (** [loadLogger] and [loadAdapter] of ['../core/loaders'] *)
  loadLogger : effect;
  loadAdapter : effect
}.

Variable rt : collaborators.

Local Open Scope monad_scope.

Definition TypeError (msg : string) : value := VError "TypeError" msg.

Definition cannot_read (v : value) (k : string) : value :=
  TypeError ("Cannot read properties of " ++ ToString v
             ++ " (reading '" ++ k ++ "')").

(** [error.stack]: the line that names the error, then the frames. *)
Definition stack_of (e : value) : string :=
  match e with
  | VError cls msg => ToString e ++ frames rt cls msg
  | _ => ToString e
  end.

(** The value of the property [k] of [v], for a [v] that has
    properties. *)
Definition property (s : Σ) (v : value) (k : string) : value :=
  match v with
  | VObj o => field k o
  | VRef l => read rt s l k
  | VArr items => indexed k items
  | VStr str => indexed k (chars str)
  | VError cls msg =>
      if String.eqb k "message" then VStr msg
      else if String.eqb k "stack" then VStr (stack_of v)
      else if String.eqb k "name" then VStr cls
      else VUndefined
  | VRegExp src => if String.eqb k "source" then VStr src else VUndefined
  | _ => VUndefined
  end.

(** [v.k] (or [v[k]]) read as data. *)
Definition get (v : value) (k : string) : M value :=
  if nullish v then raise (cannot_read v k)
  else fun w => (Normal (property (store w) v k), w).

(** What [v.k] is when it is about to be called. *)
Inductive method : Type :=
| MLog (logger level : string)
| MSuccess (a : nat)
| MFailure (a : nat)
| MPerform (i : nat)
| MMatch (s : string)
| MNotCallable.

Definition log_levels : list string := ["info"; "warn"; "error"; "debug"].

(** A logger has, of the four methods of a logger, those its maker
    gave it: one that has [info] need not have [error]. *)
Definition method_of (v : value) (k : string) : method :=
  match v with
  | VLogger n =>
      if existsb (String.eqb k) log_levels
         && existsb (String.eqb k) (levels rt n)
      then MLog n k else MNotCallable
  | VAdapter a =>
      if String.eqb k "success" then MSuccess a
      else if String.eqb k "failure" then MFailure a
      else MNotCallable
  | VInstance i => if String.eqb k "perform" then MPerform i else MNotCallable
  | VStr s => if String.eqb k "match" then MMatch s else MNotCallable
  | _ => MNotCallable
  end.

(** [v.k] read as the callee of a call. *)
Definition member (v : value) (k : string) : M method :=
  if nullish v then raise (cannot_read v k) else ret (method_of v k).

Definition arg (n : nat) (args : list value) : value := nth n args VUndefined.

(** The call itself, [what] being the text of the callee. *)
Definition invoke (what : string) (m : method) (args : list value) : M value :=
  match m with
  | MLog n level => call (ELog n level args) (log rt n level args)
  | MSuccess a =>
      call (ESuccess a (arg 0 args)) (success rt a (arg 0 args))
  | MFailure a =>
      call (EFailure a (arg 0 args) (arg 1 args) (arg 2 args))
           (failure rt a (arg 0 args) (arg 1 args) (arg 2 args))
  | MPerform i => call (EPerform i args) (perform_of rt i args)
  | MMatch s =>
      let pat := match arg 0 args with
                 | VRegExp src => src
                 | v => ToString v
                 end in
      ret (if includes pat s then VArr [VStr pat] else VNull)
  | MNotCallable => raise (TypeError (what ++ " is not a function"))
  end.

(** [new f(...args)]. *)
Definition new (what : string) (f : value) (args : list value) : M value :=
  match f with
  | VClass c => call (ENew c args) (construct rt c args)
  | _ => raise (TypeError (what ++ " is not a constructor"))
  end.

(** What [...v] throws for a [v] that cannot be iterated, [what] being
    the text of [v]. *)
Definition not_iterable (what : string) (v : value) : value :=
  TypeError
    (if nullish v
     then what ++ " is not iterable (cannot read property Symbol(Symbol.iterator))"
     else "Spread syntax requires ...iterable[Symbol.iterator] to be a function").

(** [...v] in an argument list. *)
Definition spread_args (what : string) (v : value) : M (list value) :=
  match v with
  | VArr items => ret items
  | VStr s => ret (chars s)
  | _ => raise (not_iterable what v)
  end.

Definition await (v : value) : M value :=
  match settle v with
  | Got x => ret x
  | Raised e => raise e
  | Never => pending
  end.

(** ** The [process] of the module, and the clock

    [rw-jobs-worker.ts] binds [process] with [import * as process from
    'node:process']: what it calls [process] is the namespace object of
    that module, not the process object of the runtime. The exports of
    a namespace object (the own properties of the process object) can
    be read and called, not written; the methods the process object
    inherits are no exports of it. *)

(** [process.title], read. *)
Definition process_title : M string := fun w => (Normal (title w), w).

(** [process.title = t]: a write to an export of the namespace object.
    Strict code throws a [TypeError]; sloppy code goes on, and the
    title of the process is what it was. *)
Definition set_process_title (t : string) : M unit :=
  if strict rt then
    raise (TypeError
      "Cannot assign to read only property 'title' of object '[object Module]'")
  else ret tt.

(** [process.on(signal, f)], on the namespace object. Where the
    object has the exports alone, [process.on] is [undefined]: the call
    throws a [TypeError], and the process has the listeners it had.
    Where the object inherits [on], the method of the emitter runs on
    the namespace object: it stores [f] with the listeners of the
    process, which the namespace object shows, and then throws a
    [TypeError] where it counts the listener, the count being one of
    the properties that cannot be written. *)
Definition process_on (signal : string) (f : closure) : M unit :=
  if on_inherited rt then
    fun w =>
      (Throw (TypeError
         "Cannot set property _eventsCount of #<process> which has only a getter"),
       mkWorld (store w) (trace w) (title w) (listeners w ++ [(signal, f)])
               (worker w) (reactions w))
  else raise (TypeError "process.on is not a function").

(** [new Date().toISOString()] *)
Definition toISOString_now : M string :=
  fun w => (Normal (fst (now rt (store w))),
            mkWorld (snd (now rt (store w))) (trace w) (title w)
                    (listeners w) (worker w) (reactions w)).

(** ** The [worker] object *)

Definition set_worker (wk : Worker) : M unit :=
  fun w => (Normal tt, mkWorld (store w) (trace w) (title w) (listeners w)
                               (Some wk) (reactions w)).

Definition the_worker : M Worker :=
  fun w => match worker w with
           | Some wk => (Normal wk, w)
           | None => (Throw (TypeError "worker is not defined"), w)
           end.

(** [promise.then(f)] on the promise of [worker.run()] *)
Definition then_ (f : closure) : M unit :=
  fun w => (Normal tt, mkWorld (store w) (trace w) (title w) (listeners w)
                               (worker w) (reactions w ++ [f])).

End World.

Arguments world : clear implicits.
Arguments M : clear implicits.
Arguments effect : clear implicits.
Arguments collaborators : clear implicits.

End Runtime.

(* ===================================================================== *)
(** * [JSON.parse] *)
(* ===================================================================== *)

(** A concrete [JSON.parse] for the examples: objects, arrays, strings
    with the single-character escapes, integer numbers and the three
    literals. Fractions, exponents and [\u] escapes are outside the
    fragment and are refused. The properties of [Executor] below are
    stated for any [JSON_parse]; this one instantiates them. *)
Module Json.
Import Js Runtime.

Definition dq : ascii := ascii_of_nat 34.
Definition backslash : ascii := ascii_of_nat 92.

Definition quoted (s : string) : string :=
  String dq s ++ String dq EmptyString.

Definition is_ws (c : ascii) : bool :=
  let n := nat_of_ascii c in
  Nat.eqb n 32 || Nat.eqb n 9 || Nat.eqb n 10 || Nat.eqb n 13.

Fixpoint skip_ws (s : string) : string :=
  match s with
  | String c r => if is_ws c then skip_ws r else s
  | EmptyString => s
  end.

Definition digit (c : ascii) : option Z :=
  let n := nat_of_ascii c in
  if Nat.leb 48 n && Nat.leb n 57 then Some (Z.of_nat (n - 48)) else None.

Definition unescape (c : ascii) : option ascii :=
  let n := nat_of_ascii c in
  if Nat.eqb n 34 || Nat.eqb n 92 || Nat.eqb n 47 then Some c
  else if Nat.eqb n 98 then Some (ascii_of_nat 8)
  else if Nat.eqb n 102 then Some (ascii_of_nat 12)
  else if Nat.eqb n 110 then Some (ascii_of_nat 10)
  else if Nat.eqb n 114 then Some (ascii_of_nat 13)
  else if Nat.eqb n 116 then Some (ascii_of_nat 9)
  else None.

(** The characters of a string literal, after its opening quote. *)
Fixpoint parse_string (s : string) : option (string * string) :=
  match s with
  | EmptyString => None
  | String c r =>
      if Ascii.eqb c dq then Some (EmptyString, r)
      else if Ascii.eqb c backslash then
        match r with
        | String e r' =>
            match unescape e, parse_string r' with
            | Some c', Some (str, rest) => Some (String c' str, rest)
            | _, _ => None
            end
        | EmptyString => None
        end
      else if Nat.ltb (nat_of_ascii c) 32 then None
      else match parse_string r with
           | Some (str, rest) => Some (String c str, rest)
           | None => None
           end
  end.

Fixpoint parse_digits (acc : Z) (s : string) : Z * string :=
  match s with
  | String c r =>
      match digit c with
      | Some d => parse_digits (acc * 10 + d) r
      | None => (acc, s)
      end
  | EmptyString => (acc, s)
  end.

Definition starts_fraction (s : string) : bool :=
  match s with
  | String c _ =>
      let n := nat_of_ascii c in
      Nat.eqb n 46 || Nat.eqb n 101 || Nat.eqb n 69
  | EmptyString => false
  end.

(** [-]? digits, no leading zero. *)
Definition parse_number (s : string) : option (Z * string) :=
  let '(neg, s1) := match s with
                    | String "-" r => (true, r)
                    | _ => (false, s)
                    end in
  match s1 with
  | String c r =>
      match digit c with
      | Some d =>
          let '(n, rest) := if Z.eqb d 0 then (0%Z, r) else parse_digits d r in
          let leading_zero := Z.eqb d 0 &&
            match rest with
            | String c' _ => match digit c' with Some _ => true | None => false end
            | EmptyString => false
            end in
          if leading_zero || starts_fraction rest then None
          else Some (if neg then (- n)%Z else n, rest)
      | None => None
      end
  | EmptyString => None
  end.

Definition drop_prefix (p s : string) : option string :=
  if String.prefix p s
  then Some (substring (String.length p) (String.length s - String.length p) s)
  else None.

Fixpoint parse_value (fuel : nat) (s : string) : option (value * string) :=
  match fuel with
  | O => None
  | S f =>
      match skip_ws s with
      | EmptyString => None
      | String c r as t =>
          if Ascii.eqb c "{" then
            match skip_ws r with
            | String "}" r' => Some (VObj [], r')
            | _ => parse_members f [] r
            end
          else if Ascii.eqb c "[" then
            match skip_ws r with
            | String "]" r' => Some (VArr [], r')
            | _ => parse_elements f [] r
            end
          else if Ascii.eqb c dq then
            match parse_string r with
            | Some (str, r') => Some (VStr str, r')
            | None => None
            end
          else
            match drop_prefix "true" t, drop_prefix "false" t,
                  drop_prefix "null" t with
            | Some r', _, _ => Some (VBool true, r')
            | _, Some r', _ => Some (VBool false, r')
            | _, _, Some r' => Some (VNull, r')
            | _, _, _ =>
                match parse_number t with
                | Some (n, r') => Some (VNum n, r')
                | None => None
                end
            end
      end
  end
with parse_elements (fuel : nat) (acc : list value) (s : string)
  : option (value * string) :=
  match fuel with
  | O => None
  | S f =>
      match parse_value f s with
      | Some (v, r) =>
          match skip_ws r with
          | String "," r' => parse_elements f (acc ++ [v]) r'
          | String "]" r' => Some (VArr (acc ++ [v]), r')
          | _ => None
          end
      | None => None
      end
  end
with parse_members (fuel : nat) (acc : props) (s : string)
  : option (value * string) :=
  match fuel with
  | O => None
  | S f =>
      match skip_ws s with
      | String c r =>
          if Ascii.eqb c dq then
            match parse_string r with
            | Some (k, r1) =>
                match skip_ws r1 with
                | String ":" r2 =>
                    match parse_value f r2 with
                    | Some (v, r3) =>
                        match skip_ws r3 with
                        | String "," r4 => parse_members f (assign k v acc) r4
                        | String "}" r4 => Some (VObj (assign k v acc), r4)
                        | _ => None
                        end
                    | None => None
                    end
                | _ => None
                end
            | None => None
            end
          else None
      | EmptyString => None
      end
  end.

Definition SyntaxError (text : string) : value :=
  VError "SyntaxError" (quoted text ++ " is not valid JSON").

Definition parse (text : string) : completion value :=
  match parse_value (2 * String.length text + 2) text with
  | Some (v, rest) =>
      match skip_ws rest with
      | EmptyString => Normal v
      | _ => Throw (SyntaxError text)
      end
  | None => Throw (SyntaxError text)
  end.

End Json.

(* ===================================================================== *)
(** * The error classes of ['../errors'] *)
(* ===================================================================== *)

Module Errors.
Import Js.

(** Modelled from the spec: [AdapterRequiredError] of ['../errors'] (the
    module is not part of the sources at hand); the spec names the class
    and says it reports a missing adapter. *)
Definition AdapterRequiredError : value :=
  VError "AdapterRequiredError" "`adapter` is required to perform a job".

(** Modelled from the spec: [JobRequiredError] of ['../errors']; the spec
    names the class and says it reports a missing job. *)
Definition JobRequiredError : value :=
  VError "JobRequiredError" "`job` is required to perform a job".

(** Modelled from the spec: [JobExportNotFoundError] of ['../errors'];
    the spec says it carries the attempted handler name and that its
    message references it. *)
Definition JobExportNotFoundError (name : value) : value :=
  VError "JobExportNotFoundError"
    ("Job file `" ++ ToString name
       ++ "` does not export a class with the same name").

End Errors.

(* ===================================================================== *)
(** * [core/Executor.ts] *)
(* ===================================================================== *)

Module Exec.
Import Js Runtime Errors.

Local Open Scope monad_scope.

(** [class Executor]: the fields set by the constructor. *)
Record Executor : Type := mkExecutor {
  options : props;
  adapter : value;
  logger : value;
  job : value;
  maxAttempts : value;
  deleteFailedJobs : value
}.

(** The global [console] of [node:console]. *)
Definition console : value := VLogger "console".

Section Executor.

Context {Σ : Type}.
Variable rt : collaborators Σ.

(** [DEFAULT_MAX_ATTEMPTS] and [DEFAULT_DELETE_FAILED_JOBS] of
    ['../consts'], taken as given. *)
Variable DEFAULT_MAX_ATTEMPTS : Z.
Variable DEFAULT_DELETE_FAILED_JOBS : bool.

Definition DEFAULTS : props :=
  [ ("logger", console);
    ("maxAttempts", VNum DEFAULT_MAX_ATTEMPTS);
    ("deleteFailedJobs", VBool DEFAULT_DELETE_FAILED_JOBS) ].

(** [constructor(options)] *)
Definition constructor (opts : props) : M Σ Executor :=
  let options := spread DEFAULTS opts in
  if negb (truthy (field "adapter" options)) then
    raise AdapterRequiredError
  else if negb (truthy (field "job" options)) then
    raise JobRequiredError
  else
    ret {| options := options;
           adapter := field "adapter" options;
           logger := field "logger" options;
           job := field "job" options;
           maxAttempts := field "maxAttempts" options;
           deleteFailedJobs := field "deleteFailedJobs" options |}.

(** [perform], the two statements before the [try]:
    [this.logger.info(this.job, `Started job ${this.job.id}`)] and
    [const details = JSON.parse(this.job.handler)]. *)
Definition start (this : Executor) : M Σ value :=
  info <- member rt (logger this) "info" ;;
  id <- get rt (job this) "id" ;;
  invoke rt "this.logger.info" info
    [job this; VStr ("Started job " ++ ToString id)] ;;
  handler <- get rt (job this) "handler" ;;
  complete (JSON_parse rt (ToString handler)).

(** The first two statements of the [try] block:
    [const jobModule = await loadJob(details.handler)] and
    [await new jobModule[details.handler]().perform(...details.args)]. *)
Definition run_job (details : value) : M Σ value :=
  name <- get rt details "handler" ;;
  loading <- call (ELoadJob name) (loadJob rt name) ;;
  jobModule <- await loading ;;
  name <- get rt details "handler" ;;
  export <- get rt jobModule (ToString name) ;;
  instance <- new rt "jobModule[details.handler]" export [] ;;
  perform <- member rt instance "perform" ;;
  args <- get rt details "args" ;;
  args <- spread_args "details.args" args ;;
  running <- invoke rt "(intermediate value).perform" perform args ;;
  await running.

(** [return this.adapter.success(this.job)] *)
Definition report_success (this : Executor) : M Σ value :=
  success <- member rt (adapter this) "success" ;;
  invoke rt "this.adapter.success" success [job this].

(** The head of the [catch] block:
    [let error = e; if (e.message.match(/is not a constructor/))
       { error = new JobExportNotFoundError(details.handler) }]. *)
Definition classify (details e : value) : M Σ value :=
  message <- get rt e "message" ;;
  match_ <- member rt message "match" ;;
  found <- invoke rt "e.message.match" match_ [VRegExp "is not a constructor"] ;;
  if truthy found then
    name <- get rt details "handler" ;;
    ret (JobExportNotFoundError name)
  else ret e.

(** [{ maxAttempts: this.maxAttempts,
        deleteFailedJobs: this.deleteFailedJobs }] *)
Definition failure_options (this : Executor) : value :=
  VObj [ ("maxAttempts", maxAttempts this);
         ("deleteFailedJobs", deleteFailedJobs this) ].

(** The rest of the [catch] block: [this.logger.error(error.stack)] and
    [return this.adapter.failure(this.job, error, { maxAttempts,
    deleteFailedJobs })]. *)
Definition report_failure (this : Executor) (error : value) : M Σ value :=
  log <- member rt (logger this) "error" ;;
  stack <- get rt error "stack" ;;
  invoke rt "this.logger.error" log [stack] ;;
  failure <- member rt (adapter this) "failure" ;;
  invoke rt "this.adapter.failure" failure
    [job this; error; failure_options this].

(** The body of [perform]: what it returns or throws. *)
Definition perform_body (this : Executor) : M Σ value :=
  details <- start this ;;
  catch
    (run_job details ;;
     report_success this)
    (fun e =>
       error <- classify details e ;;
       report_failure this error).

(** [async perform()]: how the promise it returns settles. A returned
    promise is followed; a thrown value rejects. *)
Definition perform (this : Executor) : M Σ value :=
  result <- perform_body this ;;
  await result.

End Executor.
End Exec.

(* ===================================================================== *)
(** * The [Worker] of the process *)
(* ===================================================================== *)

Module Loop.
Import Js Runtime.

Local Open Scope monad_scope.

Section Loop.

Context {Σ : Type}.

Definition with_forever (b : bool) (wk : Worker) : Worker :=
  mkWorker (w_adapter wk) (w_logger wk) (processName wk) (queue wk)
           (workoff wk) (clear wk) b.

(** [worker.forever = b] *)
Definition set_forever (b : bool) : M Σ unit :=
  wk <- the_worker ;;
  set_worker (with_forever b wk).

(** Modelled from the spec: [new Worker(options)] of ['../core/Worker']
    (not part of the sources at hand). The worker holds the options it
    is given and a [forever] flag, set, that gates its loop. *)
Definition new_Worker (options : props) : M Σ unit :=
  emit (ENewWorker options) ;;
  set_worker {| w_adapter := field "adapter" options;
                w_logger := field "logger" options;
                processName := field "processName" options;
                queue := field "queue" options;
                workoff := field "workoff" options;
                clear := field "clear" options;
                forever := true |}.

(** Modelled from the spec: the call [worker.run()], which starts the
    run and returns its promise. What the run then does is the
    business of [Worker]. *)
Definition run : M Σ unit := emit ERun.

End Loop.
End Loop.

(* ===================================================================== *)
(** * [bins/rw-jobs-worker.ts] *)
(* ===================================================================== *)

Module Bin.
Import Js Runtime.

Local Open Scope string_scope.
Local Open Scope monad_scope.

Section Bin.

Context {Σ : Type}.
Variable rt : collaborators Σ.

Definition TITLE_PREFIX : string := "rw-jobs-worker".

(** [parseArgs(argv)]: the parsed options, with the keys [id], [queue],
    [workoff] and [clear], unless [yargs] ends the process. *)
Definition parseArgs (argv : list string) : M Σ props :=
  complete (yargs rt argv).

Definition setProcessTitle (id queue : value) : M Σ unit :=
  let title := TITLE_PREFIX in
  let title :=
    if truthy queue then title ++ "." ++ ToString queue ++ "." ++ ToString id
    else title ++ "." ++ ToString id in
  set_process_title rt title.

(** The listener of [SIGINT]. *)
Definition on_SIGINT (logger : value) : M Σ unit :=
  warn <- member rt logger "warn" ;;
  title <- process_title ;;
  time <- toISOString_now rt ;;
  invoke rt "logger.warn" warn
    [VStr ("[" ++ title ++ "] SIGINT received at " ++ time
             ++ ", finishing work...")] ;;
  Loop.set_forever false.

(** The listener of [SIGTERM]. *)
Definition on_SIGTERM (logger : value) : M Σ unit :=
  info <- member rt logger "info" ;;
  title <- process_title ;;
  time <- toISOString_now rt ;;
  invoke rt "logger.info" info
    [VStr ("[" ++ title ++ "] SIGTERM received at " ++ time
             ++ ", exiting now!")] ;;
  exit 0.

(** The callback [main] attaches to the promise of [worker.run()]. *)
Definition on_finished (logger : value) : M Σ unit :=
  info <- member rt logger "info" ;;
  title <- process_title ;;
  invoke rt "logger.info" info
    [VStr ("[" ++ title ++ "] Worker finished, shutting down.")] ;;
  exit 0.

Definition apply (f : closure) : M Σ unit :=
  match f with
  | OnSIGINT logger => on_SIGINT logger
  | OnSIGTERM logger => on_SIGTERM logger
  | OnFinished logger => on_finished logger
  end.

Fixpoint apply_all (fs : list closure) : M Σ unit :=
  match fs with
  | [] => ret tt
  | f :: rest => apply f ;; apply_all rest
  end.

(** [setupSignals({ worker, logger })] *)
Definition setupSignals (logger : value) : M Σ unit :=
  process_on rt "SIGINT" (OnSIGINT logger) ;;
  process_on rt "SIGTERM" (OnSIGTERM logger).

(** [await loadLogger()] and [await loadAdapter()] *)
Definition load_logger : M Σ value :=
  loading <- call ELoadLogger (loadLogger rt) ;;
  await loading.

Definition load_adapter : M Σ value :=
  loading <- call ELoadAdapter (loadAdapter rt) ;;
  await loading.

(** [main()] *)
Definition main (argv : list string) : M Σ unit :=
  args <- parseArgs argv ;;
  let id := field "id" args in
  let queue := field "queue" args in
  let clear := field "clear" args in
  let workoff := field "workoff" args in
  setProcessTitle id queue ;;
  logger <- load_logger ;;
  adapter <-
    catch
      load_adapter
      (fun e =>
         error <- member rt logger "error" ;;
         invoke rt "logger.error" error [e] ;;
         exit 1) ;;
  info <- member rt logger "info" ;;
  title <- process_title ;;
  time <- toISOString_now rt ;;
  invoke rt "logger.info" info
    [VStr ("[" ++ title ++ "] Starting work at " ++ time ++ "...")] ;;
  title <- process_title ;;
  Loop.new_Worker
    [ ("adapter", adapter);
      ("processName", VStr title);
      ("logger", logger);
      ("queue", queue);
      ("workoff", workoff);
      ("clear", clear) ] ;;
  Loop.run ;;
  then_ (OnFinished logger) ;;
  setupSignals logger.

(** ** Signals *)

Definition listeners_of (signal : string) (w : world Σ) : list closure :=
  map snd (filter (fun sf => String.eqb signal (fst sf)) (listeners w)).

(** [SIGINT] or [SIGTERM] sent to the process: its listeners run in the
    order of registration; without a listener the signal terminates
    the process, whatever it is doing. *)
Definition deliver (signal : string) : M Σ unit :=
  fun w =>
    match listeners_of signal w with
    | [] => (Killed signal, w)
    | fs => apply_all fs w
    end.

(** The process as [node] starts it: nothing recorded, no listener, no
    worker. *)
Definition fresh (s : Σ) : world Σ := mkWorld s [] "node" [] None [].

End Bin.
End Bin.

(* ===================================================================== *)
(** * A concrete outside world *)
(* ===================================================================== *)

(** A small, fully concrete set of collaborators, on which the
    definitions above run: a store of job records, a registry of job
    modules, and adapters that answer or fail. *)
Module Demo.
Import Js Runtime.

Local Open Scope string_scope.

(** The outside world: the job records by location, and the clock. *)
Record outside : Type := mkOutside {
  records : list (nat * props);
  clock : nat
}.

Fixpoint record_at (l : nat) (rs : list (nat * props)) : props :=
  match rs with
  | [] => []
  | (l', o) :: r => if Nat.eqb l l' then o else record_at l r
  end.

Definition fulfilled (v : value) : value := VPromise Fulfilled v.
Definition rejected (e : value) : value := VPromise Rejected e.

(** Job modules by name: [SendWelcomeEmailJob] exports the class of that
    name; [ThrowingJob], [StringJob], [HungJob] and [ObjectJob] export
    classes whose [perform] rejects with an [Error], throws a string,
    never settles, and rejects with the plain object [{ code:
    "ETIMEDOUT" }]; [MisnamedJob] exports nothing under its own name. *)
Definition registry (name : value) : completion value :=
  match name with
  | VStr "SendWelcomeEmailJob" =>
      Normal (fulfilled (VObj [("SendWelcomeEmailJob", VClass 0)]))
  | VStr "ThrowingJob" => Normal (fulfilled (VObj [("ThrowingJob", VClass 1)]))
  | VStr "StringJob" => Normal (fulfilled (VObj [("StringJob", VClass 2)]))
  | VStr "HungJob" => Normal (fulfilled (VObj [("HungJob", VClass 3)]))
  | VStr "ObjectJob" => Normal (fulfilled (VObj [("ObjectJob", VClass 4)]))
  | VStr "MisnamedJob" => Normal (fulfilled (VObj [("OtherJob", VClass 0)]))
  | _ => Normal (rejected (VError "JobNotFoundError"
                             ("Job `" ++ ToString name ++ "` not found")))
  end.

Definition timed_out : value := VObj [("code", VStr "ETIMEDOUT")].

Definition performs (i : nat) : completion value :=
  match i with
  | 0 => Normal (fulfilled VUndefined)
  | 1 => Normal (rejected (VError "Error" "boom"))
  | 2 => Throw (VStr "boom")
  | 3 => Normal (VPromise Unsettled VUndefined)
  | _ => Normal (rejected timed_out)
  end.

(** Adapter [0] answers; the [success] of adapter [1] throws. *)
Definition succeeds (a : nat) : completion value :=
  match a with
  | 0 => Normal (fulfilled (VStr "deleted"))
  | _ => Throw (VError "Error" "connection lost")
  end.

(** The text of the clock at its [n]th second. *)
Definition timestamp (n : nat) : string :=
  "2024-07-01T00:00:0" ++ string_of_nat n ++ ".000Z".

(** The loggers: [terse] has [info] alone, the others have the four
    methods; the [error] of [brittle] throws, every other call
    returns. *)
Definition methods (logger : string) : list string :=
  if String.eqb logger "terse" then ["info"]
  else ["info"; "warn"; "error"; "debug"].

Definition logging (logger level : string) : completion value :=
  if String.eqb logger "brittle" && String.eqb level "error"
  then Throw (VError "Error" "log stream closed")
  else Normal VUndefined.

Definition default_options : props :=
  [("id", VNum 0); ("workoff", VBool false); ("clear", VBool false)].

(** The collaborators of a process: [strictly] tells whether its module
    runs as strict code, [inheriting] whether its [process] inherits
    [on], [options] is what the arguments parse to
    ([--help] ends the process), and [logger_loads] and [adapter_loads]
    tell whether [loadLogger] and [loadAdapter] resolve (to the logger
    [logger] and to adapter [0]) or reject. *)
Definition process_with (strictly inheriting : bool) (options : props)
           (logger_loads adapter_loads : bool) : collaborators outside :=
  {| read := fun s l k => field k (record_at l (records s));
     frames := fun _ _ => String (ascii_of_nat 10) "    at <anonymous>";
     JSON_parse := Json.parse;
     loadJob := fun name s => (registry name, s);
     construct := fun c _ s => (Normal (VInstance c), s);
     perform_of := fun i _ s => (performs i, s);
     success := fun a _ s => (succeeds a, s);
     failure := fun _ _ _ _ s => (Normal (fulfilled (VStr "rescheduled")), s);
     levels := methods;
     log := fun logger level _ s => (logging logger level, s);
     now := fun s => (timestamp (clock s), mkOutside (records s) (S (clock s)));
     yargs := fun argv =>
       match argv with
       | ["--help"] => Exit 0
       | _ => Normal options
       end;
     strict := strictly;
     on_inherited := inheriting;
     loadLogger := fun s =>
       (Normal (if logger_loads then fulfilled (VLogger "logger")
                else rejected (VError "Error" "no logger configured")), s);
     loadAdapter := fun s =>
       (Normal (if adapter_loads then fulfilled (VAdapter 0)
                else rejected (VError "Error" "no adapter configured")), s)
  |}.

(** The collaborators of a process run as sloppy code without
    arguments, its [process] not inheriting [on]; [adapter_loads] tells
    whether [loadAdapter] resolves. *)
Definition collaborators_with (adapter_loads : bool) : collaborators outside :=
  process_with false false default_options true adapter_loads.

Definition world_of (s : outside) : world outside := Bin.fresh s.

(** The job of the spec's scenario: [{ id: 42, handler:
    '{"handler":"SendWelcomeEmailJob","args":[{"userId":7}]}' }]. *)
Definition descriptor (name : string) : string :=
  "{" ++ Json.quoted "handler" ++ ":" ++ Json.quoted name ++ ","
      ++ Json.quoted "args" ++ ":[{" ++ Json.quoted "userId" ++ ":7}]}".

Definition job_for (name : string) : value :=
  VObj [("id", VNum 42); ("handler", VStr (descriptor name))].

Definition executor_for (a : nat) (j : value) : Exec.Executor :=
  Exec.mkExecutor
    [("logger", Exec.console); ("maxAttempts", VNum 24);
     ("deleteFailedJobs", VBool false); ("adapter", VAdapter a); ("job", j)]
    (VAdapter a) Exec.console j (VNum 24) (VBool false).

Definition empty : world outside := world_of (mkOutside [] 0).

(** The collaborators with an adapter that loads, and the options an
    executor hands to [adapter.failure]. *)
Definition rt : collaborators outside := collaborators_with true.

Definition retry_options : value :=
  VObj [("maxAttempts", VNum 24); ("deleteFailedJobs", VBool false)].

(** The details [JSON.parse] makes of [descriptor name]. *)
Definition details_of (name : string) : value :=
  VObj [("handler", VStr name); ("args", VArr [VObj [("userId", VNum 7)]])].

(** The world once the statements before the [try] have run for the
    executor [this], and once the handler named [name] has run. *)
Definition started (this : Exec.Executor) : world outside :=
  snd (Exec.start rt this empty).

Definition ran (this : Exec.Executor) (name : string) : world outside :=
  snd (Exec.run_job rt (details_of name) (started this)).

(** A job whose handler field is not JSON. *)
Definition garbled_job : value :=
  VObj [("id", VNum 1); ("handler", VStr "not json")].

(** Executors on adapter [0]: for the job of the spec's scenario, for
    jobs whose handler rejects with an [Error], throws a string, rejects
    with a plain object, for the job that is not JSON and for the job
    whose module lacks the export; and the executor for the job of the
    scenario on adapter [1], whose [success] throws. *)
Definition welcome : Exec.Executor :=
  executor_for 0 (job_for "SendWelcomeEmailJob").
Definition throwing : Exec.Executor := executor_for 0 (job_for "ThrowingJob").
Definition stringy : Exec.Executor := executor_for 0 (job_for "StringJob").
Definition timing_out : Exec.Executor := executor_for 0 (job_for "ObjectJob").
Definition garbled : Exec.Executor := executor_for 0 garbled_job.
Definition misnamed : Exec.Executor := executor_for 0 (job_for "MisnamedJob").

(** What [new] throws for a module without the export asked for. *)
Definition not_a_constructor : value :=
  VError "TypeError" "jobModule[details.handler] is not a constructor".
Definition unlucky : Exec.Executor :=
  executor_for 1 (job_for "SendWelcomeEmailJob").

(** A job record kept in the outside world at location [7], the world
    that holds it, and the executor for it. *)
Definition filing : world outside :=
  world_of (mkOutside
              [(7, [ ("id", VNum 42);
                     ("handler", VStr (descriptor "SendWelcomeEmailJob")) ])]
              0).

Definition filed : Exec.Executor := executor_for 0 (VRef 7).

(** Collaborators whose adapter does not load, and an outside world
    without job record, its clock at [0]. *)
Definition unconfigured : collaborators outside := collaborators_with false.

Definition no_jobs : outside := mkOutside [] 0.

(** The process of [unconfigured] after each of the two loaders. *)
Definition logger_loaded : world outside :=
  snd (Bin.load_logger unconfigured (Bin.fresh no_jobs)).

Definition adapter_failed : world outside :=
  snd (Bin.load_adapter unconfigured logger_loaded).

(** An executor for the job whose handler never settles; a job whose
    descriptor, [{"handler":"SendWelcomeEmailJob"}], has no [args], and
    the executor for it; an executor whose logger is [undefined]. *)
Definition hung : Exec.Executor := executor_for 0 (job_for "HungJob").



Definition mute : Exec.Executor :=
  Exec.mkExecutor
    [("logger", VUndefined); ("maxAttempts", VNum 24);
     ("deleteFailedJobs", VBool false); ("adapter", VAdapter 0);
     ("job", job_for "SendWelcomeEmailJob")]
    (VAdapter 0) VUndefined (job_for "SendWelcomeEmailJob") (VNum 24)
    (VBool false).

(** The properties of [details_of name], and the module that
    [SendWelcomeEmailJob] loads. *)
Definition details_fields (name : string) : props :=
  [("handler", VStr name); ("args", VArr [VObj [("userId", VNum 7)]])].

Definition welcome_module : value :=
  VObj [("SendWelcomeEmailJob", VClass 0)].

(** A job whose handler field is the JSON text [null], and the executor
    for it. *)
Definition null_job : value :=
  VObj [("id", VNum 44); ("handler", VStr "null")].

Definition detailless : Exec.Executor := executor_for 0 null_job.

(** Collaborators whose logger does not load; the process started with
    [--queue email --id 3], and the one started without arguments, both
    run as sloppy code with a [process] that inherits [on]; and the
    process whose module runs as strict code. *)
Definition loggerless : collaborators outside :=
  process_with false false default_options false true.

Definition email_rt : collaborators outside :=
  process_with false true
    [ ("id", VNum 3); ("queue", VStr "email");
      ("workoff", VBool false); ("clear", VBool false) ]
    true true.

Definition bundled : collaborators outside :=
  process_with false true default_options true true.

Definition strict_rt : collaborators outside :=
  process_with true false default_options true true.

(** Executors on adapter [0] with the logger [lg]; the one for the job
    whose handler rejects with an [Error], on the logger whose [error]
    throws and on the logger that has no [error]. *)
Definition executor_on (lg : string) (j : value) : Exec.Executor :=
  Exec.mkExecutor
    [("logger", VLogger lg); ("maxAttempts", VNum 24);
     ("deleteFailedJobs", VBool false); ("adapter", VAdapter 0); ("job", j)]
    (VAdapter 0) (VLogger lg) j (VNum 24) (VBool false).

Definition brittle : Exec.Executor :=
  executor_on "brittle" (job_for "ThrowingJob").

Definition terse : Exec.Executor :=
  executor_on "terse" (job_for "ThrowingJob").

(** A process whose worker exists, as the listeners of [setupSignals]
    would find it. *)
Definition a_worker : Worker :=
  mkWorker (VAdapter 0) (VLogger "logger") (VStr "node") VUndefined
           (VBool false) (VBool false) true.

Definition working : world outside :=
  mkWorld no_jobs [] "node" [] (Some a_worker) [].

End Demo.

(* ===================================================================== *)
(** * Observations on runs *)
(* ===================================================================== *)

Module Obs.
Import Js Runtime.

Definition is_success (ev : event) : bool :=
  match ev with ESuccess _ _ => true | _ => false end.

Definition is_failure (ev : event) : bool :=
  match ev with EFailure _ _ _ _ => true | _ => false end.

Definition is_adapter_call (ev : event) : bool :=
  is_success ev || is_failure ev.

(** The calls of [adapter.success] and [adapter.failure] of a trace. *)
Definition adapter_calls (t : list event) : list event :=
  filter is_adapter_call t.

(** The job an adapter call reports on. *)
Definition reported_job (ev : event) : option value :=
  match ev with
  | ESuccess _ j => Some j
  | EFailure _ j _ _ => Some j
  | _ => None
  end.

(** The place of an event among the steps of [perform], in the order of
    the source: the start is logged with [logger.info] (0), the job
    module is loaded (1), the handler is constructed (2) and invoked
    (3), [adapter.success] is called (4); in the [catch] block the error
    is logged with [logger.error] (5) and [adapter.failure] is called
    (6). Any other event is no step of [perform] (7). *)
Definition stage (ev : event) : nat :=
  match ev with
  | ELog _ level _ =>
      if String.eqb level "info" then 0
      else if String.eqb level "error" then 5
      else 7
  | ELoadJob _ => 1
  | ENew _ _ => 2
  | EPerform _ _ => 3
  | ESuccess _ _ => 4
  | EFailure _ _ _ _ => 6
  | _ => 7
  end.

Section Obs.

Context {Σ : Type}.
Variable rt : collaborators Σ.

(** [changed_by_collaborators s s']: the outside world went from [s] to
    [s'] by calls into the collaborators alone. *)
Inductive changed_by_collaborators : Σ -> Σ -> Prop :=
| cbc_refl s : changed_by_collaborators s s
| cbc_trans s1 s2 s3 :
    changed_by_collaborators s1 s2 -> changed_by_collaborators s2 s3 ->
    changed_by_collaborators s1 s3
| cbc_loadJob name s : changed_by_collaborators s (snd (loadJob rt name s))
| cbc_construct c args s :
    changed_by_collaborators s (snd (construct rt c args s))
| cbc_perform i args s :
    changed_by_collaborators s (snd (perform_of rt i args s))
| cbc_success a j s : changed_by_collaborators s (snd (success rt a j s))
| cbc_failure a j e o s :
    changed_by_collaborators s (snd (failure rt a j e o s))
| cbc_log lg level args s :
    changed_by_collaborators s (snd (log rt lg level args s)).

(** A world with the outside state [s] and nothing else. *)
Definition bare (s : Σ) : world Σ := mkWorld s [] "" [] None [].

(** [graft w w0]: the world [w] after a run that, started from [bare
    (store w)], ended in [w0]. *)
Definition graft (w w0 : world Σ) : world Σ :=
  mkWorld (store w0) (trace w ++ trace w0) (title w) (listeners w)
          (worker w) (reactions w).

(** A computation is [uniform] when it reads and writes the outside
    state only, appends to the trace, and leaves the process alone. *)
Definition uniform {A} (m : M Σ A) : Prop :=
  forall w, m w = (fst (m (bare (store w))),
                   graft w (snd (m (bare (store w))))).

(** [tidy P m]: every run of [m] appends events that satisfy [P], and
    changes the outside state by calls into the collaborators alone. *)
Definition tidy (P : event -> Prop) {A} (m : M Σ A) : Prop :=
  forall w, exists evs,
    trace (snd (m w)) = trace w ++ evs /\ Forall P evs /\
    changed_by_collaborators (store w) (store (snd (m w))).

(** The event a call of the method [m] records, if any. *)
Definition event_of (m : method) (args : list value) : option event :=
  match m with
  | MLog n level => Some (ELog n level args)
  | MSuccess a => Some (ESuccess a (arg 0 args))
  | MFailure a => Some (EFailure a (arg 0 args) (arg 1 args) (arg 2 args))
  | MPerform i => Some (EPerform i args)
  | MMatch _ | MNotCallable => None
  end.

(** The value [e] has a [message] that is the string [m]. *)
Definition message_is (s : Σ) (e : value) (m : string) : Prop :=
  nullish e = false /\ property rt s e "message" = VStr m.

(** The error handed to the adapter for the caught value [e] whose
    message is [m]: a [JobExportNotFoundError] for [details.handler]
    when the message matches [/is not a constructor/], [e] itself
    otherwise. *)
Definition classified (s : Σ) (details e : value) (m : string) : value :=
  if includes "is not a constructor" m
  then Errors.JobExportNotFoundError (property rt s details "handler")
  else e.

(** [I] is a property of the outside state that no call into a
    collaborator of [Executor] breaks. *)
Definition kept_by_calls (I : Σ -> Prop) : Prop :=
  (forall name s, I s -> I (snd (loadJob rt name s))) /\
  (forall c args s, I s -> I (snd (construct rt c args s))) /\
  (forall i args s, I s -> I (snd (perform_of rt i args s))) /\
  (forall a j s, I s -> I (snd (success rt a j s))) /\
  (forall a j e o s, I s -> I (snd (failure rt a j e o s))) /\
  (forall lg level args s, I s -> I (snd (log rt lg level args s))).

(** [w] with the worker [wk]. *)
Definition with_worker (wk : Worker) (w : world Σ) : world Σ :=
  mkWorld (store w) (trace w) (title w) (listeners w) (Some wk)
          (reactions w).

(** The logger [lg] has the method [level], and its call with [args]
    in the outside state [s] returns, leaving the outside state [s']. *)
Definition logs (lg level : string) (args : list value) (s s' : Σ) : Prop :=
  existsb (String.eqb level) (levels rt lg) = true /\
  exists u, log rt lg level args s = (Normal u, s').

(** A computation registers no listener and removes none. *)
Definition deaf {A} (m : M Σ A) : Prop :=
  forall w, listeners (snd (m w)) = listeners w.

(** A computation leaves the listeners of [signal] as they were. *)
Definition deaf_to (signal : string) {A} (m : M Σ A) : Prop :=
  forall w,
    Bin.listeners_of signal (snd (m w)) = Bin.listeners_of signal w.

(** [w] with the listeners [l] registered after those it had. *)
Definition listening (l : list (string * closure)) (w : world Σ) : world Σ :=
  mkWorld (store w) (trace w) (title w) (listeners w ++ l) (worker w)
          (reactions w).

(** A computation never returns: it throws, exits, is killed or
    awaits for ever. *)
Definition endless {A} (m : M Σ A) : Prop :=
  forall w a, fst (m w) <> Normal a.

(** [w] after the events [evs] were recorded and the outside state
    became [s]. *)
Definition advanced (s : Σ) (evs : list event) (w : world Σ) : world Σ :=
  mkWorld s (trace w ++ evs) (title w) (listeners w) (worker w)
          (reactions w).

(** [chain lo hi m]: every run of [m] records the steps [lo], [lo + 1],
    ... in this order, each once, stopping before [hi]; a run that
    completes has recorded them all. *)
Definition chain (lo hi : nat) {A} (m : M Σ A) : Prop :=
  forall w, exists evs,
    trace (snd (m w)) = trace w ++ evs /\
    map stage evs = seq lo (List.length evs) /\
    lo + List.length evs <= hi /\
    (forall a, fst (m w) = Normal a -> lo + List.length evs = hi).

(** What the executor [this] may record: a log entry on its logger, a
    call of [success] on its adapter, a call of [failure] on its adapter
    with its two retry options. *)
Definition own_of (this : Exec.Executor) (ev : event) : Prop :=
  match ev with
  | ELog n _ _ => Exec.logger this = VLogger n
  | ESuccess a _ => Exec.adapter this = VAdapter a
  | EFailure a _ _ o =>
      Exec.adapter this = VAdapter a /\ o = Exec.failure_options this
  | _ => True
  end.

End Obs.
End Obs.

(* ===================================================================== *)
(** * Objects: reading what was written *)
(* ===================================================================== *)

Module ObjectFacts.
Import Js.

Lemma lookup_assign_same (k : string) (v : value) (o : props) :
  lookup k (assign k v o) = Some v.
Proof.
  induction o as [|[k' v'] r IH]; simpl.
  - now rewrite String.eqb_refl.
  - destruct (String.eqb k k') eqn:E; simpl.
    + now rewrite String.eqb_refl.
    + now rewrite E.
Qed.

Lemma lookup_assign_other (k k' : string) (v : value) (o : props) :
  k' <> k -> lookup k' (assign k v o) = lookup k' o.
Proof.
  intros Hne. induction o as [|[k0 v0] r IH]; simpl.
  - apply String.eqb_neq in Hne. now rewrite Hne.
  - destruct (String.eqb k k0) eqn:E; simpl.
    + apply String.eqb_eq in E. subst k0.
      apply String.eqb_neq in Hne. now rewrite Hne.
    + destruct (String.eqb k' k0); auto.
Qed.

Lemma lookup_absent (k : string) (o : props) :
  ~ In k (map fst o) -> lookup k o = None.
Proof.
  induction o as [|[k' v'] r IH]; simpl; intros Hn; auto.
  destruct (String.eqb_spec k k') as [->|Hne].
  - exfalso. apply Hn. now left.
  - apply IH. intros Hin. apply Hn. now right.
Qed.

Lemma lookup_without (k k0 : string) (o : props) :
  lookup k (filter (fun kv => negb (String.eqb k0 (fst kv))) o)
  = if String.eqb k0 k then None else lookup k o.
Proof.
  induction o as [|[k' v'] r IH]; simpl.
  - now destruct (String.eqb k0 k).
  - destruct (String.eqb_spec k0 k') as [E1|E1]; simpl; rewrite IH;
      destruct (String.eqb_spec k0 k) as [E2|E2];
      destruct (String.eqb_spec k k') as [E3|E3];
      subst; auto; congruence.
Qed.

Lemma lookup_own (k : string) (o : props) : lookup k (own o) = lookup k o.
Proof.
  induction o as [|[k' v'] r IH]; simpl; auto.
  destruct (String.eqb_spec k k') as [->|Hne]; auto.
  rewrite lookup_without, IH.
  apply not_eq_sym in Hne. apply String.eqb_neq in Hne. now rewrite Hne.
Qed.

Lemma keys_without (k0 : string) (o : props) :
  NoDup (map fst o) ->
  NoDup (map fst (filter (fun kv => negb (String.eqb k0 (fst kv))) o))
  /\ ~ In k0 (map fst (filter (fun kv => negb (String.eqb k0 (fst kv))) o)).
Proof.
  induction o as [|[k' v'] r IH]; simpl; intros Hnd.
  - split; [constructor | tauto].
  - inversion Hnd as [|? ? Hnotin Hnd']; subst.
    destruct (IH Hnd') as [IH1 IH2].
    destruct (String.eqb_spec k0 k') as [->|Hne]; simpl; [tauto|].
    split.
    + constructor; auto. intros Hin. apply Hnotin.
      apply in_map_iff in Hin. destruct Hin as [[k1 v1] [E Hin]].
      apply filter_In in Hin. apply in_map_iff. exists (k1, v1). tauto.
    + intros [E|Hin]; [congruence | tauto].
Qed.

Lemma own_keys_once (o : props) : NoDup (map fst (own o)).
Proof.
  induction o as [|[k v] r IH]; simpl.
  - constructor.
  - destruct (keys_without k (own r) IH) as [H1 H2]. now constructor.
Qed.

Lemma lookup_written (l a : props) (k : string) :
  NoDup (map fst l) ->
  lookup k (fold_left (fun acc kv => assign (fst kv) (snd kv) acc) l a)
  = match lookup k l with
    | Some v => Some v
    | None => lookup k a
    end.
Proof.
  revert a. induction l as [|[k1 v1] r IH]; simpl; intros a Hnd; auto.
  inversion Hnd as [|? ? Hnotin Hnd']; subst.
  rewrite IH by assumption.
  destruct (String.eqb_spec k k1) as [->|Hne].
  - rewrite (lookup_absent k1 r Hnotin). apply lookup_assign_same.
  - now rewrite lookup_assign_other.
Qed.

(** Reading a property of [{ ...a, ...b }]: the one of [b] when [b] has
    the key, whatever its value; otherwise the one of [a]. *)
Lemma lookup_spread (a b : props) (k : string) :
  lookup k (spread a b)
  = match lookup k b with
    | Some v => Some v
    | None => lookup k a
    end.
Proof.
  unfold spread. rewrite lookup_written by apply own_keys_once.
  now rewrite lookup_own.
Qed.

Lemma field_spread (a b : props) (k : string) :
  field k (spread a b)
  = match lookup k b with
    | Some v => v
    | None => field k a
    end.
Proof.
  unfold field. rewrite lookup_spread. now destruct (lookup k b).
Qed.

End ObjectFacts.

(* ===================================================================== *)
(** * Running computations *)
(* ===================================================================== *)

Module MonadFacts.
Import Js Runtime Obs.

Local Open Scope monad_scope.

Section MonadFacts.

Context {Σ : Type}.
Variable rt : collaborators Σ.

Lemma run_bind {A B} (m : M Σ A) (k : A -> M Σ B) (w : world Σ) :
  bind m k w = match m w with
               | (Normal a, w') => k a w'
               | (Throw e, w') => (Throw e, w')
               | (Exit c, w') => (Exit c, w')
               | (Killed s, w') => (Killed s, w')
               | (Pending, w') => (Pending, w')
               end.
Proof. reflexivity. Qed.

Lemma run_catch {A} (m : M Σ A) (h : value -> M Σ A) (w : world Σ) :
  catch m h w = match m w with
                | (Throw e, w') => h e w'
                | r => r
                end.
Proof. reflexivity. Qed.

(** ** Grafting *)

Lemma graft_bare (w : world Σ) : graft w (bare (store w)) = w.
Proof.
  destruct w. unfold graft, bare. simpl. now rewrite app_nil_r.
Qed.

Lemma graft_graft (w w0 x : world Σ) :
  graft (graft w w0) x = graft w (graft w0 x).
Proof. unfold graft. simpl. now rewrite app_assoc. Qed.

(** ** [uniform] computations *)

Lemma uniform_complete {A} (c : completion A) : uniform (Σ := Σ) (complete c).
Proof. intros w. unfold complete. simpl. now rewrite graft_bare. Qed.

Lemma uniform_ret {A} (a : A) : uniform (Σ := Σ) (ret a).
Proof. apply (uniform_complete (Normal a)). Qed.

Lemma uniform_raise {A} (e : value) : uniform (Σ := Σ) (A := A) (raise e).
Proof. apply (uniform_complete (Throw e)). Qed.

Lemma uniform_pending {A} : uniform (Σ := Σ) (A := A) pending.
Proof. apply (uniform_complete Pending). Qed.

Lemma uniform_bind {A B} (m : M Σ A) (k : A -> M Σ B) :
  uniform m -> (forall a, uniform (k a)) -> uniform (bind m k).
Proof.
  intros Hm Hk w. rewrite !run_bind. rewrite (Hm w).
  destruct (m (bare (store w))) as [[a|e|c|s|] w0]; simpl; try reflexivity.
  rewrite (Hk a (graft w w0)), (Hk a w0). simpl.
  now rewrite graft_graft.
Qed.

Lemma uniform_catch {A} (m : M Σ A) (h : value -> M Σ A) :
  uniform m -> (forall e, uniform (h e)) -> uniform (catch m h).
Proof.
  intros Hm Hh w. rewrite !run_catch. rewrite (Hm w).
  destruct (m (bare (store w))) as [[a|e|c|s|] w0]; simpl; try reflexivity.
  rewrite (Hh e (graft w w0)), (Hh e w0). simpl.
  now rewrite graft_graft.
Qed.

Lemma uniform_emit (ev : event) : uniform (Σ := Σ) (emit ev).
Proof. intros w. reflexivity. Qed.

Lemma uniform_call (ev : event) (f : effect Σ) : uniform (call ev f).
Proof.
  intros w. unfold call. simpl. destruct (f (store w)). reflexivity.
Qed.

Lemma uniform_get (v : value) (k : string) : uniform (get rt v k).
Proof.
  unfold get. destruct (nullish v); [apply uniform_raise|].
  intros w. simpl. now rewrite graft_bare.
Qed.

Lemma uniform_member (v : value) (k : string) : uniform (member rt v k).
Proof.
  unfold member. destruct (nullish v);
    [apply uniform_raise | apply uniform_ret].
Qed.

Lemma uniform_invoke (what : string) (m : method) (args : list value) :
  uniform (invoke rt what m args).
Proof.
  destruct m; unfold invoke.
  - apply uniform_call.
  - apply uniform_call.
  - apply uniform_call.
  - apply uniform_call.
  - apply uniform_ret.
  - apply uniform_raise.
Qed.

Lemma uniform_new (what : string) (f : value) (args : list value) :
  uniform (new rt what f args).
Proof.
  destruct f; simpl; try apply uniform_raise. apply uniform_call.
Qed.

Lemma uniform_spread_args (what : string) (v : value) :
  uniform (Σ := Σ) (spread_args what v).
Proof.
  destruct v; simpl; try apply uniform_raise; apply uniform_ret.
Qed.

Lemma uniform_await (v : value) : uniform (Σ := Σ) (await v).
Proof.
  unfold await. destruct (settle v).
  - apply uniform_ret.
  - apply uniform_raise.
  - apply uniform_pending.
Qed.

(** ** [tidy] computations *)

Section Tidy.

Variable P : event -> Prop.

Lemma tidy_complete {A} (c : completion A) : tidy rt P (complete c).
Proof.
  intros w. exists []. simpl. rewrite app_nil_r.
  repeat split; [constructor | apply cbc_refl].
Qed.

Lemma tidy_ret {A} (a : A) : tidy rt P (ret a).
Proof. apply (tidy_complete (Normal a)). Qed.

Lemma tidy_raise {A} (e : value) : tidy rt P (A := A) (raise e).
Proof. apply (tidy_complete (Throw e)). Qed.

Lemma tidy_pending {A} : tidy rt P (A := A) pending.
Proof. apply (tidy_complete Pending). Qed.

Lemma tidy_then {A} (m : M Σ A) (w : world Σ) (w2 : world Σ) :
  tidy rt P m ->
  (exists evs, trace w2 = trace (snd (m w)) ++ evs /\ Forall P evs /\
               changed_by_collaborators rt (store (snd (m w))) (store w2)) ->
  exists evs, trace w2 = trace w ++ evs /\ Forall P evs /\
              changed_by_collaborators rt (store w) (store w2).
Proof.
  intros Hm [evs2 [Ht2 [HP2 HR2]]].
  destruct (Hm w) as [evs1 [Ht1 [HP1 HR1]]].
  exists (evs1 ++ evs2). repeat split.
  - rewrite Ht2, Ht1. now rewrite app_assoc.
  - apply Forall_app. now split.
  - eapply cbc_trans; eassumption.
Qed.

Lemma tidy_bind {A B} (m : M Σ A) (k : A -> M Σ B) :
  tidy rt P m -> (forall a, tidy rt P (k a)) -> tidy rt P (bind m k).
Proof.
  intros Hm Hk w. rewrite run_bind.
  destruct (m w) as [[a|e|c|s|] w1] eqn:E;
    try (replace w1 with (snd (m w)) by now rewrite E); try apply Hm.
  apply (tidy_then m w); auto.
  rewrite E. simpl. apply Hk.
Qed.

Lemma tidy_catch {A} (m : M Σ A) (h : value -> M Σ A) :
  tidy rt P m -> (forall e, tidy rt P (h e)) -> tidy rt P (catch m h).
Proof.
  intros Hm Hh w. rewrite run_catch.
  destruct (m w) as [[a|e|c|s|] w1] eqn:E;
    try (replace w1 with (snd (m w)) by now rewrite E); try apply Hm.
  apply (tidy_then m w); auto.
  rewrite E. simpl. apply Hh.
Qed.

Lemma tidy_get (v : value) (k : string) : tidy rt P (get rt v k).
Proof.
  unfold get. destruct (nullish v); [apply tidy_raise|].
  intros w. exists []. simpl. rewrite app_nil_r.
  repeat split; [constructor | apply cbc_refl].
Qed.

Lemma tidy_member (v : value) (k : string) : tidy rt P (member rt v k).
Proof.
  unfold member. destruct (nullish v); [apply tidy_raise | apply tidy_ret].
Qed.

(** After [v.k] was read as a callee, the rest runs with that callee. *)
Lemma tidy_member_bind {B} (v : value) (k : string) (f : method -> M Σ B) :
  tidy rt P (f (method_of rt v k)) -> tidy rt P (bind (member rt v k) f).
Proof.
  intros H w. rewrite run_bind. unfold member.
  destruct (nullish v); simpl.
  - exists []. rewrite app_nil_r.
    repeat split; [constructor | apply cbc_refl].
  - apply H.
Qed.

Lemma tidy_emit (ev : event) : P ev -> tidy rt P (emit ev).
Proof.
  intros H w. exists [ev]. simpl.
  repeat split; [now constructor | apply cbc_refl].
Qed.

Lemma tidy_call (ev : event) (f : effect Σ) :
  P ev -> (forall s, changed_by_collaborators rt s (snd (f s))) ->
  tidy rt P (call ev f).
Proof.
  intros H Hf w. exists [ev]. unfold call.
  specialize (Hf (store w)). destruct (f (store w)) as [c s]. simpl in *.
  repeat split; [now constructor | assumption].
Qed.

Lemma tidy_invoke (what : string) (m : method) (args : list value) :
  (forall ev, event_of m args = Some ev -> P ev) ->
  tidy rt P (invoke rt what m args).
Proof.
  intros H. destruct m; unfold invoke; simpl in H.
  - apply tidy_call; [auto | intros; apply cbc_log].
  - apply tidy_call; [auto | intros; apply cbc_success].
  - apply tidy_call; [auto | intros; apply cbc_failure].
  - apply tidy_call; [auto | intros; apply cbc_perform].
  - apply tidy_ret.
  - apply tidy_raise.
Qed.

Lemma tidy_new (what : string) (f : value) (args : list value) :
  (forall c, P (ENew c args)) -> tidy rt P (new rt what f args).
Proof.
  intros H. destruct f; simpl; try apply tidy_raise.
  apply tidy_call; [auto | intros; apply cbc_construct].
Qed.

Lemma tidy_spread_args (what : string) (v : value) :
  tidy rt P (spread_args what v).
Proof.
  destruct v; simpl; try apply tidy_raise; apply tidy_ret.
Qed.

Lemma tidy_await (v : value) : tidy rt P (await v).
Proof.
  unfold await. destruct (settle v).
  - apply tidy_ret.
  - apply tidy_raise.
  - apply tidy_pending.
Qed.

End Tidy.

End MonadFacts.
End MonadFacts.

(* ===================================================================== *)
(** * The shape of the runs of [Executor] *)
(* ===================================================================== *)

Module ExecFacts.
Import Js Runtime Errors Obs MonadFacts Exec.

Local Open Scope monad_scope.

Ltac uniform_steps rt :=
  repeat first
    [ apply uniform_bind; [|intros]
    | apply uniform_catch; [|intros]
    | apply uniform_ret
    | apply uniform_raise
    | apply uniform_complete
    | apply (uniform_get rt)
    | apply uniform_member
    | apply (uniform_invoke rt)
    | apply (uniform_new rt)
    | apply uniform_spread_args
    | apply uniform_await
    | apply uniform_call
    | match goal with
      | |- uniform (if ?b then _ else _) => destruct b
      end ].

(** Closes a side condition on the event a call records. *)
Ltac event_side :=
  intros; simpl in *; try discriminate; try tauto;
  repeat match goal with
         | H : Some _ = Some _ |- _ => inversion H; clear H; subst
         end;
  simpl; auto; try congruence.

(** Closes [forall ev, event_of (method_of v k) args = Some ev -> P ev]
    for a literal key [k]. *)
Ltac callee_event :=
  let ev := fresh "ev" in
  let H := fresh "H" in
  intros ev H;
  match type of H with
  | event_of (method_of _ ?v _) _ = _ => destruct v
  end;
  simpl in H;
  try match type of H with
      | context [if ?b then _ else _] => destruct b
      end;
  simpl in H; try discriminate;
  inversion H; subst; event_side.

Ltac tidy_steps rt :=
  repeat first
    [ apply tidy_member_bind
    | apply tidy_bind; [|intros]
    | apply tidy_catch; [|intros]
    | apply tidy_ret
    | apply tidy_raise
    | apply tidy_complete
    | apply tidy_get
    | apply tidy_member
    | apply tidy_spread_args
    | apply tidy_await
    | apply tidy_invoke; callee_event
    | apply tidy_new; event_side
    | apply tidy_call; [event_side | intros; constructor]
    | match goal with
      | |- tidy _ _ (if ?b then _ else _) => destruct b
      end ].

Section ExecFacts.

Context {Σ : Type}.
Variable rt : collaborators Σ.
Variable DEFAULT_MAX_ATTEMPTS : Z.
Variable DEFAULT_DELETE_FAILED_JOBS : bool.

Lemma uniform_constructor (opts : props) :
  uniform (Σ := Σ)
    (constructor DEFAULT_MAX_ATTEMPTS DEFAULT_DELETE_FAILED_JOBS opts).
Proof. unfold constructor. uniform_steps rt. Qed.

Lemma uniform_perform (this : Executor) : uniform (perform rt this).
Proof.
  unfold perform, perform_body, start, run_job, report_success, classify,
    report_failure.
  uniform_steps rt.
Qed.

(** Neither the statements before the [try] nor the loading and the
    invocation of the handler call the adapter. *)
Lemma start_no_adapter_call (this : Executor) :
  tidy rt (fun ev => is_adapter_call ev = false) (start rt this).
Proof. unfold start. tidy_steps rt. Qed.

Lemma run_job_no_adapter_call (details : value) :
  tidy rt (fun ev => is_adapter_call ev = false) (run_job rt details).
Proof. unfold run_job. tidy_steps rt. Qed.

(** Every adapter call of [perform] reports on the job of the
    executor. *)
Lemma perform_reports_own_job (this : Executor) :
  tidy rt (fun ev => forall j, reported_job ev = Some j -> j = job this)
       (perform rt this).
Proof.
  unfold perform, perform_body, start, run_job, report_success, classify,
    report_failure.
  tidy_steps rt.
Qed.

Lemma adapter_calls_app (t u : list event) :
  adapter_calls (t ++ u) = adapter_calls t ++ adapter_calls u.
Proof. apply filter_app. Qed.

Lemma adapter_calls_none (evs : list event) :
  Forall (fun ev => is_adapter_call ev = false) evs -> adapter_calls evs = [].
Proof.
  induction 1 as [|ev evs Hev _ IH]; simpl; auto. now rewrite Hev.
Qed.

(** The adapter calls of a trace are those it had before [start] and
    [run_job] ran. *)
Lemma start_adapter_calls (this : Executor) (w : world Σ) :
  adapter_calls (trace (snd (start rt this w))) = adapter_calls (trace w).
Proof.
  destruct (start_no_adapter_call this w) as [evs [Ht [HP _]]].
  rewrite Ht, adapter_calls_app, (adapter_calls_none evs HP).
  apply app_nil_r.
Qed.

Lemma run_job_adapter_calls (details : value) (w : world Σ) :
  adapter_calls (trace (snd (run_job rt details w))) = adapter_calls (trace w).
Proof.
  destruct (run_job_no_adapter_call details w) as [evs [Ht [HP _]]].
  rewrite Ht, adapter_calls_app, (adapter_calls_none evs HP).
  apply app_nil_r.
Qed.

End ExecFacts.
End ExecFacts.

(* ===================================================================== *)
(** * Properties of [Executor] *)
(* ===================================================================== *)

Section ExecutorProperties.

Import Js Runtime Errors Obs MonadFacts Exec ExecFacts ObjectFacts.

Local Open Scope monad_scope.

Context {Σ : Type}.
Variable rt : collaborators Σ.
Variable DEFAULT_MAX_ATTEMPTS : Z.
Variable DEFAULT_DELETE_FAILED_JOBS : bool.

(** ** Reads and calls, run *)

Lemma get_run (v : value) (k : string) (w : world Σ) :
  get rt v k w = if nullish v then (Throw (cannot_read v k), w)
                 else (Normal (property rt (store w) v k), w).
Proof. unfold get. now destruct (nullish v). Qed.

Lemma member_run (v : value) (k : string) (w : world Σ) :
  member rt v k w = if nullish v then (Throw (cannot_read v k), w)
                    else (Normal (method_of rt v k), w).
Proof. unfold member. now destruct (nullish v). Qed.

Lemma call_run (ev : event) (f : effect Σ) (w : world Σ) :
  call ev f w = (fst (f (store w)), advanced (snd (f (store w))) [ev] w).
Proof. unfold call, advanced. now destruct (f (store w)). Qed.

(** A call of a method of a logger is recorded, and completes as the
    logger makes it: it may throw. *)
Lemma invoke_log (what lg level : string) (args : list value) (w : world Σ) :
  invoke rt what (MLog lg level) args w
  = (fst (log rt lg level args (store w)),
     advanced (snd (log rt lg level args (store w))) [ELog lg level args] w).
Proof. unfold invoke. apply call_run. Qed.

Lemma invoke_not_callable (what : string) (args : list value) (w : world Σ) :
  invoke rt what MNotCallable args w
  = (Throw (TypeError (what ++ " is not a function")), w).
Proof. reflexivity. Qed.

(** Only a logger has an [info] method. *)
Lemma info_of_logger (v : value) :
  nullish v = false -> method_of rt v "info" <> MNotCallable ->
  exists lg, v = VLogger lg.
Proof.
  destruct v; simpl; intros Hn Hm; try discriminate; try congruence.
  now exists name.
Qed.

(** ** The constructor *)

Lemma options_adapter (opts : props) :
  field "adapter" (spread (DEFAULTS DEFAULT_MAX_ATTEMPTS
                                    DEFAULT_DELETE_FAILED_JOBS) opts)
  = field "adapter" opts.
Proof. rewrite field_spread. unfold field. now destruct (lookup _ opts). Qed.

Lemma options_job (opts : props) :
  field "job" (spread (DEFAULTS DEFAULT_MAX_ATTEMPTS
                                DEFAULT_DELETE_FAILED_JOBS) opts)
  = field "job" opts.
Proof. rewrite field_spread. unfold field. now destruct (lookup _ opts). Qed.

(** C5. Constructing an [Executor] from options whose adapter is missing
    (absent, or any falsy value) throws [AdapterRequiredError]; with an
    adapter but a missing job it throws [JobRequiredError]. Both throws
    leave the world as it was: nothing was parsed, loaded, invoked,
    logged or reported before them. *)
Theorem constructor_requires_adapter_then_job :
  forall (opts : props) (w : world Σ),
    (truthy (field "adapter" opts) = false ->
     Exec.constructor DEFAULT_MAX_ATTEMPTS DEFAULT_DELETE_FAILED_JOBS opts w
     = (Throw AdapterRequiredError, w)) /\
    (truthy (field "adapter" opts) = true ->
     truthy (field "job" opts) = false ->
     Exec.constructor DEFAULT_MAX_ATTEMPTS DEFAULT_DELETE_FAILED_JOBS opts w
     = (Throw JobRequiredError, w)).
Proof.
  intros opts w. unfold Exec.constructor.
  rewrite options_adapter, options_job. split.
  - intros Ha. rewrite Ha. reflexivity.
  - intros Ha Hj. rewrite Ha, Hj. reflexivity.
Qed.

(** C10. The defaults are spread under the options: a key the options
    object has wins, whatever its value, and the default is stored only
    for a key the object lacks. Options with a valid adapter and job
    construct an [Executor] whose [logger], [maxAttempts] and
    [deleteFailedJobs] are the options' own values when the keys are
    present (so an explicit [undefined] is stored as is) and the
    defaults when they are absent. *)
Theorem defaults_only_for_absent_keys :
  forall (opts : props) (w : world Σ),
    truthy (field "adapter" opts) = true ->
    truthy (field "job" opts) = true ->
    exists this,
      Exec.constructor DEFAULT_MAX_ATTEMPTS DEFAULT_DELETE_FAILED_JOBS opts w
      = (Normal this, w) /\
      logger this = match lookup "logger" opts with
                    | Some v => v
                    | None => console
                    end /\
      maxAttempts this = match lookup "maxAttempts" opts with
                         | Some v => v
                         | None => VNum DEFAULT_MAX_ATTEMPTS
                         end /\
      deleteFailedJobs this = match lookup "deleteFailedJobs" opts with
                              | Some v => v
                              | None => VBool DEFAULT_DELETE_FAILED_JOBS
                              end.
Proof.
  intros opts w Ha Hj. unfold Exec.constructor.
  rewrite options_adapter, options_job, Ha, Hj. simpl.
  eexists. split; [reflexivity|]. simpl.
  rewrite !field_spread. repeat split.
Qed.

(** ** The statements before the [try] *)

(** When the statements before the [try] complete, the logger of the
    executor is a logger. *)
Lemma start_has_logger (this : Executor) (w w1 : world Σ) (details : value) :
  start rt this w = (Normal details, w1) -> exists lg, logger this = VLogger lg.
Proof.
  unfold start. rewrite run_bind, member_run.
  destruct (nullish (logger this)) eqn:Hn; [discriminate|].
  destruct (method_of rt (logger this) "info") eqn:Hm; intros H;
    try (apply info_of_logger; [assumption | congruence]).
  rewrite run_bind, get_run in H.
  destruct (nullish (job this)); [discriminate|].
  rewrite run_bind, invoke_not_callable in H. discriminate.
Qed.

(** A value thrown before the [try] is thrown by [perform], and the
    adapter was not called. *)
Lemma start_throw_escapes (this : Executor) (w w1 : world Σ) (e : value) :
  start rt this w = (Throw e, w1) ->
  perform rt this w = (Throw e, w1) /\
  adapter_calls (trace w1) = adapter_calls (trace w).
Proof.
  intros H. split.
  - unfold perform, perform_body. rewrite !run_bind, H. reflexivity.
  - pose proof (start_adapter_calls rt this w) as Hc. now rewrite H in Hc.
Qed.

(** ** The [try] block *)

(** With no details to read the handler name from, the [try] block
    throws at once. *)
Lemma run_job_without_details (details : value) (w : world Σ) :
  nullish details = true ->
  run_job rt details w = (Throw (cannot_read details "handler"), w).
Proof.
  intros Hn. unfold run_job. rewrite run_bind, get_run, Hn. reflexivity.
Qed.

Lemma cannot_read_handler_message (details : value) :
  nullish details = true ->
  exists m, cannot_read details "handler" = VError "TypeError" m /\
            includes "is not a constructor" m = false.
Proof.
  destruct details; try discriminate; intros _; eexists;
    (split; [reflexivity | vm_compute; reflexivity]).
Qed.

(** A value thrown by the [try] block with a message that matches
    [/is not a constructor/] was thrown with details at hand. *)
Lemma try_block_throw_has_details
      (this : Executor) (details e : value) (w1 w2 : world Σ) (m : string) :
  (run_job rt details ;; report_success rt this) w1 = (Throw e, w2) ->
  message_is rt (store w2) e m ->
  includes "is not a constructor" m = true ->
  nullish details = false.
Proof.
  intros Hthrow [_ Hm] Hinc.
  destruct (nullish details) eqn:Hn; [|reflexivity].
  rewrite run_bind, (run_job_without_details details w1 Hn) in Hthrow.
  inversion Hthrow; subst.
  destruct (cannot_read_handler_message details Hn) as [m' [E Hm']].
  rewrite E in Hm. simpl in Hm. congruence.
Qed.

(** ** The [catch] block *)

Lemma classify_run (details e : value) (m : string) (w : world Σ) :
  message_is rt (store w) e m ->
  (includes "is not a constructor" m = true -> nullish details = false) ->
  classify rt details e w = (Normal (classified rt (store w) details e m), w).
Proof.
  intros [He Hm] Hd. unfold classify, classified.
  rewrite run_bind, get_run, He, Hm.
  rewrite run_bind, member_run. simpl.
  destruct (includes "is not a constructor" m) eqn:Hinc; simpl.
  - rewrite get_run, (Hd eq_refl). reflexivity.
  - reflexivity.
Qed.

(** Without a string for a message, classifying throws a [TypeError]
    and does nothing else. *)
Lemma classify_without_message (details e : value) (w : world Σ) :
  (forall m, ~ message_is rt (store w) e m) ->
  exists msg, classify rt details e w = (Throw (TypeError msg), w).
Proof.
  intros Hno. unfold classify. rewrite run_bind, get_run.
  destruct (nullish e) eqn:He; [eexists; reflexivity|].
  rewrite run_bind, member_run.
  destruct (property rt (store w) e "message") eqn:Hm;
    try (eexists; reflexivity).
  exfalso. apply (Hno s). now split.
Qed.

Lemma classified_not_nullish (s : Σ) (details e : value) (m : string) :
  nullish e = false -> nullish (classified rt s details e m) = false.
Proof.
  intros He. unfold classified. now destruct (includes _ m).
Qed.

(** The [catch] block, for a caught value with a string message, on an
    executor with a logger that has [error] and an adapter: the error
    is classified and the call of [logger.error] with its stack is
    recorded; when that call returns, [adapter.failure] is called, and
    its completion is the completion of the block; when it does not,
    its completion is the completion of the block, and the adapter is
    not called. *)
Lemma catch_block_run
      (this : Executor) (a : nat) (lg : string) (details e : value)
      (m : string) (w : world Σ) (c : completion value) (s' : Σ) :
  adapter this = VAdapter a ->
  logger this = VLogger lg ->
  message_is rt (store w) e m ->
  (includes "is not a constructor" m = true -> nullish details = false) ->
  let error := classified rt (store w) details e m in
  let stack := property rt (store w) error "stack" in
  existsb (String.eqb "error") (levels rt lg) = true ->
  log rt lg "error" [stack] (store w) = (c, s') ->
  (error <- classify rt details e ;; report_failure rt this error) w
  = match c with
    | Normal _ =>
        call (EFailure a (job this) error (failure_options this))
             (failure rt a (job this) error (failure_options this))
             (advanced s' [ELog lg "error" [stack]] w)
    | Throw x => (Throw x, advanced s' [ELog lg "error" [stack]] w)
    | Exit n => (Exit n, advanced s' [ELog lg "error" [stack]] w)
    | Killed sg => (Killed sg, advanced s' [ELog lg "error" [stack]] w)
    | Pending => (Pending, advanced s' [ELog lg "error" [stack]] w)
    end.
Proof.
  intros Ha Hl Hm Hd error stack Hlv Hlog. subst error stack.
  rewrite run_bind, (classify_run details e m w Hm Hd).
  unfold report_failure. rewrite Hl, Ha.
  rewrite run_bind, member_run.
  change (nullish (VLogger lg)) with false. cbv iota.
  change (method_of rt (VLogger lg) "error")
    with (if existsb (String.eqb "error") (levels rt lg)
          then MLog lg "error" else MNotCallable).
  rewrite Hlv. rewrite run_bind, get_run.
  rewrite (classified_not_nullish (store w) details e m (proj1 Hm)).
  rewrite run_bind, invoke_log, Hlog. cbn [fst snd].
  destruct c; reflexivity.
Qed.

(** The same on a logger that has no [error]: the block throws a
    [TypeError] and does nothing else. *)
Lemma catch_block_without_error_method
      (this : Executor) (lg : string) (details e : value) (m : string)
      (w : world Σ) :
  logger this = VLogger lg ->
  message_is rt (store w) e m ->
  (includes "is not a constructor" m = true -> nullish details = false) ->
  existsb (String.eqb "error") (levels rt lg) = false ->
  (error <- classify rt details e ;; report_failure rt this error) w
  = (Throw (TypeError "this.logger.error is not a function"), w).
Proof.
  intros Hl Hm Hd Hlv.
  rewrite run_bind, (classify_run details e m w Hm Hd).
  unfold report_failure. rewrite Hl.
  rewrite run_bind, member_run.
  change (nullish (VLogger lg)) with false. cbv iota.
  change (method_of rt (VLogger lg) "error")
    with (if existsb (String.eqb "error") (levels rt lg)
          then MLog lg "error" else MNotCallable).
  rewrite Hlv. rewrite run_bind, get_run.
  rewrite (classified_not_nullish (store w) details e m (proj1 Hm)).
  reflexivity.
Qed.

(** ** Calls into the adapter *)

Lemma report_success_run (this : Executor) (a : nat) (w : world Σ) :
  adapter this = VAdapter a ->
  report_success rt this w
  = call (ESuccess a (job this)) (success rt a (job this)) w.
Proof.
  intros Ha. unfold report_success. rewrite Ha. reflexivity.
Qed.

(** The run of [perform_body] on an executor with an adapter, once the
    statements before the [try] and the handler have completed: the
    call of [adapter.success], and the [catch] block if that call
    throws. *)
Lemma perform_body_after_job
      (this : Executor) (a : nat) (w w1 w2 : world Σ) (details v : value) :
  adapter this = VAdapter a ->
  start rt this w = (Normal details, w1) ->
  run_job rt details w1 = (Normal v, w2) ->
  perform_body rt this w
  = match call (ESuccess a (job this)) (success rt a (job this)) w2 with
    | (Throw e, w3) =>
        (error <- classify rt details e ;; report_failure rt this error) w3
    | r => r
    end.
Proof.
  intros Ha Hs Hr. unfold perform_body.
  rewrite run_bind, Hs, run_catch, run_bind, Hr.
  now rewrite (report_success_run this a w2 Ha).
Qed.

(** The same, when the handler has thrown: the [catch] block. *)
Lemma perform_body_after_throw
      (this : Executor) (w w1 w2 : world Σ) (details e : value) :
  start rt this w = (Normal details, w1) ->
  run_job rt details w1 = (Throw e, w2) ->
  perform_body rt this w
  = (error <- classify rt details e ;; report_failure rt this error) w2.
Proof.
  intros Hs Hr. unfold perform_body.
  now rewrite run_bind, Hs, run_catch, run_bind, Hr.
Qed.

Lemma adapter_calls_before_report
      (this : Executor) (w w1 w2 : world Σ) (details : value)
      (c : completion value) :
  start rt this w = (Normal details, w1) ->
  run_job rt details w1 = (c, w2) ->
  adapter_calls (trace w2) = adapter_calls (trace w).
Proof.
  intros Hs Hr.
  pose proof (start_adapter_calls rt this w) as H1.
  pose proof (run_job_adapter_calls rt details w1) as H2.
  rewrite Hs in H1. rewrite Hr in H2. simpl in *. congruence.
Qed.

Lemma adapter_calls_snoc (t : list event) (ev : event) :
  is_adapter_call ev = true -> adapter_calls (t ++ [ev]) = adapter_calls t ++ [ev].
Proof.
  intros H. rewrite adapter_calls_app. simpl. now rewrite H.
Qed.

Lemma adapter_calls_log (t : list event) (lg level : string) (args : list value) :
  adapter_calls (t ++ [ELog lg level args]) = adapter_calls t.
Proof. rewrite adapter_calls_app. simpl. apply app_nil_r. Qed.

(** ** The claims on [perform] *)

(** C9. When the value thrown while the handler is loaded or invoked
    has no string for a [message] (a thrown string, [null], a plain
    object), classifying it throws a [TypeError]: that error is what
    [perform] throws, nothing is done after the throw of the handler,
    and the adapter is called neither for success nor for failure. *)
Theorem unclassifiable_throw_escapes :
  forall (this : Executor) (w w1 w2 : world Σ) (details e : value),
    start rt this w = (Normal details, w1) ->
    run_job rt details w1 = (Throw e, w2) ->
    (forall m, ~ message_is rt (store w2) e m) ->
    exists msg,
      perform rt this w = (Throw (TypeError msg), w2) /\
      adapter_calls (trace w2) = adapter_calls (trace w).
Proof.
  intros this w w1 w2 details e Hs Hr Hno.
  destruct (classify_without_message details e w2 Hno) as [msg Hc].
  exists msg. split.
  - unfold perform.
    rewrite run_bind, (perform_body_after_throw this w w1 w2 details e Hs Hr).
    now rewrite run_bind, Hc.
  - apply (adapter_calls_before_report this w w1 w2 details _ Hs Hr).
Qed.

(** C3, amended. For a job whose handler resolves and whose [perform]
    entry point completes, [adapter.success] is called once with the
    job of the executor. When that call returns, its result is the
    result of [perform], and it is the only call of the adapter. When
    that call throws, the thrown value is caught as if the job had
    thrown it. *)
Theorem success_reported_when_it_returns :
  forall (this : Executor) (a : nat) (w w1 w2 : world Σ) (details v : value),
    adapter this = VAdapter a ->
    start rt this w = (Normal details, w1) ->
    run_job rt details w1 = (Normal v, w2) ->
    let reported :=
      call (ESuccess a (job this)) (success rt a (job this)) w2 in
    (forall r, fst reported = Normal r ->
       perform_body rt this w = (Normal r, snd reported) /\
       perform rt this w = await r (snd reported) /\
       adapter_calls (trace (snd reported))
       = adapter_calls (trace w) ++ [ESuccess a (job this)]) /\
    (forall e, fst reported = Throw e ->
       perform_body rt this w
       = (error <- classify rt details e ;; report_failure rt this error)
           (snd reported)).
Proof.
  intros this a w w1 w2 details v Ha Hs Hr. cbv zeta.
  pose proof (perform_body_after_job this a w w1 w2 details v Ha Hs Hr) as Hb.
  pose proof (call_run (ESuccess a (job this)) (success rt a (job this)) w2)
    as Hcall.
  destruct (call (ESuccess a (job this)) (success rt a (job this)) w2)
    as [c w3].
  simpl. split.
  - intros r Hfst. subst c. split; [assumption|]. split.
    + unfold perform. now rewrite run_bind, Hb.
    + inversion Hcall; subst. simpl.
      rewrite adapter_calls_snoc by reflexivity.
      now rewrite (adapter_calls_before_report this w w1 w2 details _ Hs Hr).
  - intros e Hfst. now subst c.
Qed.

Lemma await_world (v : value) (w : world Σ) : snd (await v w) = w.
Proof. unfold await. now destruct (settle v). Qed.

(** [perform] leaves the world where its body left it. *)
Lemma perform_world (this : Executor) (w : world Σ) :
  snd (perform rt this w) = snd (perform_body rt this w).
Proof.
  unfold perform. rewrite run_bind.
  destruct (perform_body rt this w) as [[r|e|c|s|] w']; try reflexivity.
  apply await_world.
Qed.

Lemma kept_along (I : Σ -> Prop) (s s' : Σ) :
  kept_by_calls rt I -> changed_by_collaborators rt s s' -> I s -> I s'.
Proof.
  intros [H1 [H2 [H3 [H4 [H5 H6]]]]] Hc. induction Hc; auto.
Qed.

(** C4, amended. For every caught value whose [message] is a string:
    when the message matches [/is not a constructor/], whatever else it
    says, the error to hand to [adapter.failure] is the
    [JobExportNotFoundError] of the handler name of the details;
    otherwise it is the caught value itself. [logger.error] is called
    with the stack of that error, and when that call returns,
    [adapter.failure] is called with the job, that error and the
    options of the executor, and is what [perform] ends with. *)
Theorem caught_error_is_classified :
  forall (this : Executor) (a : nat) (w w1 w2 : world Σ)
         (details e : value) (m : string),
    adapter this = VAdapter a ->
    start rt this w = (Normal details, w1) ->
    (run_job rt details ;; report_success rt this) w1 = (Throw e, w2) ->
    message_is rt (store w2) e m ->
    exists lg error,
      logger this = VLogger lg /\
      (if includes "is not a constructor" m
       then nullish details = false /\
            error = JobExportNotFoundError
                      (property rt (store w2) details "handler")
       else error = e) /\
      forall s3,
        logs rt lg "error" [property rt (store w2) error "stack"]
             (store w2) s3 ->
        perform_body rt this w
        = call (EFailure a (job this) error (failure_options this))
               (failure rt a (job this) error (failure_options this))
               (advanced s3
                  [ELog lg "error" [property rt (store w2) error "stack"]]
                  w2).
Proof.
  intros this a w w1 w2 details e m Ha Hs Ht Hm.
  destruct (start_has_logger this w w1 details Hs) as [lg Hl].
  pose proof (try_block_throw_has_details this details e w1 w2 m Ht Hm) as Hd.
  exists lg, (classified rt (store w2) details e m).
  split; [exact Hl|]. split.
  - unfold classified.
    destruct (includes "is not a constructor" m); auto.
  - intros s3 [Hlv [u Hlog]].
    unfold perform_body. rewrite run_bind, Hs, run_catch, Ht.
    apply (catch_block_run this a lg details e m w2 (Normal u) s3
             Ha Hl Hm Hd Hlv Hlog).
Qed.

(** C1, amended. A value thrown while the handler is resolved,
    instantiated or invoked (inside the [try]), whose [message] is a
    string, is classified, and [logger.error] is called with the stack
    of the error. When that call returns, the value does not leave
    [perform]: the error is handed to [adapter.failure] with the job
    and [{ maxAttempts, deleteFailedJobs }], and the completion of that
    call is the completion of [perform]'s body. When [logger.error]
    throws, or the logger has no [error], [perform] throws what that
    call threw, and the adapter is not called. A value thrown before
    the [try], where the start is logged and the handler field is
    parsed, is thrown by [perform], and the adapter is not called. *)
Theorem errors_inside_try_are_reported :
  forall (this : Executor) (a : nat) (w w1 : world Σ),
    adapter this = VAdapter a ->
    (forall details w2 e m,
       start rt this w = (Normal details, w1) ->
       run_job rt details w1 = (Throw e, w2) ->
       message_is rt (store w2) e m ->
       exists lg,
         logger this = VLogger lg /\
         let error := classified rt (store w2) details e m in
         let stack := property rt (store w2) error "stack" in
         (forall s3,
            logs rt lg "error" [stack] (store w2) s3 ->
            perform_body rt this w
            = call (EFailure a (job this) error (failure_options this))
                   (failure rt a (job this) error (failure_options this))
                   (advanced s3 [ELog lg "error" [stack]] w2)) /\
         (forall x s3,
            existsb (String.eqb "error") (levels rt lg) = true ->
            log rt lg "error" [stack] (store w2) = (Throw x, s3) ->
            perform rt this w
            = (Throw x, advanced s3 [ELog lg "error" [stack]] w2) /\
            adapter_calls (trace (advanced s3 [ELog lg "error" [stack]] w2))
            = adapter_calls (trace w)) /\
         (existsb (String.eqb "error") (levels rt lg) = false ->
          perform rt this w
          = (Throw (TypeError "this.logger.error is not a function"), w2) /\
          adapter_calls (trace w2) = adapter_calls (trace w))) /\
    (forall e,
       start rt this w = (Throw e, w1) ->
       perform rt this w = (Throw e, w1) /\
       adapter_calls (trace w1) = adapter_calls (trace w)).
Proof.
  intros this a w w1 Ha. split.
  - intros details w2 e m Hs Hr Hm.
    destruct (start_has_logger this w w1 details Hs) as [lg Hl].
    exists lg. split; [exact Hl|]. cbv zeta.
    pose proof (perform_body_after_throw this w w1 w2 details e Hs Hr) as Hb.
    pose proof (adapter_calls_before_report this w w1 w2 details _ Hs Hr)
      as Hc.
    assert (Hd : includes "is not a constructor" m = true ->
                 nullish details = false).
    { apply (try_block_throw_has_details this details e w1 w2 m); auto.
      now rewrite run_bind, Hr. }
    split; [|split].
    + intros s3 [Hlv [u Hlog]]. rewrite Hb.
      apply (catch_block_run this a lg details e m w2 (Normal u) s3
               Ha Hl Hm Hd Hlv Hlog).
    + intros x s3 Hlv Hlog. split.
      * unfold perform. rewrite run_bind, Hb.
        now rewrite (catch_block_run this a lg details e m w2 (Throw x) s3
                       Ha Hl Hm Hd Hlv Hlog).
      * unfold advanced. cbn [trace].
        now rewrite adapter_calls_log.
    + intros Hlv. split; [|exact Hc].
      unfold perform. rewrite run_bind, Hb.
      now rewrite (catch_block_without_error_method this lg details e m w2
                     Hl Hm Hd Hlv).
  - intros e Hs. now apply start_throw_escapes.
Qed.

(** C2, amended. In a call of [perform] on an executor with an adapter
    where the statements before the [try] complete, and the handler
    either completes, [adapter.success] then not throwing, or throws a
    value whose [message] is a string, [logger.error] then returning,
    the adapter is called exactly once: [success] in the first case,
    [failure] in the second, with the job of the executor. *)
Theorem exactly_one_adapter_call :
  forall (this : Executor) (a : nat) (lg : string) (w w1 w2 : world Σ)
         (details : value) (c : completion value),
    adapter this = VAdapter a ->
    logger this = VLogger lg ->
    start rt this w = (Normal details, w1) ->
    run_job rt details w1 = (c, w2) ->
    match c with
    | Normal _ =>
        forall e s, success rt a (job this) (store w2) <> (Throw e, s)
    | Throw e =>
        exists m s3,
          message_is rt (store w2) e m /\
          logs rt lg "error"
               [property rt (store w2)
                         (classified rt (store w2) details e m) "stack"]
               (store w2) s3
    | _ => False
    end ->
    exists ev,
      adapter_calls (trace (snd (perform rt this w)))
      = adapter_calls (trace w) ++ [ev] /\
      reported_job ev = Some (job this) /\
      is_success ev = match c with Normal _ => true | _ => false end.
Proof.
  intros this a lg w w1 w2 details c Ha Hl Hs Hr Hc.
  pose proof (adapter_calls_before_report this w w1 w2 details c Hs Hr) as Hb.
  rewrite perform_world.
  destruct c as [v|e| | |]; try contradiction.
  - exists (ESuccess a (job this)).
    rewrite (perform_body_after_job this a w w1 w2 details v Ha Hs Hr).
    rewrite call_run.
    destruct (success rt a (job this) (store w2)) as [[r|e|x|x|] s] eqn:E;
      unfold advanced; cbn [fst snd trace];
      try (rewrite adapter_calls_snoc, Hb by reflexivity; auto).
    exfalso. apply (Hc e s). reflexivity.
  - destruct Hc as [m [s3 [Hm [Hlv [u Hlog]]]]].
    exists (EFailure a (job this) (classified rt (store w2) details e m)
                     (failure_options this)).
    rewrite (perform_body_after_throw this w w1 w2 details e Hs Hr).
    rewrite (catch_block_run this a lg details e m w2 (Normal u) s3
               Ha Hl Hm); auto.
    + rewrite call_run. unfold advanced. cbn [fst snd trace].
      rewrite adapter_calls_snoc, adapter_calls_log, Hb by reflexivity. auto.
    + apply (try_block_throw_has_details this details e w1 w2 m); auto.
      now rewrite run_bind, Hr.
Qed.

(** C6. The executor holds the job it was constructed with, and
    [perform] only reports on it: every call of [adapter.success] or
    [adapter.failure] made by [perform] is given that very job, and the
    outside state changes during [perform] by the calls into the
    collaborators alone, so that whatever holds of the job record (its
    [id], its [handler] payload, any field) and is not broken by a
    collaborator still holds after [perform]. *)
Theorem perform_only_reports_on_its_job :
  forall (opts : props) (this : Executor) (w0 w0' w : world Σ),
    (Exec.constructor DEFAULT_MAX_ATTEMPTS DEFAULT_DELETE_FAILED_JOBS opts w0
     = (Normal this, w0') ->
     w0' = w0 /\ job this = field "job" opts) /\
    (exists evs,
       trace (snd (perform rt this w)) = trace w ++ evs /\
       Forall (fun ev => forall j, reported_job ev = Some j -> j = job this)
              evs /\
       changed_by_collaborators rt (store w) (store (snd (perform rt this w))))
    /\
    (forall I : Σ -> Prop,
       kept_by_calls rt I -> I (store w) ->
       I (store (snd (perform rt this w)))).
Proof.
  intros opts this w0 w0' w.
  destruct (perform_reports_own_job rt this w) as [evs [Ht [Hev Hch]]].
  split; [|split].
  - unfold Exec.constructor. rewrite options_adapter, options_job.
    destruct (truthy (field "adapter" opts)); simpl; [|discriminate].
    destruct (truthy (field "job" opts)); simpl; [|discriminate].
    intros H. inversion H; subst. simpl. split; reflexivity.
  - exists evs. auto.
  - intros I HI Hw. apply (kept_along I (store w)); assumption.
Qed.

End ExecutorProperties.

(* ===================================================================== *)
(** * Properties of the worker process *)
(* ===================================================================== *)

Section ProcessProperties.

Import Js Runtime Errors Obs MonadFacts Exec ExecFacts ObjectFacts Loop Bin.

Local Open Scope string_scope.
Local Open Scope monad_scope.

Context {Σ : Type}.
Variable rt : collaborators Σ.

(** ** The methods of a logger *)

(** What [v.k] is as a callee, for [k] one of the four methods of a
    logger: that method of a logger that has it, or nothing that can be
    called. *)
Lemma logger_method (v : value) (k : string) :
  existsb (String.eqb k) log_levels = true ->
  method_of rt v k = MNotCallable \/
  exists lg, v = VLogger lg /\
             existsb (String.eqb k) (levels rt lg) = true /\
             method_of rt v k = MLog lg k.
Proof.
  intros Hk. destruct v; unfold method_of; auto.
  - destruct (String.eqb_spec k "match") as [->|_]; [discriminate | auto].
  - rewrite Hk. cbn [andb].
    destruct (existsb (String.eqb k) (levels rt name)) eqn:E; auto.
    right. exists name. auto.
  - destruct (String.eqb_spec k "success") as [->|_]; [discriminate|].
    destruct (String.eqb_spec k "failure") as [->|_]; [discriminate | auto].
  - destruct (String.eqb_spec k "perform") as [->|_]; [discriminate | auto].
Qed.

Lemma info_method (v : value) :
  method_of rt v "info" = MNotCallable \/
  exists lg, v = VLogger lg /\ method_of rt v "info" = MLog lg "info".
Proof.
  destruct (logger_method v "info" eq_refl) as [H | [lg [H1 [_ H2]]]]; eauto.
Qed.

Lemma method_of_logger (lg k : string) :
  existsb (String.eqb k) log_levels = true ->
  existsb (String.eqb k) (levels rt lg) = true ->
  method_of rt (VLogger lg) k = MLog lg k.
Proof. intros H1 H2. unfold method_of. now rewrite H1, H2. Qed.

(** ** The three closures, run *)

(** The listener of [SIGTERM], when the logger has [info] and the call
    returns: it logs and exits with code 0. *)
Lemma on_SIGTERM_run (lg : string) (w : world Σ) (s2 : Σ) :
  logs rt lg "info"
       [VStr ("[" ++ title w ++ "] SIGTERM received at "
                ++ fst (now rt (store w)) ++ ", exiting now!")]
       (snd (now rt (store w))) s2 ->
  on_SIGTERM rt (VLogger lg) w
  = (Exit 0,
     advanced s2
       [ELog lg "info"
          [VStr ("[" ++ title w ++ "] SIGTERM received at "
                   ++ fst (now rt (store w)) ++ ", exiting now!")]] w).
Proof.
  intros [Hlv [u Hlog]]. unfold on_SIGTERM.
  rewrite run_bind, member_run.
  change (nullish (VLogger lg)) with false. cbv iota.
  rewrite (method_of_logger lg "info" eq_refl Hlv).
  unfold process_title, toISOString_now.
  rewrite !run_bind, invoke_log.
  cbn [store trace title listeners worker reactions].
  rewrite Hlog. reflexivity.
Qed.

(** The callback on the promise of [worker.run()], likewise. *)
Lemma on_finished_run (lg : string) (w : world Σ) (s2 : Σ) :
  logs rt lg "info"
       [VStr ("[" ++ title w ++ "] Worker finished, shutting down.")]
       (store w) s2 ->
  on_finished rt (VLogger lg) w
  = (Exit 0,
     advanced s2
       [ELog lg "info"
          [VStr ("[" ++ title w ++ "] Worker finished, shutting down.")]] w).
Proof.
  intros [Hlv [u Hlog]]. unfold on_finished.
  rewrite run_bind, member_run.
  change (nullish (VLogger lg)) with false. cbv iota.
  rewrite (method_of_logger lg "info" eq_refl Hlv).
  unfold process_title.
  rewrite !run_bind, invoke_log, Hlog. reflexivity.
Qed.

(** The listener of [SIGINT], when the logger has [warn] and the call
    returns: it logs, clears the [forever] flag of the worker, and
    returns. *)
Lemma on_SIGINT_run (lg : string) (wk : Worker) (w : world Σ) (s2 : Σ) :
  worker w = Some wk ->
  logs rt lg "warn"
       [VStr ("[" ++ title w ++ "] SIGINT received at "
                ++ fst (now rt (store w)) ++ ", finishing work...")]
       (snd (now rt (store w))) s2 ->
  on_SIGINT rt (VLogger lg) w
  = (Normal tt,
     with_worker (with_forever false wk)
       (advanced s2
          [ELog lg "warn"
             [VStr ("[" ++ title w ++ "] SIGINT received at "
                      ++ fst (now rt (store w)) ++ ", finishing work...")]]
          w)).
Proof.
  intros Hw [Hlv [u Hlog]]. unfold on_SIGINT.
  rewrite run_bind, member_run.
  change (nullish (VLogger lg)) with false. cbv iota.
  rewrite (method_of_logger lg "warn" eq_refl Hlv).
  unfold process_title, toISOString_now.
  rewrite !run_bind, invoke_log.
  cbn [store trace title listeners worker reactions].
  rewrite Hlog. cbn [fst snd].
  unfold set_forever, the_worker, advanced.
  rewrite run_bind. cbn [worker]. rewrite Hw. reflexivity.
Qed.

(** ** The listeners that [main] leaves *)

Lemma deaf_uniform {A} (m : M Σ A) : uniform m -> deaf m.
Proof. intros Hm w. rewrite (Hm w). reflexivity. Qed.

Lemma deaf_bind {A B} (m : M Σ A) (k : A -> M Σ B) :
  deaf m -> (forall a, deaf (k a)) -> deaf (bind m k).
Proof.
  intros Hm Hk w. rewrite run_bind. specialize (Hm w).
  destruct (m w) as [[a|e|c|s|] w1]; simpl in *; auto.
  now rewrite (Hk a w1).
Qed.

Lemma deaf_catch {A} (m : M Σ A) (h : value -> M Σ A) :
  deaf m -> (forall e, deaf (h e)) -> deaf (catch m h).
Proof.
  intros Hm Hh w. rewrite run_catch. specialize (Hm w).
  destruct (m w) as [[a|e|c|s|] w1]; simpl in *; auto.
  now rewrite (Hh e w1).
Qed.

Lemma deaf_now : deaf (toISOString_now rt).
Proof. intros w. reflexivity. Qed.

Lemma deaf_set_process_title (t : string) : deaf (set_process_title rt t).
Proof. intros w. unfold set_process_title. now destruct (strict rt). Qed.

(** Where [process] does not inherit [on], [process.on] registers
    nothing. *)
Lemma deaf_process_on (signal : string) (f : closure) :
  on_inherited rt = false -> deaf (process_on rt signal f).
Proof. intros Hi w. unfold process_on. rewrite Hi. reflexivity. Qed.

Lemma deaf_the_worker : deaf (Σ := Σ) the_worker.
Proof. intros w. unfold the_worker. now destruct (worker w). Qed.

Ltac deaf_steps rt :=
  repeat first
    [ apply deaf_bind; [|intros; cbv beta]
    | apply deaf_catch; [|intros; cbv beta]
    | apply deaf_now
    | apply deaf_set_process_title
    | apply deaf_process_on; assumption
    | apply deaf_the_worker
    | solve [ intros ?; reflexivity ]
    | solve [ apply deaf_uniform; uniform_steps rt ] ].

Lemma deaf_main (argv : list string) :
  on_inherited rt = false -> deaf (main rt argv).
Proof.
  intros Hi.
  unfold main, parseArgs, setProcessTitle, load_logger, load_adapter,
    new_Worker, run, setupSignals.
  deaf_steps rt.
Qed.

Lemma deaf_to_deaf (signal : string) {A} (m : M Σ A) :
  deaf m -> deaf_to signal m.
Proof. intros Hm w. unfold listeners_of. now rewrite (Hm w). Qed.

Lemma deaf_to_bind (signal : string) {A B} (m : M Σ A) (k : A -> M Σ B) :
  deaf_to signal m -> (forall a, deaf_to signal (k a)) ->
  deaf_to signal (bind m k).
Proof.
  intros Hm Hk w. rewrite run_bind. specialize (Hm w).
  destruct (m w) as [[a|e|c|x|] w1]; simpl in *; auto.
  now rewrite (Hk a w1).
Qed.

(** [setupSignals] throws at its first call of [process.on], which has
    stored the listener of [SIGINT] where [process] inherits [on], and
    nothing where it does not. *)
Lemma setupSignals_run (logger : value) (w : world Σ) :
  exists msg,
    setupSignals rt logger w
    = (Throw (TypeError msg),
       listening (if on_inherited rt then [("SIGINT", OnSIGINT logger)]
                  else []) w).
Proof.
  unfold setupSignals, process_on, listening.
  destruct (on_inherited rt).
  - eexists. reflexivity.
  - eexists. rewrite app_nil_r. destruct w. reflexivity.
Qed.

(** Whatever [on] is, the listener of [SIGTERM] is never reached. *)
Lemma deaf_to_setupSignals (logger : value) :
  deaf_to "SIGTERM" (setupSignals rt logger).
Proof.
  intros w. destruct (setupSignals_run logger w) as [msg H]. rewrite H.
  unfold listeners_of, listening. cbn [snd listeners].
  rewrite filter_app, map_app.
  destruct (on_inherited rt); cbn; now rewrite app_nil_r.
Qed.

Lemma deaf_to_main (argv : list string) : deaf_to "SIGTERM" (main rt argv).
Proof.
  unfold main.
  do 12 (apply deaf_to_bind;
         [ solve [ apply deaf_to_deaf;
                   unfold parseArgs, setProcessTitle, load_logger,
                     load_adapter, new_Worker, run;
                   deaf_steps rt ]
         | intros; cbv beta zeta ]).
  apply deaf_to_setupSignals.
Qed.

(** ** [main] never returns *)

Lemma endless_bind {A B} (m : M Σ A) (k : A -> M Σ B) :
  (forall a, endless (k a)) -> endless (bind m k).
Proof.
  intros Hk w b. rewrite run_bind.
  destruct (m w) as [[a|e|c|s|] w1]; simpl; try discriminate.
  apply Hk.
Qed.

Lemma endless_main (argv : list string) : endless (main rt argv).
Proof.
  unfold main. do 12 (apply endless_bind; intros).
  intros w u.
  match goal with
  | |- context [setupSignals rt ?l w] =>
      destruct (setupSignals_run l w) as [msg H]
  end.
  rewrite H. discriminate.
Qed.

(** ** [main], run *)

Lemma call_await_world (ev : event) (f : effect Σ) (w w1 : world Σ)
      (c : completion value) :
  (p <- call ev f ;; await p) w = (c, w1) ->
  w1 = advanced (store w1) [ev] w.
Proof.
  rewrite run_bind, call_run.
  destruct (f (store w)) as [[p|e|x|x|] s1]; simpl;
    try (intros H; inversion H; reflexivity).
  unfold await. destruct (settle p); intros H; inversion H; reflexivity.
Qed.

(** In strict code [main] throws where it writes the title, before any
    loader is called. *)
Lemma main_strict (argv : list string) (args : props) (w : world Σ) :
  strict rt = true ->
  yargs rt argv = Normal args ->
  main rt argv w
  = (Throw (TypeError
      "Cannot assign to read only property 'title' of object '[object Module]'"),
     w).
Proof.
  intros Hs Ha. unfold main, parseArgs, complete.
  rewrite run_bind, Ha. cbv iota beta zeta.
  rewrite run_bind. unfold setProcessTitle, set_process_title.
  rewrite Hs. reflexivity.
Qed.

(** In sloppy code the write of the title is lost, and [main] goes on
    to the loaders. *)
Lemma main_sloppy (argv : list string) (args : props) (w : world Σ) :
  strict rt = false ->
  yargs rt argv = Normal args ->
  main rt argv w
  = (logger <- load_logger rt ;;
     adapter <-
       catch
         (load_adapter rt)
         (fun e =>
            error <- member rt logger "error" ;;
            invoke rt "logger.error" error [e] ;;
            exit 1) ;;
     info <- member rt logger "info" ;;
     title <- process_title ;;
     time <- toISOString_now rt ;;
     invoke rt "logger.info" info
       [VStr ("[" ++ title ++ "] Starting work at " ++ time ++ "...")] ;;
     title <- process_title ;;
     Loop.new_Worker
       [ ("adapter", adapter);
         ("processName", VStr title);
         ("logger", logger);
         ("queue", field "queue" args);
         ("workoff", field "workoff" args);
         ("clear", field "clear" args) ] ;;
     Loop.run ;;
     then_ (OnFinished logger) ;;
     setupSignals rt logger) w.
Proof.
  intros Hs Ha. unfold main, parseArgs, complete.
  rewrite run_bind, Ha. cbv iota beta zeta.
  rewrite run_bind. unfold setProcessTitle, set_process_title.
  rewrite Hs. reflexivity.
Qed.

(** When the adapter fails to load, [main] calls [logger.error] with
    what was thrown and, when that call returns, exits with code 1. *)
Lemma main_adapter_fails (argv : list string) (args : props) (lg : string)
      (w w1 w2 : world Σ) (e : value) (s3 : Σ) :
  strict rt = false ->
  yargs rt argv = Normal args ->
  load_logger rt w = (Normal (VLogger lg), w1) ->
  load_adapter rt w1 = (Throw e, w2) ->
  logs rt lg "error" [e] (store w2) s3 ->
  main rt argv w = (Exit 1, advanced s3 [ELog lg "error" [e]] w2).
Proof.
  intros Hs Ha H1 H2 [Hlv [u Hlog]].
  rewrite (main_sloppy argv args w Hs Ha).
  rewrite run_bind, H1, run_bind, run_catch, H2.
  rewrite run_bind, member_run.
  change (nullish (VLogger lg)) with false. cbv iota.
  rewrite (method_of_logger lg "error" eq_refl Hlv).
  rewrite run_bind, invoke_log, Hlog. reflexivity.
Qed.

(** When the arguments parse, both loaders resolve and the start is
    logged, [main] makes the worker, starts its run, attaches the
    callback on its end, and throws in [setupSignals]. *)
Lemma main_run (argv : list string) (s : Σ) (args : props) (lg : string)
      (ad : value) (w1 w2 : world Σ) (s4 : Σ) :
  strict rt = false ->
  yargs rt argv = Normal args ->
  load_logger rt (fresh s) = (Normal (VLogger lg), w1) ->
  load_adapter rt w1 = (Normal ad, w2) ->
  logs rt lg "info"
       [VStr ("[node] Starting work at " ++ fst (now rt (store w2))
                ++ "...")]
       (snd (now rt (store w2))) s4 ->
  exists msg w',
    main rt argv (fresh s) = (Throw (TypeError msg), w') /\
    store w' = s4 /\
    title w' = "node" /\
    trace w'
    = [ ELoadLogger; ELoadAdapter;
        ELog lg "info"
          [VStr ("[node] Starting work at " ++ fst (now rt (store w2))
                   ++ "...")];
        ENewWorker
          [ ("adapter", ad);
            ("processName", VStr "node");
            ("logger", VLogger lg);
            ("queue", field "queue" args);
            ("workoff", field "workoff" args);
            ("clear", field "clear" args) ];
        ERun ] /\
    listeners w'
    = (if on_inherited rt then [("SIGINT", OnSIGINT (VLogger lg))]
       else []) /\
    reactions w' = [ OnFinished (VLogger lg) ].
Proof.
  intros Hs Ha H1 H2 [Hlv [u Hlog]].
  assert (Hw2 : w2 = advanced (store w2) [ELoadLogger; ELoadAdapter]
                              (fresh s)).
  { pose proof H1 as K1. pose proof H2 as K2.
    apply call_await_world in K1. apply call_await_world in K2.
    rewrite K2 at 1. rewrite K1. unfold advanced.
    cbn [store trace title listeners worker reactions].
    now rewrite <- app_assoc. }
  assert (Hrun : exists w3,
             main rt argv (fresh s) = setupSignals rt (VLogger lg) w3 /\
             store w3 = s4 /\
             title w3 = "node" /\
             trace w3
             = [ ELoadLogger; ELoadAdapter;
                 ELog lg "info"
                   [VStr ("[node] Starting work at "
                            ++ fst (now rt (store w2)) ++ "...")];
                 ENewWorker
                   [ ("adapter", ad);
                     ("processName", VStr "node");
                     ("logger", VLogger lg);
                     ("queue", field "queue" args);
                     ("workoff", field "workoff" args);
                     ("clear", field "clear" args) ];
                 ERun ] /\
             listeners w3 = [] /\
             reactions w3 = [ OnFinished (VLogger lg) ]).
  { eexists. split.
    - rewrite (main_sloppy argv args (fresh s) Hs Ha).
      rewrite run_bind, H1, run_bind, run_catch, H2.
      rewrite run_bind, member_run.
      change (nullish (VLogger lg)) with false. cbv iota.
      rewrite (method_of_logger lg "info" eq_refl Hlv).
      unfold process_title at 1. rewrite run_bind.
      unfold toISOString_now. rewrite run_bind.
      rewrite run_bind, invoke_log.
      cbn [store trace title listeners worker reactions].
      replace (title w2) with "node" by (rewrite Hw2; reflexivity).
      change ("[" ++ "node" ++ "] Starting work at "
                  ++ fst (now rt (store w2)) ++ "...")
        with ("[node] Starting work at " ++ fst (now rt (store w2)) ++ "...").
      rewrite Hlog. cbn [fst snd].
      unfold process_title, new_Worker, run, then_, set_worker, emit.
      rewrite !run_bind. cbn -[setupSignals]. reflexivity.
    - cbn [store title trace listeners reactions].
      rewrite Hw2. cbn.
      split; [reflexivity|]. split; [reflexivity|].
      split; [reflexivity|]. split; reflexivity. }
  destruct Hrun as [w3 [Hm [Hst [Hti [Htr [Hli Hre]]]]]].
  destruct (setupSignals_run (VLogger lg) w3) as [msg Hsig].
  exists msg. eexists. split; [rewrite Hm; exact Hsig|].
  unfold listening. cbn [store title trace listeners reactions].
  rewrite Hli. auto.
Qed.

(** ** The claims on the process *)

(** C7. The exits are written as the claim has them. In sloppy code,
    when loading the adapter throws, [main] calls [logger.error] with
    what was thrown and, when that call returns, exits with code 1, no
    worker made. The callback on the end of the run of the worker and
    the listener of [SIGTERM] each log and, when that call returns,
    exit with code 0. But the exit on [SIGTERM] is never reached:
    [process] is the namespace object of ['node:process'], the first
    [process.on] of [setupSignals] throws, so [main] never returns and
    never gets to the [process.on] of [SIGTERM]; the process has no
    listener of [SIGTERM], and [SIGTERM] ends it by its default
    disposition, not by [process.exit(0)]. *)
Theorem sigterm_listener_is_never_installed :
  forall (argv : list string) (s : Σ),
    (forall args lg w1 w2 e s3,
       strict rt = false ->
       yargs rt argv = Normal args ->
       load_logger rt (fresh s) = (Normal (VLogger lg), w1) ->
       load_adapter rt w1 = (Throw e, w2) ->
       logs rt lg "error" [e] (store w2) s3 ->
       main rt argv (fresh s) = (Exit 1, advanced s3 [ELog lg "error" [e]] w2)
       /\ worker w2 = None) /\
    (forall lg w s2,
       logs rt lg "info"
            [VStr ("[" ++ title w ++ "] Worker finished, shutting down.")]
            (store w) s2 ->
       on_finished rt (VLogger lg) w
       = (Exit 0,
          advanced s2
            [ELog lg "info"
               [VStr ("[" ++ title w ++ "] Worker finished, shutting down.")]]
            w)) /\
    (forall lg w s2,
       logs rt lg "info"
            [VStr ("[" ++ title w ++ "] SIGTERM received at "
                     ++ fst (now rt (store w)) ++ ", exiting now!")]
            (snd (now rt (store w))) s2 ->
       on_SIGTERM rt (VLogger lg) w
       = (Exit 0,
          advanced s2
            [ELog lg "info"
               [VStr ("[" ++ title w ++ "] SIGTERM received at "
                        ++ fst (now rt (store w)) ++ ", exiting now!")]]
            w)) /\
    (forall u, fst (main rt argv (fresh s)) <> Normal u) /\
    listeners_of "SIGTERM" (snd (main rt argv (fresh s))) = [] /\
    deliver rt "SIGTERM" (snd (main rt argv (fresh s)))
    = (Killed "SIGTERM", snd (main rt argv (fresh s))).
Proof.
  intros argv s. split; [|split; [|split; [|split; [|split]]]].
  - intros args lg w1 w2 e s3 Hs Ha H1 H2 Hlog. split.
    + apply (main_adapter_fails argv args lg (fresh s) w1 w2 e s3); auto.
    + apply call_await_world in H1. apply call_await_world in H2.
      rewrite H2, H1. reflexivity.
  - intros lg w s2 Hlog. now apply on_finished_run.
  - intros lg w s2 Hlog. now apply on_SIGTERM_run.
  - intros u. apply endless_main.
  - now rewrite deaf_to_main.
  - unfold deliver. now rewrite deaf_to_main.
Qed.

(** C8. The listener of [SIGINT] does what the claim says of it: it
    logs a warning, clears the [forever] flag of the worker and
    returns, the process alive. But the process never gets to run with
    it: [process] is the namespace object of ['node:process'], the
    [process.on] that is given the listener throws, and [main] never
    returns. Where [process] does not inherit [on], no listener at all
    is registered, and [SIGINT] ends the process by its default
    disposition, whatever job is in flight. Where it does, the
    listener is stored, and [main], started with a worker running, is
    left by a [TypeError] that nothing handles. *)
Theorem sigint_setup_throws :
  forall (argv : list string) (s : Σ),
    (forall lg wk w s2,
       worker w = Some wk ->
       logs rt lg "warn"
            [VStr ("[" ++ title w ++ "] SIGINT received at "
                     ++ fst (now rt (store w)) ++ ", finishing work...")]
            (snd (now rt (store w))) s2 ->
       on_SIGINT rt (VLogger lg) w
       = (Normal tt,
          with_worker (with_forever false wk)
            (advanced s2
               [ELog lg "warn"
                  [VStr ("[" ++ title w ++ "] SIGINT received at "
                           ++ fst (now rt (store w))
                           ++ ", finishing work...")]]
               w))) /\
    (forall u, fst (main rt argv (fresh s)) <> Normal u) /\
    (on_inherited rt = false ->
     listeners (snd (main rt argv (fresh s))) = [] /\
     deliver rt "SIGINT" (snd (main rt argv (fresh s)))
     = (Killed "SIGINT", snd (main rt argv (fresh s)))) /\
    (on_inherited rt = true ->
     forall args lg ad w1 w2 s4,
       strict rt = false ->
       yargs rt argv = Normal args ->
       load_logger rt (fresh s) = (Normal (VLogger lg), w1) ->
       load_adapter rt w1 = (Normal ad, w2) ->
       logs rt lg "info"
            [VStr ("[node] Starting work at " ++ fst (now rt (store w2))
                     ++ "...")]
            (snd (now rt (store w2))) s4 ->
       exists msg w',
         main rt argv (fresh s) = (Throw (TypeError msg), w') /\
         listeners w' = [("SIGINT", OnSIGINT (VLogger lg))] /\
         reactions w' = [OnFinished (VLogger lg)]).
Proof.
  intros argv s. split; [|split; [|split]].
  - intros lg wk w s2 Hw Hlog. now apply on_SIGINT_run.
  - intros u. apply endless_main.
  - intros Hi. split.
    + now rewrite deaf_main.
    + unfold deliver, listeners_of. now rewrite deaf_main.
  - intros Hi args lg ad w1 w2 s4 Hs Ha H1 H2 Hlog.
    destruct (main_run argv s args lg ad w1 w2 s4 Hs Ha H1 H2 Hlog)
      as [msg [w' [Hm [_ [_ [_ [Hli Hre]]]]]]].
    rewrite Hi in Hli. exists msg, w'. auto.
Qed.

End ProcessProperties.

(* ===================================================================== *)
(** * The steps of [perform], their order and their edges *)
(* ===================================================================== *)

Section PerformSteps.

Import Js Runtime Errors Obs MonadFacts Exec ExecFacts ObjectFacts.

Local Open Scope monad_scope.

Context {Σ : Type}.
Variable rt : collaborators Σ.
Variable DEFAULT_MAX_ATTEMPTS : Z.
Variable DEFAULT_DELETE_FAILED_JOBS : bool.

(** ** Chains of steps *)

(** A computation that records nothing is an empty chain. *)
Lemma chain_quiet {A} (lo : nat) (m : M Σ A) :
  tidy rt (fun _ => False) m -> chain lo lo m.
Proof.
  intros H w. destruct (H w) as [evs [Ht [HP _]]].
  destruct HP as [|ev evs Hev _]; [|contradiction].
  exists []. simpl.
  split; [exact Ht|]. split; [reflexivity|]. split; [lia|]. intros; lia.
Qed.

Lemma chain_raise {A} (lo hi : nat) (e : value) :
  lo <= hi -> chain lo hi (Σ := Σ) (A := A) (raise e).
Proof.
  intros Hle w. exists []. simpl. rewrite app_nil_r.
  split; [reflexivity|]. split; [reflexivity|]. split; [lia|].
  intros a H. discriminate.
Qed.

Lemma chain_call (lo : nat) (ev : event) (f : effect Σ) :
  stage ev = lo -> chain lo (S lo) (call ev f).
Proof.
  intros Hs w. exists [ev]. rewrite call_run. unfold advanced.
  cbn [fst snd trace map List.length seq]. rewrite Hs.
  split; [reflexivity|]. split; [reflexivity|]. split; [lia|]. intros; lia.
Qed.

Lemma chain_bind {A B} (lo mid hi : nat) (m : M Σ A) (k : A -> M Σ B) :
  chain lo mid m -> (forall a, chain mid hi (k a)) -> mid <= hi ->
  chain lo hi (bind m k).
Proof.
  intros Hm Hk Hle w. rewrite run_bind.
  destruct (Hm w) as [evs1 [Ht1 [Hs1 [Hb1 Hn1]]]].
  destruct (m w) as [[a|e|c|s|] w1]; simpl in *;
    try (exists evs1;
         split; [assumption|]; split; [assumption|]; split; [lia|];
         intros; discriminate).
  specialize (Hn1 a eq_refl).
  destruct (Hk a w1) as [evs2 [Ht2 [Hs2 [Hb2 Hn2]]]].
  exists (evs1 ++ evs2)%list. rewrite length_app, map_app, seq_app, Hs1, Hs2.
  split; [rewrite Ht2, Ht1; now rewrite app_assoc|].
  split; [now rewrite Hn1|]. split; [lia|].
  intros b Hb. specialize (Hn2 b Hb). lia.
Qed.

(** After [v.k] was read as a callee, the rest runs with that callee. *)
Lemma chain_member_bind {B} (lo hi : nat) (v : value) (k : string)
      (f : method -> M Σ B) :
  lo <= hi -> chain lo hi (f (method_of rt v k)) ->
  chain lo hi (bind (member rt v k) f).
Proof.
  intros Hle H w. rewrite run_bind, member_run.
  destruct (nullish v); [|apply H].
  exists []. simpl. rewrite app_nil_r.
  split; [reflexivity|]. split; [reflexivity|]. split; [lia|].
  intros a Ha. discriminate.
Qed.

(** A call of a method of a logger, an adapter or a job instance records
    its one step; a value that cannot be called throws. *)
Lemma chain_invoke (lo : nat) (what : string) (m : method)
      (args : list value) :
  (forall s, m <> MMatch s) ->
  (forall ev, event_of m args = Some ev -> stage ev = lo) ->
  chain lo (S lo) (invoke rt what m args).
Proof.
  intros Hm Hev. destruct m as [lg level|a|a|i|s|]; simpl in Hev.
  - apply chain_call. now apply Hev.
  - apply chain_call. now apply Hev.
  - apply chain_call. now apply Hev.
  - apply chain_call. now apply Hev.
  - exfalso. now apply (Hm s).
  - apply chain_raise. lia.
Qed.

Lemma chain_new (what : string) (f : value) (args : list value) :
  chain 2 3 (new rt what f args).
Proof.
  destruct f; simpl; try (apply chain_raise; lia).
  now apply chain_call.
Qed.

(** Closes [forall s, method_of v k <> MMatch s] for a key [k] that is
    not [match]. *)
Ltac no_match :=
  let s := fresh "s" in
  intros s;
  match goal with
  | |- method_of _ ?v _ <> _ => destruct v
  end; simpl;
  try match goal with
      | |- context [if ?b then _ else _] => destruct b
      end;
  discriminate.

(** Closes [forall ev, event_of (method_of v k) args = Some ev ->
    stage ev = n] for a literal key [k]. *)
Ltac callee_stage :=
  let ev := fresh "ev" in
  let H := fresh "H" in
  intros ev H;
  match type of H with
  | event_of (method_of _ ?v _) _ = _ => destruct v
  end;
  simpl in H;
  try match type of H with
      | context [if ?b then _ else _] => destruct b
      end;
  simpl in H; try discriminate; inversion H; reflexivity.

Ltac quiet_steps rt := apply chain_quiet; solve [tidy_steps rt].

(** The statements before the [try]: the start is logged. *)
Lemma chain_start (this : Executor) : chain 0 1 (start rt this).
Proof.
  unfold start.
  apply chain_member_bind; [lia|].
  apply (chain_bind 0 0 1); [quiet_steps rt | intros id | lia].
  apply (chain_bind 0 1 1);
    [apply chain_invoke; [no_match | callee_stage] | intros _ | lia].
  quiet_steps rt.
Qed.

(** The handler: loaded, constructed, invoked. *)
Lemma chain_run_job (details : value) : chain 1 4 (run_job rt details).
Proof.
  unfold run_job.
  apply (chain_bind 1 1 4); [quiet_steps rt | intros name | lia].
  apply (chain_bind 1 2 4); [now apply chain_call | intros loading | lia].
  apply (chain_bind 2 2 4); [quiet_steps rt | intros jobModule | lia].
  apply (chain_bind 2 2 4); [quiet_steps rt | intros name' | lia].
  apply (chain_bind 2 2 4); [quiet_steps rt | intros export | lia].
  apply (chain_bind 2 3 4); [apply chain_new | intros instance | lia].
  apply chain_member_bind; [lia|].
  apply (chain_bind 3 3 4); [quiet_steps rt | intros args | lia].
  apply (chain_bind 3 3 4); [quiet_steps rt | intros items | lia].
  apply (chain_bind 3 4 4);
    [apply chain_invoke; [no_match | callee_stage] | intros running | lia].
  quiet_steps rt.
Qed.

Lemma chain_try_block (this : Executor) (details : value) :
  chain 1 5 (run_job rt details ;; report_success rt this).
Proof.
  apply (chain_bind 1 4 5); [apply chain_run_job | intros _ | lia].
  unfold report_success.
  apply chain_member_bind; [lia|].
  apply chain_invoke; [no_match | callee_stage].
Qed.

(** The [catch] block: the error is logged, then reported. *)
Lemma chain_catch_block (this : Executor) (details e : value) :
  chain 5 7 (error <- classify rt details e ;; report_failure rt this error).
Proof.
  apply (chain_bind 5 5 7);
    [unfold classify; quiet_steps rt | intros error | lia].
  unfold report_failure.
  apply chain_member_bind; [lia|].
  apply (chain_bind 5 5 7); [quiet_steps rt | intros stack | lia].
  apply (chain_bind 5 6 7);
    [apply chain_invoke; [no_match | callee_stage] | intros _ | lia].
  apply chain_member_bind; [lia|].
  apply chain_invoke; [no_match | callee_stage].
Qed.

(** The steps of the body of [perform]: a prefix of the five steps of
    the normal path, then a prefix of the two steps of the [catch]
    block; a body that completes has taken the last step of one of the
    two. *)
Lemma perform_body_steps (this : Executor) (w : world Σ) :
  exists (evs : list event) (i j : nat),
    trace (snd (perform_body rt this w)) = trace w ++ evs /\
    map stage evs = seq 0 i ++ seq 5 j /\
    i <= 5 /\ j <= 2 /\ (0 < j -> 0 < i) /\
    (forall r, fst (perform_body rt this w) = Normal r ->
               (i = 5 /\ j = 0) \/ j = 2).
Proof.
  unfold perform_body. rewrite run_bind.
  destruct (chain_start this w) as [evs0 [Ht0 [Hs0 [Hb0 Hn0]]]].
  destruct (start rt this w) as [[details|e|c|s|] w1]; cbn [fst snd] in *;
    try (exists evs0, (List.length evs0), 0; cbn [seq]; rewrite app_nil_r;
         split; [assumption|]; split; [assumption|];
         repeat (split; [lia|]); intros; discriminate).
  specialize (Hn0 details eq_refl).
  rewrite run_catch.
  destruct (chain_try_block this details w1) as [evs1 [Ht1 [Hs1 [Hb1 Hn1]]]].
  assert (Hpre : map stage (evs0 ++ evs1)
                 = seq 0 (List.length evs0 + List.length evs1)).
  { rewrite map_app, seq_app, Hs0, Hs1. simpl.
    now replace (List.length evs0) with 1 by lia. }
  destruct ((run_job rt details ;; report_success rt this) w1)
    as [[v|e|c|s|] w2]; cbn [fst snd] in *;
    try (exists (evs0 ++ evs1)%list, (List.length evs0 + List.length evs1), 0;
         cbn [seq]; rewrite app_nil_r;
         split; [rewrite Ht1, Ht0; now rewrite app_assoc|];
         split; [assumption|];
         repeat (split; [lia|]);
         first [ intros; discriminate
               | intros r _; left; specialize (Hn1 v eq_refl); lia ]).
  destruct (chain_catch_block this details e w2)
    as [evs2 [Ht2 [Hs2 [Hb2 Hn2]]]].
  exists ((evs0 ++ evs1) ++ evs2)%list,
         (List.length evs0 + List.length evs1), (List.length evs2).
  split; [rewrite Ht2, Ht1, Ht0; now rewrite !app_assoc|].
  split; [now rewrite map_app, Hpre, Hs2|].
  repeat (split; [lia|]).
  intros r Hr. right. specialize (Hn2 r Hr). lia.
Qed.

(** X1. Whatever the job, the handler and the adapter do, a run of
    [perform] records a prefix of the five steps of the normal path
    (the start is logged, the job module is loaded, the handler is
    constructed, its [perform] is invoked, [adapter.success] is called),
    followed by a prefix of the two steps of the [catch] block (the
    error is logged, [adapter.failure] is called), and the [catch] block
    never runs unless the start was logged. So each step is taken at
    most once and never out of order: nothing is retried, no handler is
    invoked that was not loaded and constructed, and [adapter.failure]
    is never called without the error having been logged. *)
Theorem perform_follows_its_steps :
  forall (this : Executor) (w : world Σ),
    exists (evs : list event) (i j : nat),
      trace (snd (perform rt this w)) = trace w ++ evs /\
      map stage evs = seq 0 i ++ seq 5 j /\
      i <= 5 /\ j <= 2 /\ (0 < j -> 0 < i).
Proof.
  intros this w. rewrite perform_world.
  destruct (perform_body_steps this w) as [evs [i [j [Ht [Hs [Hi [Hj [Hij _]]]]]]]].
  exists evs, i, j. auto.
Qed.

(** An event at the step of [adapter.success] or of [adapter.failure]
    is a call of the adapter. *)
Lemma adapter_stage (ev : event) :
  stage ev = 4 \/ stage ev = 6 -> is_adapter_call ev = true.
Proof.
  destruct ev; simpl; try (intros [H|H]; discriminate); auto.
  destruct (String.eqb level "info"); [intros [H|H]; discriminate|].
  destruct (String.eqb level "error"); intros [H|H]; discriminate.
Qed.

Lemma last_of_map {A B} (f : A -> B) (l : list A) (pre : list B) (x : B) :
  map f l = pre ++ [x] -> exists l' a, l = l' ++ [a] /\ f a = x.
Proof.
  intros H. apply map_eq_app in H.
  destruct H as [l1 [l2 [E [_ H2]]]].
  destruct l2 as [|a [|b l2]]; try discriminate.
  inversion H2. exists l1, a. auto.
Qed.

(** X14. A [perform] that fulfils has reported its job: when [perform]
    completes without throwing, the last thing it did was a call of the
    adapter on the job of the executor, [success] at the end of the
    normal path or [failure] at the end of the [catch] block. *)
Theorem fulfilled_perform_has_reported :
  forall (this : Executor) (w : world Σ) (r : value),
    fst (perform rt this w) = Normal r ->
    exists (evs : list event) (ev : event),
      trace (snd (perform rt this w)) = trace w ++ evs ++ [ev] /\
      is_adapter_call ev = true /\
      reported_job ev = Some (job this).
Proof.
  intros this w r Hr. rewrite perform_world.
  assert (Hb : exists r', fst (perform_body rt this w) = Normal r').
  { unfold perform in Hr. rewrite run_bind in Hr.
    destruct (perform_body rt this w) as [[r'|e|c|s|] w']; try discriminate.
    now exists r'. }
  destruct Hb as [r' Hb].
  destruct (perform_body_steps this w)
    as [evs [i [j [Ht [Hs [Hi [Hj [Hij Hn]]]]]]]].
  assert (Hlast : exists pre x, map stage evs = pre ++ [x] /\ (x = 4 \/ x = 6)).
  { destruct (Hn r' Hb) as [[-> ->] | ->].
    - exists [0; 1; 2; 3], 4. split; [exact Hs | auto].
    - exists (seq 0 i ++ [5])%list, 6. rewrite <- app_assoc. split; [exact Hs | auto]. }
  destruct Hlast as [pre [x [Hmap Hx]]].
  destruct (last_of_map stage evs pre x Hmap) as [evs' [ev [-> Hst]]].
  exists evs', ev. split; [exact Ht|].
  assert (Hcall : is_adapter_call ev = true)
    by (apply adapter_stage; now rewrite Hst).
  split; [exact Hcall|].
  destruct (perform_reports_own_job rt this w) as [evs2 [Ht2 [Hown _]]].
  rewrite perform_world, Ht in Ht2. apply app_inv_head in Ht2. subst evs2.
  apply Forall_app in Hown. destruct Hown as [_ Hown].
  inversion Hown as [|? ? Hev _]; subst.
  destruct ev; try discriminate; simpl in *; f_equal; now apply Hev.
Qed.

(** ** What [perform] works with *)

(** Closes a side condition of [tidy] on [own_of]. *)
Ltac own_event :=
  let ev := fresh "ev" in
  let H := fresh "H" in
  let E := fresh "E" in
  intros ev H;
  match type of H with
  | event_of (method_of _ ?v _) _ = _ => destruct v eqn:E
  end;
  simpl in H;
  try match type of H with
      | context [if ?b then _ else _] => destruct b
      end;
  simpl in H; try discriminate;
  inversion H; subst; simpl; auto.

Ltac own_steps rt :=
  repeat first
    [ apply tidy_member_bind
    | apply tidy_bind; [|intros]
    | apply tidy_catch; [|intros]
    | apply tidy_ret
    | apply tidy_raise
    | apply tidy_complete
    | apply tidy_get
    | apply tidy_member
    | apply tidy_spread_args
    | apply tidy_await
    | apply tidy_invoke; own_event
    | apply tidy_new; event_side
    | apply tidy_call; [event_side | intros; constructor]
    | match goal with
      | |- tidy _ _ (if ?b then _ else _) => destruct b
      end ].

Lemma perform_records_its_own (this : Executor) :
  tidy rt (own_of this) (perform rt this).
Proof.
  unfold perform, perform_body, start, run_job, report_success, classify,
    report_failure.
  own_steps rt.
Qed.

(** X2. An executor works with what it was constructed with. In every
    run of [perform] on an executor that the constructor returned for
    the options [opts]: whatever is logged goes to the options' logger
    ([console] when the options have none); [success] and [failure] are
    called on the options' adapter and on nothing else; and every call
    of [adapter.failure] is handed the two retry options [maxAttempts]
    and [deleteFailedJobs], each the options' own value when the key is
    present and the default when it is absent. *)
Theorem perform_uses_what_it_was_constructed_with :
  forall (opts : props) (this : Executor) (w0 w0' w : world Σ),
    Exec.constructor DEFAULT_MAX_ATTEMPTS DEFAULT_DELETE_FAILED_JOBS opts w0
    = (Normal this, w0') ->
    exists evs,
      trace (snd (perform rt this w)) = trace w ++ evs /\
      Forall
        (fun ev =>
           match ev with
           | ELog n _ _ =>
               VLogger n = match lookup "logger" opts with
                           | Some v => v
                           | None => console
                           end
           | ESuccess a _ => VAdapter a = field "adapter" opts
           | EFailure a _ _ o =>
               VAdapter a = field "adapter" opts /\
               o = VObj
                     [ ("maxAttempts",
                        match lookup "maxAttempts" opts with
                        | Some v => v
                        | None => VNum DEFAULT_MAX_ATTEMPTS
                        end);
                       ("deleteFailedJobs",
                        match lookup "deleteFailedJobs" opts with
                        | Some v => v
                        | None => VBool DEFAULT_DELETE_FAILED_JOBS
                        end) ]
           | _ => True
           end) evs.
Proof.
  intros opts this w0 w0' w Hc.
  destruct (perform_records_its_own this w) as [evs [Ht [Hev _]]].
  exists evs. split; [exact Ht|].
  unfold Exec.constructor in Hc.
  rewrite options_adapter, options_job in Hc.
  destruct (truthy (field "adapter" opts)); simpl in Hc; [|discriminate].
  destruct (truthy (field "job" opts)); simpl in Hc; [|discriminate].
  inversion Hc; subst this w0'. clear Hc.
  eapply Forall_impl; [|exact Hev].
  intros ev. unfold own_of, failure_options.
  cbn [logger adapter maxAttempts deleteFailedJobs].
  rewrite !field_spread. simpl.
  destruct ev; auto.
  intros [Ha Ho]. split; [auto | exact Ho].
Qed.

(** ** The edges of [perform] *)

(** X3. An executor whose logger is no logger (the options gave
    [logger: undefined], say, which the constructor stores as it is)
    cannot perform any job: [perform] throws a [TypeError] at its first
    statement, before the handler field is parsed; nothing is logged,
    loaded or invoked, and the adapter is told neither of a success nor
    of a failure. *)
Theorem perform_needs_a_logger :
  forall (this : Executor) (w : world Σ),
    (forall lg, logger this <> VLogger lg) ->
    exists msg, perform rt this w = (Throw (TypeError msg), w).
Proof.
  intros this w Hno.
  assert (Hs : exists msg, start rt this w = (Throw (TypeError msg), w)).
  { unfold start. rewrite run_bind, member_run.
    destruct (nullish (logger this)) eqn:Hn; [eexists; reflexivity|].
    rewrite run_bind, get_run.
    destruct (nullish (job this)); [eexists; reflexivity|].
    rewrite run_bind.
    destruct (info_method rt (logger this)) as [Hm | [lg [Hlg _]]].
    - rewrite Hm, invoke_not_callable. eexists. reflexivity.
    - exfalso. apply (Hno lg Hlg). }
  destruct Hs as [msg Hs]. exists msg.
  apply (start_throw_escapes rt this w w _ Hs).
Qed.

(** X4. A handler that never settles leaves its job unreported: when the
    promise awaited inside the [try] never settles, [perform] never
    settles either (there is no timeout), and the adapter is told
    neither of a success nor of a failure. *)
Theorem unsettled_handler_is_never_reported :
  forall (this : Executor) (w w1 w2 : world Σ) (details : value),
    start rt this w = (Normal details, w1) ->
    run_job rt details w1 = (Pending, w2) ->
    perform rt this w = (Pending, w2) /\
    adapter_calls (trace w2) = adapter_calls (trace w).
Proof.
  intros this w w1 w2 details Hs Hr. split.
  - unfold perform, perform_body.
    now rewrite !run_bind, Hs, run_catch, run_bind, Hr.
  - apply (adapter_calls_before_report rt this w w1 w2 details _ Hs Hr).
Qed.

(** The [try] block up to the construction of the handler, for details
    that are a plain object and a job module that loads. *)
Lemma run_job_loaded
      (o : props) (p jm : value) (s1 : Σ) (w : world Σ) :
  loadJob rt (field "handler" o) (store w) = (Normal p, s1) ->
  settle p = Got jm ->
  nullish jm = false ->
  run_job rt (VObj o) w
  = (instance <- new rt "jobModule[details.handler]"
                     (property rt s1 jm (ToString (field "handler" o))) [] ;;
     perform <- member rt instance "perform" ;;
     args <- spread_args "details.args" (field "args" o) ;;
     running <- invoke rt "(intermediate value).perform" perform args ;;
     await running)
      (advanced s1 [ELoadJob (field "handler" o)] w).
Proof.
  intros Hl Hp Hn. unfold run_job.
  rewrite run_bind, get_run.
  change (nullish (VObj o)) with false. cbv iota.
  change (property rt (store w) (VObj o) "handler") with (field "handler" o).
  rewrite run_bind, call_run, Hl. cbn [fst snd].
  rewrite run_bind. unfold await at 1. rewrite Hp.
  change (mkWorld s1 (trace w ++ [ELoadJob (field "handler" o)]) (title w)
                  (listeners w) (worker w) (reactions w))
    with (advanced s1 [ELoadJob (field "handler" o)] w).
  change ((ret jm : M Σ value) (advanced s1 [ELoadJob (field "handler" o)] w))
    with (Normal jm, advanced s1 [ELoadJob (field "handler" o)] w).
  cbv iota.
  rewrite run_bind, get_run.
  change (nullish (VObj o)) with false. cbv iota.
  rewrite run_bind, get_run, Hn. cbv iota.
  change (store (advanced s1 [ELoadJob (field "handler" o)] w)) with s1.
  change (property rt s1 (VObj o) "handler") with (field "handler" o).
  reflexivity.
Qed.

Lemma advanced_call (ev : event) (f : effect Σ) (s : Σ) (evs : list event)
      (w : world Σ) :
  call ev f (advanced s evs w)
  = (fst (f s), advanced (snd (f s)) (evs ++ [ev]) w).
Proof.
  rewrite call_run. unfold advanced. cbn [store trace title listeners worker
    reactions]. now rewrite <- app_assoc.
Qed.

(** X5. How the handler is reached and what it is given. For details
    that are a plain object with an array for [args], a job module that
    loads and has a class under the name [details.handler], and a
    constructor that returns an instance: [loadJob] is called with
    [details.handler], the class is constructed with no argument, and
    the [perform] of the instance is invoked with the elements of
    [details.args], in their order and unchanged; what it returns is
    awaited, and how that settles is how the handler completes. *)
Theorem handler_is_given_the_arguments_of_the_job :
  forall (o : props) (items : list value) (p jm : value) (c i : nat)
         (s1 s2 : Σ) (w : world Σ),
    field "args" o = VArr items ->
    loadJob rt (field "handler" o) (store w) = (Normal p, s1) ->
    settle p = Got jm ->
    nullish jm = false ->
    property rt s1 jm (ToString (field "handler" o)) = VClass c ->
    construct rt c [] s1 = (Normal (VInstance i), s2) ->
    run_job rt (VObj o) w
    = (running <- call (EPerform i items) (perform_of rt i items) ;;
       await running)
        (advanced s2 [ELoadJob (field "handler" o); ENew c []] w).
Proof.
  intros o items p jm c i s1 s2 w Ha Hl Hp Hn Hc Hi.
  rewrite (run_job_loaded o p jm s1 w Hl Hp Hn), Hc, Ha.
  rewrite run_bind. unfold new. rewrite advanced_call, Hi. cbn [fst snd].
  reflexivity.
Qed.

Lemma advanced_advanced (s s' : Σ) (evs evs' : list event) (w : world Σ) :
  advanced s' evs' (advanced s evs w) = advanced s' (evs ++ evs') w.
Proof.
  unfold advanced. cbn [store trace title listeners worker reactions].
  now rewrite <- app_assoc.
Qed.

(** Without a class under the name asked for, [new] throws before
    anything is constructed. *)
Lemma run_job_without_export
      (o : props) (p jm : value) (s1 : Σ) (w : world Σ) :
  loadJob rt (field "handler" o) (store w) = (Normal p, s1) ->
  settle p = Got jm ->
  nullish jm = false ->
  (forall c, property rt s1 jm (ToString (field "handler" o)) <> VClass c) ->
  run_job rt (VObj o) w
  = (Throw (TypeError "jobModule[details.handler] is not a constructor"),
     advanced s1 [ELoadJob (field "handler" o)] w).
Proof.
  intros Hl Hp Hn Hno.
  rewrite (run_job_loaded o p jm s1 w Hl Hp Hn), run_bind.
  destruct (property rt s1 jm (ToString (field "handler" o))) eqn:E;
    try reflexivity.
  exfalso. now apply (Hno c).
Qed.

(** X6. A job module that loads but has no class under the name
    [details.handler] is reported as such: nothing is constructed and
    nothing is invoked; a [JobExportNotFoundError] for [details.handler]
    takes the place of the [TypeError] of [new]; [logger.error] is
    called with its stack and, when that call returns, the error is
    handed to [adapter.failure] with the job and the retry options, the
    completion of that call being the completion of the body of
    [perform]. *)
Theorem missing_export_is_reported_as_such :
  forall (this : Executor) (a : nat) (w w1 : world Σ) (o : props)
         (p jm : value) (s1 : Σ),
    adapter this = VAdapter a ->
    start rt this w = (Normal (VObj o), w1) ->
    loadJob rt (field "handler" o) (store w1) = (Normal p, s1) ->
    settle p = Got jm ->
    nullish jm = false ->
    (forall c, property rt s1 jm (ToString (field "handler" o)) <> VClass c) ->
    exists lg,
      logger this = VLogger lg /\
      let error := JobExportNotFoundError (field "handler" o) in
      let stack := property rt s1 error "stack" in
      forall s3,
        logs rt lg "error" [stack] s1 s3 ->
        perform_body rt this w
        = call (EFailure a (job this) error (failure_options this))
               (failure rt a (job this) error (failure_options this))
               (advanced s3 [ ELoadJob (field "handler" o);
                              ELog lg "error" [stack] ] w1).
Proof.
  intros this a w w1 o p jm s1 Ha Hs Hl Hp Hn Hno.
  destruct (start_has_logger rt this w w1 _ Hs) as [lg Hlg].
  exists lg. split; [exact Hlg|]. cbv zeta. intros s3 [Hlv [u Hlog]].
  pose proof (run_job_without_export o p jm s1 w1 Hl Hp Hn Hno) as Hr.
  rewrite (perform_body_after_throw rt this w w1 _ _ _ Hs Hr).
  assert (Hinc : includes "is not a constructor"
                   "jobModule[details.handler] is not a constructor" = true)
    by (vm_compute; reflexivity).
  assert (Hcl : classified rt s1 (VObj o)
                  (TypeError "jobModule[details.handler] is not a constructor")
                  "jobModule[details.handler] is not a constructor"
                = JobExportNotFoundError (field "handler" o)).
  { unfold classified. now rewrite Hinc. }
  rewrite (catch_block_run rt this a lg (VObj o) _
             "jobModule[details.handler] is not a constructor" _
             (Normal u) s3 Ha Hlg);
    [ | split; reflexivity | reflexivity | exact Hlv
      | cbn [store advanced]; rewrite Hcl; exact Hlog ].
  cbn [store advanced]. rewrite Hcl, advanced_advanced. reflexivity.
Qed.



(** X13. A job whose handler field parses to [null] is reported as
    failed: reading [details.handler] throws a [TypeError] before
    anything is loaded; the error is kept as it is (its message does
    not speak of a constructor, so [details.handler] is not read
    again), [logger.error] is called with its stack and, when that call
    returns, the error is handed to [adapter.failure]. *)
Theorem job_without_details_is_reported :
  forall (this : Executor) (a : nat) (w w1 : world Σ) (details : value),
    adapter this = VAdapter a ->
    start rt this w = (Normal details, w1) ->
    nullish details = true ->
    exists lg,
      logger this = VLogger lg /\
      let error := cannot_read details "handler" in
      let stack := property rt (store w1) error "stack" in
      forall s3,
        logs rt lg "error" [stack] (store w1) s3 ->
        perform_body rt this w
        = call (EFailure a (job this) error (failure_options this))
               (failure rt a (job this) error (failure_options this))
               (advanced s3 [ELog lg "error" [stack]] w1).
Proof.
  intros this a w w1 details Ha Hs Hn.
  destruct (start_has_logger rt this w w1 _ Hs) as [lg Hlg].
  exists lg. split; [exact Hlg|]. cbv zeta. intros s3 [Hlv [u Hlog]].
  pose proof (run_job_without_details rt details w1 Hn) as Hr.
  rewrite (perform_body_after_throw rt this w w1 _ _ _ Hs Hr).
  destruct (cannot_read_handler_message details Hn) as [m [E Hm]].
  rewrite E in *.
  assert (Hcl : classified rt (store w1) details (VError "TypeError" m) m
                = VError "TypeError" m).
  { unfold classified. now rewrite Hm. }
  rewrite (catch_block_run rt this a lg details _ m _ (Normal u) s3 Ha Hlg);
    [ | split; reflexivity | rewrite Hm; discriminate | exact Hlv
      | rewrite Hcl; exact Hlog ].
  rewrite Hcl. reflexivity.
Qed.

End PerformSteps.

(* ===================================================================== *)
(** * The start of the process *)
(* ===================================================================== *)

Section ProcessStartup.

Import Js Runtime Errors Obs MonadFacts Exec ExecFacts ObjectFacts Loop Bin.

Local Open Scope string_scope.
Local Open Scope monad_scope.

Context {Σ : Type}.
Variable rt : collaborators Σ.

(** X9. In sloppy code, when the arguments parse, both loaders resolve,
    the logger has [info] and its call returns, [main] does this and
    nothing else, in this order: the logger is loaded, then the
    adapter; the start is logged with the title of the process; a
    [Worker] is made from the loaded adapter, the title as
    [processName], the loaded logger, and the [queue], [workoff] and
    [clear] of the arguments; its run is started; the callback on the
    end of the run is attached, holding that same logger; and then
    [main] throws a [TypeError], at the first [process.on] of
    [setupSignals], which has stored the listener of [SIGINT] where
    [process] inherits [on] and nothing where it does not. The title is
    the one the process started with: the one made from the arguments
    was written to the namespace object and is lost. *)
Theorem main_wires_the_worker :
  forall (argv : list string) (s : Σ) (args : props) (lg : string)
         (ad : value) (w1 w2 : world Σ) (s4 : Σ),
    strict rt = false ->
    yargs rt argv = Normal args ->
    load_logger rt (fresh s) = (Normal (VLogger lg), w1) ->
    load_adapter rt w1 = (Normal ad, w2) ->
    logs rt lg "info"
         [VStr ("[node] Starting work at " ++ fst (now rt (store w2))
                  ++ "...")]
         (snd (now rt (store w2))) s4 ->
    exists msg w',
      main rt argv (fresh s) = (Throw (TypeError msg), w') /\
      store w' = s4 /\
      title w' = "node" /\
      trace w'
      = [ ELoadLogger; ELoadAdapter;
          ELog lg "info"
            [VStr ("[node] Starting work at " ++ fst (now rt (store w2))
                     ++ "...")];
          ENewWorker
            [ ("adapter", ad);
              ("processName", VStr "node");
              ("logger", VLogger lg);
              ("queue", field "queue" args);
              ("workoff", field "workoff" args);
              ("clear", field "clear" args) ];
          ERun ] /\
      listeners w'
      = (if on_inherited rt then [("SIGINT", OnSIGINT (VLogger lg))]
         else []) /\
      reactions w' = [ OnFinished (VLogger lg) ].
Proof. intros. eapply main_run; eauto. Qed.

(** X10. A logger that fails to load is handled by nobody: in sloppy
    code, when the arguments parse and [loadLogger] rejects, [main]
    throws the very value [loadLogger] was rejected with; the adapter is
    never loaded, nothing is logged, no worker is made, no callback is
    attached, and the program does not call [process.exit]. *)
Theorem logger_failure_is_not_handled :
  forall (argv : list string) (s : Σ) (args : props) (e : value)
         (w1 : world Σ),
    strict rt = false ->
    yargs rt argv = Normal args ->
    load_logger rt (fresh s) = (Throw e, w1) ->
    main rt argv (fresh s) = (Throw e, w1) /\
    trace w1 = [ELoadLogger] /\
    worker w1 = None /\
    reactions w1 = [].
Proof.
  intros argv s args e w1 Hs Ha H1. split.
  - rewrite (main_sloppy rt argv args (fresh s) Hs Ha).
    now rewrite run_bind, H1.
  - apply call_await_world in H1. rewrite H1.
    split; [reflexivity|]. split; reflexivity.
Qed.

(** X15. In strict code, when the arguments parse, [main] gets no
    further than the title: the write of [process.title] on the
    namespace object throws a [TypeError], and [main] throws it with
    the process as it was started: no loader called, nothing logged,
    no worker, no callback, no listener, the title unchanged. *)
Theorem strict_main_stops_at_the_title :
  forall (argv : list string) (s : Σ) (args : props),
    strict rt = true ->
    yargs rt argv = Normal args ->
    exists msg,
      main rt argv (fresh s) = (Throw (TypeError msg), fresh s).
Proof.
  intros argv s args Hs Ha. eexists.
  exact (main_strict rt argv args (fresh s) Hs Ha).
Qed.

End ProcessStartup.

(* ===================================================================== *)
(** * The claims on concrete runs *)
(* ===================================================================== *)

Section Runs.

Import Js Runtime Errors Obs Exec Loop Bin Demo.

Local Open Scope string_scope.
Local Open Scope monad_scope.

(** ** Runs on which a claim of the specification fails *)

(** C1, counterexample. The handler field of the job is ["not json"]:
    [JSON.parse], which runs before the [try], throws a [SyntaxError];
    [perform] throws it, and [adapter.failure] is never called. The
    handler of [StringJob] throws the string ["boom"] when invoked:
    [perform] throws a [TypeError], and [adapter.failure] is never
    called. And the handler of [ThrowingJob] rejects with an [Error],
    on an executor whose logger throws when its [error] is called:
    [perform] throws what the logger threw, and [adapter.failure] is
    never called. *)
Lemma parse_error_leaves_perform :
  (JSON_parse rt "not json" = Throw (Json.SyntaxError "not json") /\
   fst (perform rt garbled empty) = Throw (Json.SyntaxError "not json") /\
   filter is_failure (trace (snd (perform rt garbled empty))) = []) /\
  (run_job rt (details_of "StringJob") (started stringy)
   = (Throw (VStr "boom"), ran stringy "StringJob") /\
   fst (perform rt stringy empty)
   = Throw (TypeError "Cannot read properties of undefined (reading 'match')")
   /\
   filter is_failure (trace (snd (perform rt stringy empty))) = []) /\
  (run_job rt (details_of "ThrowingJob") (started brittle)
   = (Throw (VError "Error" "boom"), ran brittle "ThrowingJob") /\
   fst (perform rt brittle empty) = Throw (VError "Error" "log stream closed")
   /\
   filter is_failure (trace (snd (perform rt brittle empty))) = []).
Proof. repeat split; vm_compute; reflexivity. Qed.

(** C2, counterexample. For the job that is not JSON, for the job
    whose handler throws a string, and for the job whose handler
    rejects while the logger throws when its [error] is called,
    [perform] calls neither [adapter.success] nor [adapter.failure]; on
    the adapter whose [success] throws, [perform] calls both. *)
Lemma neither_and_both_adapter_calls :
  adapter_calls (trace (snd (perform rt garbled empty))) = [] /\
  adapter_calls (trace (snd (perform rt stringy empty))) = [] /\
  adapter_calls (trace (snd (perform rt brittle empty))) = [] /\
  adapter_calls (trace (snd (perform rt unlucky empty)))
  = [ ESuccess 1 (job_for "SendWelcomeEmailJob");
      EFailure 1 (job_for "SendWelcomeEmailJob")
               (VError "Error" "connection lost") retry_options ].
Proof. repeat split; vm_compute; reflexivity. Qed.

(** C3, counterexample. The handler of the job resolves and its
    [perform] completes, but [adapter.success] throws: the [catch]
    block then calls [adapter.failure] for that job, and what [perform]
    returns is the result of [adapter.failure]. *)
Lemma failure_called_for_executed_job :
  start rt unlucky empty
  = (Normal (details_of "SendWelcomeEmailJob"), started unlucky) /\
  run_job rt (details_of "SendWelcomeEmailJob") (started unlucky)
  = (Normal VUndefined, ran unlucky "SendWelcomeEmailJob") /\
  fst (perform rt unlucky empty) = Normal (VStr "rescheduled") /\
  filter is_failure (trace (snd (perform rt unlucky empty)))
  = [ EFailure 1 (job_for "SendWelcomeEmailJob")
               (VError "Error" "connection lost") retry_options ].
Proof. repeat split; vm_compute; reflexivity. Qed.

(** C4, counterexample. The handler rejects with the plain object
    [{ code: "ETIMEDOUT" }]: it is caught, its message (there is none)
    does not indicate a missing constructor, and yet it is not passed
    to [adapter.failure]: classifying it throws a [TypeError], which
    [perform] throws, and [adapter.failure] is never called. And the
    handler rejects with [Error("boom")] on an executor whose logger
    throws when its [error] is called: the message does not indicate a
    missing constructor, and the error is not passed to
    [adapter.failure] either. *)
Lemma caught_object_is_not_reported :
  ((run_job rt (details_of "ObjectJob") ;; report_success rt timing_out)
     (started timing_out)
   = (Throw timed_out, ran timing_out "ObjectJob") /\
   property rt (store (ran timing_out "ObjectJob")) timed_out "message"
   = VUndefined /\
   fst (perform rt timing_out empty)
   = Throw (TypeError "Cannot read properties of undefined (reading 'match')")
   /\
   filter is_failure (trace (snd (perform rt timing_out empty))) = []) /\
  ((run_job rt (details_of "ThrowingJob") ;; report_success rt brittle)
     (started brittle)
   = (Throw (VError "Error" "boom"), ran brittle "ThrowingJob") /\
   property rt (store (ran brittle "ThrowingJob")) (VError "Error" "boom")
            "message"
   = VStr "boom" /\
   includes "is not a constructor" "boom" = false /\
   filter is_failure (trace (snd (perform rt brittle empty))) = []).
Proof. repeat split; vm_compute; reflexivity. Qed.

(** ** The scenarios of the specification *)

(** Job [{ id: 42, handler: '{"handler":"SendWelcomeEmailJob",
    "args":[{"userId":7}]}' }], whose handler resolves and completes:
    [adapter.success] is called with the job, and no error is logged. *)
Example scenario_success :
  trace (snd (perform rt welcome empty))
  = [ ELog "console" "info"
        [job_for "SendWelcomeEmailJob"; VStr "Started job 42"];
      ELoadJob (VStr "SendWelcomeEmailJob");
      ENew 0 [];
      EPerform 0 [VObj [("userId", VNum 7)]];
      ESuccess 0 (job_for "SendWelcomeEmailJob") ].
Proof. vm_compute. reflexivity. Qed.

(** A job whose handler cannot be constructed: the error handed to
    [adapter.failure] is a [JobExportNotFoundError] whose message
    names the handler. *)
Example scenario_not_a_constructor :
  filter is_failure (trace (snd (perform rt misnamed empty)))
  = [ EFailure 0 (job_for "MisnamedJob")
               (VError "JobExportNotFoundError"
                  "Job file `MisnamedJob` does not export a class with the same name")
               retry_options ].
Proof. vm_compute. reflexivity. Qed.

(** ** Runs on which the theorems apply *)

(** C1, on the job whose handler rejects with [Error("boom")]: with
    the console as logger the error is handed to [adapter.failure];
    with the logger whose [error] throws, and with the logger that has
    no [error], [perform] throws. *)
Lemma errors_inside_try_are_reported_witness :
  (adapter throwing = VAdapter 0 /\
   start rt throwing empty
   = (Normal (details_of "ThrowingJob"), started throwing) /\
   run_job rt (details_of "ThrowingJob") (started throwing)
   = (Throw (VError "Error" "boom"), ran throwing "ThrowingJob") /\
   message_is rt (store (ran throwing "ThrowingJob")) (VError "Error" "boom")
              "boom" /\
   logs rt "console" "error"
        [property rt (store (ran throwing "ThrowingJob"))
                  (VError "Error" "boom") "stack"]
        (store (ran throwing "ThrowingJob"))
        (store (ran throwing "ThrowingJob")) /\
   fst (perform_body rt throwing empty)
   = Normal (VPromise Fulfilled (VStr "rescheduled"))) /\
  (adapter brittle = VAdapter 0 /\
   start rt brittle empty
   = (Normal (details_of "ThrowingJob"), started brittle) /\
   run_job rt (details_of "ThrowingJob") (started brittle)
   = (Throw (VError "Error" "boom"), ran brittle "ThrowingJob") /\
   message_is rt (store (ran brittle "ThrowingJob")) (VError "Error" "boom")
              "boom" /\
   existsb (String.eqb "error") (levels rt "brittle") = true /\
   log rt "brittle" "error"
       [property rt (store (ran brittle "ThrowingJob"))
                 (VError "Error" "boom") "stack"]
       (store (ran brittle "ThrowingJob"))
   = (Throw (VError "Error" "log stream closed"),
      store (ran brittle "ThrowingJob")) /\
   fst (perform rt brittle empty)
   = Throw (VError "Error" "log stream closed")) /\
  (adapter terse = VAdapter 0 /\
   start rt terse empty
   = (Normal (details_of "ThrowingJob"), started terse) /\
   run_job rt (details_of "ThrowingJob") (started terse)
   = (Throw (VError "Error" "boom"), ran terse "ThrowingJob") /\
   message_is rt (store (ran terse "ThrowingJob")) (VError "Error" "boom")
              "boom" /\
   existsb (String.eqb "error") (levels rt "terse") = false /\
   fst (perform rt terse empty)
   = Throw (TypeError "this.logger.error is not a function")).
Proof.
  split; [|split].
  - assert (Ha : adapter throwing = VAdapter 0) by reflexivity.
    assert (Hs : start rt throwing empty
                 = (Normal (details_of "ThrowingJob"), started throwing))
      by (vm_compute; reflexivity).
    assert (Hr : run_job rt (details_of "ThrowingJob") (started throwing)
                 = (Throw (VError "Error" "boom"),
                    ran throwing "ThrowingJob"))
      by (vm_compute; reflexivity).
    assert (Hm : message_is rt (store (ran throwing "ThrowingJob"))
                            (VError "Error" "boom") "boom")
      by (split; reflexivity).
    assert (Hg : logs rt "console" "error"
                      [property rt (store (ran throwing "ThrowingJob"))
                                (VError "Error" "boom") "stack"]
                      (store (ran throwing "ThrowingJob"))
                      (store (ran throwing "ThrowingJob")))
      by (split; [reflexivity | exists VUndefined; vm_compute; reflexivity]).
    split; [exact Ha|]. split; [exact Hs|]. split; [exact Hr|].
    split; [exact Hm|]. split; [exact Hg|].
    destruct (errors_inside_try_are_reported rt throwing 0 empty
                (started throwing) Ha) as [Hin _].
    destruct (Hin (details_of "ThrowingJob") (ran throwing "ThrowingJob")
                  (VError "Error" "boom") "boom" Hs Hr Hm)
      as [lg [Hlg [Hrun _]]].
    change (VLogger "console" = VLogger lg) in Hlg.
    injection Hlg as <-.
    rewrite (Hrun _ Hg). vm_compute. reflexivity.
  - assert (Ha : adapter brittle = VAdapter 0) by reflexivity.
    assert (Hs : start rt brittle empty
                 = (Normal (details_of "ThrowingJob"), started brittle))
      by (vm_compute; reflexivity).
    assert (Hr : run_job rt (details_of "ThrowingJob") (started brittle)
                 = (Throw (VError "Error" "boom"),
                    ran brittle "ThrowingJob"))
      by (vm_compute; reflexivity).
    assert (Hm : message_is rt (store (ran brittle "ThrowingJob"))
                            (VError "Error" "boom") "boom")
      by (split; reflexivity).
    assert (Hv : existsb (String.eqb "error") (levels rt "brittle") = true)
      by reflexivity.
    assert (Hg : log rt "brittle" "error"
                     [property rt (store (ran brittle "ThrowingJob"))
                               (VError "Error" "boom") "stack"]
                     (store (ran brittle "ThrowingJob"))
                 = (Throw (VError "Error" "log stream closed"),
                    store (ran brittle "ThrowingJob")))
      by (vm_compute; reflexivity).
    split; [exact Ha|]. split; [exact Hs|]. split; [exact Hr|].
    split; [exact Hm|]. split; [exact Hv|]. split; [exact Hg|].
    destruct (errors_inside_try_are_reported rt brittle 0 empty
                (started brittle) Ha) as [Hin _].
    destruct (Hin (details_of "ThrowingJob") (ran brittle "ThrowingJob")
                  (VError "Error" "boom") "boom" Hs Hr Hm)
      as [lg [Hlg [_ [Hthrow _]]]].
    change (VLogger "brittle" = VLogger lg) in Hlg.
    injection Hlg as <-.
    destruct (Hthrow _ _ Hv Hg) as [Hp _].
    exact (f_equal fst Hp).
  - assert (Ha : adapter terse = VAdapter 0) by reflexivity.
    assert (Hs : start rt terse empty
                 = (Normal (details_of "ThrowingJob"), started terse))
      by (vm_compute; reflexivity).
    assert (Hr : run_job rt (details_of "ThrowingJob") (started terse)
                 = (Throw (VError "Error" "boom"), ran terse "ThrowingJob"))
      by (vm_compute; reflexivity).
    assert (Hm : message_is rt (store (ran terse "ThrowingJob"))
                            (VError "Error" "boom") "boom")
      by (split; reflexivity).
    assert (Hv : existsb (String.eqb "error") (levels rt "terse") = false)
      by reflexivity.
    split; [exact Ha|]. split; [exact Hs|]. split; [exact Hr|].
    split; [exact Hm|]. split; [exact Hv|].
    destruct (errors_inside_try_are_reported rt terse 0 empty
                (started terse) Ha) as [Hin _].
    destruct (Hin (details_of "ThrowingJob") (ran terse "ThrowingJob")
                  (VError "Error" "boom") "boom" Hs Hr Hm)
      as [lg [Hlg [_ [_ Hnone]]]].
    change (VLogger "terse" = VLogger lg) in Hlg.
    injection Hlg as <-.
    destruct (Hnone Hv) as [Hp _].
    exact (f_equal fst Hp).
Defined.

(** C2, on the job of the scenario, whose handler returns, and on the
    job whose handler rejects with [Error("boom")]. *)
Lemma exactly_one_adapter_call_witness :
  (adapter welcome = VAdapter 0 /\
   logger welcome = VLogger "console" /\
   start rt welcome empty
   = (Normal (details_of "SendWelcomeEmailJob"), started welcome) /\
   run_job rt (details_of "SendWelcomeEmailJob") (started welcome)
   = (Normal VUndefined, ran welcome "SendWelcomeEmailJob") /\
   (forall e s,
      success rt 0 (job welcome)
              (store (ran welcome "SendWelcomeEmailJob")) <> (Throw e, s)) /\
   exists ev,
     adapter_calls (trace (snd (perform rt welcome empty)))
     = (adapter_calls (trace empty) ++ [ev])%list /\
     reported_job ev = Some (job welcome) /\
     is_success ev = true) /\
  (adapter throwing = VAdapter 0 /\
   logger throwing = VLogger "console" /\
   start rt throwing empty
   = (Normal (details_of "ThrowingJob"), started throwing) /\
   run_job rt (details_of "ThrowingJob") (started throwing)
   = (Throw (VError "Error" "boom"), ran throwing "ThrowingJob") /\
   (exists m s3,
      message_is rt (store (ran throwing "ThrowingJob"))
                 (VError "Error" "boom") m /\
      logs rt "console" "error"
           [property rt (store (ran throwing "ThrowingJob"))
                     (classified rt (store (ran throwing "ThrowingJob"))
                                 (details_of "ThrowingJob")
                                 (VError "Error" "boom") m) "stack"]
           (store (ran throwing "ThrowingJob")) s3) /\
   exists ev,
     adapter_calls (trace (snd (perform rt throwing empty)))
     = (adapter_calls (trace empty) ++ [ev])%list /\
     reported_job ev = Some (job throwing) /\
     is_success ev = false).
Proof.
  split.
  - assert (Ha : adapter welcome = VAdapter 0) by reflexivity.
    assert (Hl : logger welcome = VLogger "console") by reflexivity.
    assert (Hs : start rt welcome empty
                 = (Normal (details_of "SendWelcomeEmailJob"),
                    started welcome))
      by (vm_compute; reflexivity).
    assert (Hr : run_job rt (details_of "SendWelcomeEmailJob")
                         (started welcome)
                 = (Normal VUndefined, ran welcome "SendWelcomeEmailJob"))
      by (vm_compute; reflexivity).
    assert (Hc : forall e s,
               success rt 0 (job welcome)
                       (store (ran welcome "SendWelcomeEmailJob"))
               <> (Throw e, s))
      by (intros e s H; vm_compute in H; discriminate).
    split; [exact Ha|]. split; [exact Hl|]. split; [exact Hs|].
    split; [exact Hr|]. split; [exact Hc|].
    apply (exactly_one_adapter_call rt welcome 0 "console" empty
             (started welcome) (ran welcome "SendWelcomeEmailJob")
             (details_of "SendWelcomeEmailJob") (Normal VUndefined)
             Ha Hl Hs Hr Hc).
  - assert (Ha : adapter throwing = VAdapter 0) by reflexivity.
    assert (Hl : logger throwing = VLogger "console") by reflexivity.
    assert (Hs : start rt throwing empty
                 = (Normal (details_of "ThrowingJob"), started throwing))
      by (vm_compute; reflexivity).
    assert (Hr : run_job rt (details_of "ThrowingJob") (started throwing)
                 = (Throw (VError "Error" "boom"),
                    ran throwing "ThrowingJob"))
      by (vm_compute; reflexivity).
    assert (Hc : exists m s3,
               message_is rt (store (ran throwing "ThrowingJob"))
                          (VError "Error" "boom") m /\
               logs rt "console" "error"
                    [property rt (store (ran throwing "ThrowingJob"))
                              (classified rt
                                 (store (ran throwing "ThrowingJob"))
                                 (details_of "ThrowingJob")
                                 (VError "Error" "boom") m) "stack"]
                    (store (ran throwing "ThrowingJob")) s3).
    { exists "boom", (store (ran throwing "ThrowingJob")).
      split; [split; reflexivity|].
      split; [reflexivity | exists VUndefined; vm_compute; reflexivity]. }
    split; [exact Ha|]. split; [exact Hl|]. split; [exact Hs|].
    split; [exact Hr|]. split; [exact Hc|].
    apply (exactly_one_adapter_call rt throwing 0 "console" empty
             (started throwing) (ran throwing "ThrowingJob")
             (details_of "ThrowingJob") (Throw (VError "Error" "boom"))
             Ha Hl Hs Hr Hc).
Defined.

(** C3, on the job of the scenario. *)
Lemma success_reported_when_it_returns_witness :
  adapter welcome = VAdapter 0 /\
  start rt welcome empty
  = (Normal (details_of "SendWelcomeEmailJob"), started welcome) /\
  run_job rt (details_of "SendWelcomeEmailJob") (started welcome)
  = (Normal VUndefined, ran welcome "SendWelcomeEmailJob") /\
  fst (perform_body rt welcome empty)
  = Normal (VPromise Fulfilled (VStr "deleted")) /\
  adapter_calls (trace (snd (perform_body rt welcome empty)))
  = [ESuccess 0 (job_for "SendWelcomeEmailJob")].
Proof.
  assert (Ha : adapter welcome = VAdapter 0) by reflexivity.
  assert (Hs : start rt welcome empty
               = (Normal (details_of "SendWelcomeEmailJob"), started welcome))
    by (vm_compute; reflexivity).
  assert (Hr : run_job rt (details_of "SendWelcomeEmailJob") (started welcome)
               = (Normal VUndefined, ran welcome "SendWelcomeEmailJob"))
    by (vm_compute; reflexivity).
  destruct (success_reported_when_it_returns rt welcome 0 empty
              (started welcome) (ran welcome "SendWelcomeEmailJob")
              (details_of "SendWelcomeEmailJob") VUndefined Ha Hs Hr)
    as [Hret _].
  destruct (Hret (VPromise Fulfilled (VStr "deleted")))
    as [Hbody [_ Hcalls]]; [vm_compute; reflexivity|].
  split; [exact Ha|]. split; [exact Hs|]. split; [exact Hr|]. split.
  - now rewrite Hbody.
  - rewrite Hbody. exact Hcalls.
Defined.

(** C4, on the job whose handler rejects with [Error("boom")] and on
    the job whose module lacks the export. *)
Lemma caught_error_is_classified_witness :
  (adapter throwing = VAdapter 0 /\
   start rt throwing empty
   = (Normal (details_of "ThrowingJob"), started throwing) /\
   (run_job rt (details_of "ThrowingJob") ;; report_success rt throwing)
     (started throwing)
   = (Throw (VError "Error" "boom"), ran throwing "ThrowingJob") /\
   message_is rt (store (ran throwing "ThrowingJob")) (VError "Error" "boom")
              "boom" /\
   filter is_failure (trace (snd (perform_body rt throwing empty)))
   = [ EFailure 0 (job_for "ThrowingJob") (VError "Error" "boom")
                retry_options ]) /\
  (adapter misnamed = VAdapter 0 /\
   start rt misnamed empty
   = (Normal (details_of "MisnamedJob"), started misnamed) /\
   (run_job rt (details_of "MisnamedJob") ;; report_success rt misnamed)
     (started misnamed)
   = (Throw not_a_constructor, ran misnamed "MisnamedJob") /\
   message_is rt (store (ran misnamed "MisnamedJob")) not_a_constructor
              "jobModule[details.handler] is not a constructor" /\
   filter is_failure (trace (snd (perform_body rt misnamed empty)))
   = [ EFailure 0 (job_for "MisnamedJob")
                (JobExportNotFoundError (VStr "MisnamedJob"))
                retry_options ]).
Proof.
  split.
  - assert (Ha : adapter throwing = VAdapter 0) by reflexivity.
    assert (Hs : start rt throwing empty
                 = (Normal (details_of "ThrowingJob"), started throwing))
      by (vm_compute; reflexivity).
    assert (Ht : (run_job rt (details_of "ThrowingJob") ;;
                  report_success rt throwing) (started throwing)
                 = (Throw (VError "Error" "boom"),
                    ran throwing "ThrowingJob"))
      by (vm_compute; reflexivity).
    assert (Hm : message_is rt (store (ran throwing "ThrowingJob"))
                            (VError "Error" "boom") "boom")
      by (split; reflexivity).
    split; [exact Ha|]. split; [exact Hs|]. split; [exact Ht|].
    split; [exact Hm|].
    destruct (caught_error_is_classified rt throwing 0 empty
                (started throwing) (ran throwing "ThrowingJob")
                (details_of "ThrowingJob") (VError "Error" "boom") "boom"
                Ha Hs Ht Hm)
      as [lg [error [Hlg [Hcls Hrun]]]].
    change (VLogger "console" = VLogger lg) in Hlg.
    injection Hlg as <-.
    simpl in Hcls. subst error.
    rewrite (Hrun (store (ran throwing "ThrowingJob")));
      [vm_compute; reflexivity|].
    split; [reflexivity | exists VUndefined; vm_compute; reflexivity].
  - assert (Ha : adapter misnamed = VAdapter 0) by reflexivity.
    assert (Hs : start rt misnamed empty
                 = (Normal (details_of "MisnamedJob"), started misnamed))
      by (vm_compute; reflexivity).
    assert (Ht : (run_job rt (details_of "MisnamedJob") ;;
                  report_success rt misnamed) (started misnamed)
                 = (Throw not_a_constructor, ran misnamed "MisnamedJob"))
      by (vm_compute; reflexivity).
    assert (Hm : message_is rt (store (ran misnamed "MisnamedJob"))
                            not_a_constructor
                            "jobModule[details.handler] is not a constructor")
      by (split; reflexivity).
    split; [exact Ha|]. split; [exact Hs|]. split; [exact Ht|].
    split; [exact Hm|].
    destruct (caught_error_is_classified rt misnamed 0 empty
                (started misnamed) (ran misnamed "MisnamedJob")
                (details_of "MisnamedJob") not_a_constructor
                "jobModule[details.handler] is not a constructor"
                Ha Hs Ht Hm)
      as [lg [error [Hlg [Hcls Hrun]]]].
    change (VLogger "console" = VLogger lg) in Hlg.
    injection Hlg as <-.
    vm_compute in Hcls. destruct Hcls as [_ Herr]. subst error.
    rewrite (Hrun (store (ran misnamed "MisnamedJob")));
      [vm_compute; reflexivity|].
    split; [reflexivity | exists VUndefined; vm_compute; reflexivity].
Defined.

(** C9, on the job whose handler throws the string ["boom"]. *)
Lemma unclassifiable_throw_escapes_witness :
  start rt stringy empty
  = (Normal (details_of "StringJob"), started stringy) /\
  run_job rt (details_of "StringJob") (started stringy)
  = (Throw (VStr "boom"), ran stringy "StringJob") /\
  (forall m, ~ message_is rt (store (ran stringy "StringJob"))
                          (VStr "boom") m) /\
  exists msg,
    perform rt stringy empty
    = (Throw (TypeError msg), ran stringy "StringJob") /\
    adapter_calls (trace (ran stringy "StringJob"))
    = adapter_calls (trace empty).
Proof.
  assert (Hs : start rt stringy empty
               = (Normal (details_of "StringJob"), started stringy))
    by (vm_compute; reflexivity).
  assert (Hr : run_job rt (details_of "StringJob") (started stringy)
               = (Throw (VStr "boom"), ran stringy "StringJob"))
    by (vm_compute; reflexivity).
  assert (Hno : forall m, ~ message_is rt (store (ran stringy "StringJob"))
                                        (VStr "boom") m)
    by (intros m [_ H]; vm_compute in H; discriminate).
  split; [exact Hs|]. split; [exact Hr|]. split; [exact Hno|].
  apply (unclassifiable_throw_escapes rt stringy empty (started stringy)
           (ran stringy "StringJob") (details_of "StringJob") (VStr "boom")
           Hs Hr Hno).
Defined.

(** C5, on options without adapter and on options without job. *)
Lemma constructor_requires_adapter_then_job_witness :
  (truthy (field "adapter" []) = false /\
   constructor 24 false [] empty = (Throw AdapterRequiredError, empty)) /\
  (truthy (field "adapter" [("adapter", VAdapter 0)]) = true /\
   truthy (field "job" [("adapter", VAdapter 0)]) = false /\
   constructor 24 false [("adapter", VAdapter 0)] empty
   = (Throw JobRequiredError, empty)).
Proof.
  split.
  - split; [reflexivity|].
    apply (proj1 (constructor_requires_adapter_then_job 24 false [] empty)).
    reflexivity.
  - split; [reflexivity|]. split; [reflexivity|].
    apply (proj2 (constructor_requires_adapter_then_job
                    24 false [("adapter", VAdapter 0)] empty));
      reflexivity.
Defined.

(** C10, on options with [logger] and [maxAttempts] explicitly
    [undefined] and without [deleteFailedJobs]. *)
Lemma defaults_only_for_absent_keys_witness :
  truthy (field "adapter"
            [ ("adapter", VAdapter 0); ("job", garbled_job);
              ("logger", VUndefined); ("maxAttempts", VUndefined) ]) = true /\
  truthy (field "job"
            [ ("adapter", VAdapter 0); ("job", garbled_job);
              ("logger", VUndefined); ("maxAttempts", VUndefined) ]) = true /\
  exists this,
    constructor 24 false
      [ ("adapter", VAdapter 0); ("job", garbled_job);
        ("logger", VUndefined); ("maxAttempts", VUndefined) ] empty
    = (Normal this, empty) /\
    logger this = VUndefined /\
    maxAttempts this = VUndefined /\
    deleteFailedJobs this = VBool false.
Proof.
  split; [reflexivity|]. split; [reflexivity|].
  destruct (defaults_only_for_absent_keys 24 false
              [ ("adapter", VAdapter 0); ("job", garbled_job);
                ("logger", VUndefined); ("maxAttempts", VUndefined) ]
              empty eq_refl eq_refl)
    as [this [Hc [Hl [Hm Hd]]]].
  exists this. split; [exact Hc|]. split; [exact Hl|].
  split; [exact Hm | exact Hd].
Defined.

(** C6, on the job of the scenario, held by value and held as a record
    of the outside world. *)
Lemma perform_only_reports_on_its_job_witness :
  constructor 24 false
    [("adapter", VAdapter 0); ("job", job_for "SendWelcomeEmailJob")] empty
  = (Normal welcome, empty) /\
  job welcome
  = field "job"
      [("adapter", VAdapter 0); ("job", job_for "SendWelcomeEmailJob")] /\
  (exists evs,
     trace (snd (perform rt welcome empty)) = (trace empty ++ evs)%list /\
     Forall (fun ev => forall j, reported_job ev = Some j -> j = job welcome)
            evs /\
     changed_by_collaborators rt (store empty)
                              (store (snd (perform rt welcome empty)))) /\
  kept_by_calls rt (fun s => read rt s 7 "handler"
                             = VStr (descriptor "SendWelcomeEmailJob")) /\
  read rt (store filing) 7 "handler"
  = VStr (descriptor "SendWelcomeEmailJob") /\
  read rt (store (snd (perform rt filed filing))) 7 "handler"
  = VStr (descriptor "SendWelcomeEmailJob").
Proof.
  assert (Hc : constructor 24 false
                 [("adapter", VAdapter 0);
                  ("job", job_for "SendWelcomeEmailJob")] empty
               = (Normal welcome, empty)) by reflexivity.
  assert (Hk : kept_by_calls rt
                 (fun s => read rt s 7 "handler"
                           = VStr (descriptor "SendWelcomeEmailJob")))
    by (repeat split; intros; assumption).
  assert (Hi : read rt (store filing) 7 "handler"
               = VStr (descriptor "SendWelcomeEmailJob")) by reflexivity.
  destruct (perform_only_reports_on_its_job rt 24 false
              [("adapter", VAdapter 0);
               ("job", job_for "SendWelcomeEmailJob")]
              welcome empty empty empty) as [Hjob [Hrep _]].
  destruct (perform_only_reports_on_its_job rt 24 false [] filed
              filing filing filing) as [_ [_ Hkept]].
  split; [exact Hc|]. split; [exact (proj2 (Hjob Hc))|].
  split; [exact Hrep|]. split; [exact Hk|]. split; [exact Hi|].
  exact (Hkept _ Hk Hi).
Defined.

(** C7, on the process whose adapter does not load; on a process that
    has a worker, for what the callback and the listener would do; and
    on the process whose logger and adapter load, started without
    arguments and then sent [SIGTERM]. *)
Lemma sigterm_listener_is_never_installed_witness :
  (strict unconfigured = false /\
   yargs unconfigured [] = Normal default_options /\
   load_logger unconfigured (fresh no_jobs)
   = (Normal (VLogger "logger"), logger_loaded) /\
   load_adapter unconfigured logger_loaded
   = (Throw (VError "Error" "no adapter configured"), adapter_failed) /\
   logs unconfigured "logger" "error"
        [VError "Error" "no adapter configured"]
        (store adapter_failed) (store adapter_failed) /\
   fst (main unconfigured [] (fresh no_jobs)) = Exit 1) /\
  (logs rt "logger" "info"
        [VStr ("[" ++ title working ++ "] Worker finished, shutting down.")]
        (store working) (store working) /\
   fst (on_finished rt (VLogger "logger") working) = Exit 0) /\
  (logs rt "logger" "info"
        [VStr ("[" ++ title working ++ "] SIGTERM received at "
                 ++ fst (now rt (store working)) ++ ", exiting now!")]
        (snd (now rt (store working))) (snd (now rt (store working))) /\
   fst (on_SIGTERM rt (VLogger "logger") working) = Exit 0) /\
  (forall u, fst (main bundled [] (fresh no_jobs)) <> Normal u) /\
  listeners_of "SIGTERM" (snd (main bundled [] (fresh no_jobs))) = [] /\
  fst (deliver bundled "SIGTERM" (snd (main bundled [] (fresh no_jobs))))
  = Killed "SIGTERM".
Proof.
  split; [|split; [|split]].
  - assert (Hs : strict unconfigured = false) by reflexivity.
    assert (Ha : yargs unconfigured [] = Normal default_options)
      by reflexivity.
    assert (H1 : load_logger unconfigured (fresh no_jobs)
                 = (Normal (VLogger "logger"), logger_loaded))
      by (vm_compute; reflexivity).
    assert (H2 : load_adapter unconfigured logger_loaded
                 = (Throw (VError "Error" "no adapter configured"),
                    adapter_failed))
      by (vm_compute; reflexivity).
    assert (Hg : logs unconfigured "logger" "error"
                      [VError "Error" "no adapter configured"]
                      (store adapter_failed) (store adapter_failed))
      by (split; [reflexivity | exists VUndefined; vm_compute; reflexivity]).
    split; [exact Hs|]. split; [exact Ha|]. split; [exact H1|].
    split; [exact H2|]. split; [exact Hg|].
    destruct (sigterm_listener_is_never_installed unconfigured [] no_jobs)
      as [Hexit _].
    destruct (Hexit default_options "logger" logger_loaded adapter_failed
                    (VError "Error" "no adapter configured")
                    (store adapter_failed) Hs Ha H1 H2 Hg) as [Hm _].
    exact (f_equal fst Hm).
  - destruct (sigterm_listener_is_never_installed rt [] no_jobs)
      as [_ [Hdone _]].
    assert (Hg : logs rt "logger" "info"
                      [VStr ("[" ++ title working
                               ++ "] Worker finished, shutting down.")]
                      (store working) (store working))
      by (split; [reflexivity | exists VUndefined; vm_compute; reflexivity]).
    split; [exact Hg|].
    exact (f_equal fst (Hdone "logger" working _ Hg)).
  - destruct (sigterm_listener_is_never_installed rt [] no_jobs)
      as [_ [_ [Hterm _]]].
    assert (Hg : logs rt "logger" "info"
                      [VStr ("[" ++ title working ++ "] SIGTERM received at "
                               ++ fst (now rt (store working))
                               ++ ", exiting now!")]
                      (snd (now rt (store working)))
                      (snd (now rt (store working))))
      by (split; [reflexivity | exists VUndefined; vm_compute; reflexivity]).
    split; [exact Hg|].
    exact (f_equal fst (Hterm "logger" working _ Hg)).
  - destruct (sigterm_listener_is_never_installed bundled [] no_jobs)
      as [_ [_ [_ [Hnever [Hnone Hkill]]]]].
    split; [exact Hnever|]. split; [exact Hnone|].
    exact (f_equal fst Hkill).
Defined.

(** C8, on a process that has a worker, for what the listener would do,
    and on the processes whose logger and adapter load, started without
    arguments: the one whose [process] does not inherit [on], sent
    [SIGINT], and the one whose [process] does. *)
Lemma sigint_setup_throws_witness :
  (worker working = Some a_worker /\
   logs rt "logger" "warn"
        [VStr ("[" ++ title working ++ "] SIGINT received at "
                 ++ fst (now rt (store working)) ++ ", finishing work...")]
        (snd (now rt (store working))) (snd (now rt (store working))) /\
   fst (on_SIGINT rt (VLogger "logger") working) = Normal tt /\
   worker (snd (on_SIGINT rt (VLogger "logger") working))
   = Some (with_forever false a_worker)) /\
  (on_inherited rt = false /\
   (forall u, fst (main rt [] (fresh no_jobs)) <> Normal u) /\
   listeners (snd (main rt [] (fresh no_jobs))) = [] /\
   fst (deliver rt "SIGINT" (snd (main rt [] (fresh no_jobs))))
   = Killed "SIGINT") /\
  (on_inherited bundled = true /\
   strict bundled = false /\
   yargs bundled [] = Normal default_options /\
   load_logger bundled (fresh no_jobs)
   = (Normal (VLogger "logger"), snd (load_logger bundled (fresh no_jobs))) /\
   load_adapter bundled (snd (load_logger bundled (fresh no_jobs)))
   = (Normal (VAdapter 0),
      snd (load_adapter bundled
             (snd (load_logger bundled (fresh no_jobs))))) /\
   logs bundled "logger" "info"
        [VStr ("[node] Starting work at " ++ timestamp 0 ++ "...")]
        (mkOutside [] 1) (mkOutside [] 1) /\
   exists msg w',
     main bundled [] (fresh no_jobs) = (Throw (TypeError msg), w') /\
     listeners w' = [("SIGINT", OnSIGINT (VLogger "logger"))] /\
     reactions w' = [OnFinished (VLogger "logger")]).
Proof.
  split; [|split].
  - destruct (sigint_setup_throws rt [] no_jobs) as [Hbody _].
    assert (Hw : worker working = Some a_worker) by reflexivity.
    assert (Hg : logs rt "logger" "warn"
                      [VStr ("[" ++ title working ++ "] SIGINT received at "
                               ++ fst (now rt (store working))
                               ++ ", finishing work...")]
                      (snd (now rt (store working)))
                      (snd (now rt (store working))))
      by (split; [reflexivity | exists VUndefined; vm_compute; reflexivity]).
    split; [exact Hw|]. split; [exact Hg|].
    rewrite (Hbody "logger" a_worker working _ Hw Hg).
    split; reflexivity.
  - destruct (sigint_setup_throws rt [] no_jobs)
      as [_ [Hnever [Hnone _]]].
    assert (Hi : on_inherited rt = false) by reflexivity.
    destruct (Hnone Hi) as [Hli Hkill].
    split; [exact Hi|]. split; [exact Hnever|]. split; [exact Hli|].
    exact (f_equal fst Hkill).
  - destruct (sigint_setup_throws bundled [] no_jobs)
      as [_ [_ [_ Hstored]]].
    assert (Hi : on_inherited bundled = true) by reflexivity.
    assert (Hs : strict bundled = false) by reflexivity.
    assert (Ha : yargs bundled [] = Normal default_options) by reflexivity.
    assert (H1 : load_logger bundled (fresh no_jobs)
                 = (Normal (VLogger "logger"),
                    snd (load_logger bundled (fresh no_jobs))))
      by (vm_compute; reflexivity).
    assert (H2 : load_adapter bundled
                   (snd (load_logger bundled (fresh no_jobs)))
                 = (Normal (VAdapter 0),
                    snd (load_adapter bundled
                           (snd (load_logger bundled (fresh no_jobs))))))
      by (vm_compute; reflexivity).
    assert (Hg : logs bundled "logger" "info"
                      [VStr ("[node] Starting work at " ++ timestamp 0
                               ++ "...")]
                      (mkOutside [] 1) (mkOutside [] 1))
      by (split; [reflexivity | exists VUndefined; vm_compute; reflexivity]).
    split; [exact Hi|]. split; [exact Hs|]. split; [exact Ha|].
    split; [exact H1|]. split; [exact H2|]. split; [exact Hg|].
    exact (Hstored Hi default_options "logger" (VAdapter 0) _ _
                   (mkOutside [] 1) Hs Ha H1 H2 Hg).
Defined.

(** The process whose logger and adapter load, started without
    arguments. In sloppy code [main] makes the worker, runs it, and is
    then left by the [TypeError] of [process.on], its title unchanged:
    with no listener where [process] does not inherit [on], with the
    listener of [SIGINT] and none of [SIGTERM] where it does. In
    strict code the write of the title already throws, before anything
    is loaded. *)
Example started_worker_is_left_by_main :
  (fst (main rt [] (fresh no_jobs))
   = Throw (TypeError "process.on is not a function") /\
   trace (snd (main rt [] (fresh no_jobs)))
   = [ ELoadLogger; ELoadAdapter;
       ELog "logger" "info"
            [VStr "[node] Starting work at 2024-07-01T00:00:00.000Z..."];
       ENewWorker [ ("adapter", VAdapter 0); ("processName", VStr "node");
                    ("logger", VLogger "logger"); ("queue", VUndefined);
                    ("workoff", VBool false); ("clear", VBool false) ];
       ERun ] /\
   title (snd (main rt [] (fresh no_jobs))) = "node" /\
   listeners (snd (main rt [] (fresh no_jobs))) = []) /\
  (fst (main bundled [] (fresh no_jobs))
   = Throw (TypeError
              "Cannot set property _eventsCount of #<process> which has only a getter")
   /\
   title (snd (main bundled [] (fresh no_jobs))) = "node" /\
   listeners (snd (main bundled [] (fresh no_jobs)))
   = [("SIGINT", OnSIGINT (VLogger "logger"))]) /\
  (fst (main strict_rt [] (fresh no_jobs))
   = Throw (TypeError
              "Cannot assign to read only property 'title' of object '[object Module]'")
   /\
   trace (snd (main strict_rt [] (fresh no_jobs))) = []).
Proof. repeat split; vm_compute; reflexivity. Qed.

(** ** Runs on which the further properties apply *)

(** X2, on the executor constructed for the job whose handler rejects. *)
Lemma perform_uses_what_it_was_constructed_with_witness :
  constructor 24 false
    [("adapter", VAdapter 0); ("job", job_for "ThrowingJob")] empty
  = (Normal throwing, empty) /\
  exists evs,
    trace (snd (perform rt throwing empty)) = (trace empty ++ evs)%list /\
    Forall
      (fun ev =>
         match ev with
         | ELog n _ _ => VLogger n = console
         | ESuccess a _ => VAdapter a = VAdapter 0
         | EFailure a _ _ o => VAdapter a = VAdapter 0 /\ o = retry_options
         | _ => True
         end) evs.
Proof.
  assert (Hc : constructor 24 false
                 [("adapter", VAdapter 0); ("job", job_for "ThrowingJob")]
                 empty
               = (Normal throwing, empty)) by reflexivity.
  split; [exact Hc|].
  exact (perform_uses_what_it_was_constructed_with rt 24 false
           [("adapter", VAdapter 0); ("job", job_for "ThrowingJob")]
           throwing empty empty empty Hc).
Defined.

(** X3, on the executor whose logger is [undefined]. *)
Lemma perform_needs_a_logger_witness :
  (forall lg, logger mute <> VLogger lg) /\
  exists msg, perform rt mute empty = (Throw (TypeError msg), empty).
Proof.
  assert (Hno : forall lg, logger mute <> VLogger lg)
    by (intros lg H; discriminate).
  split; [exact Hno|].
  apply (perform_needs_a_logger rt mute empty Hno).
Defined.

(** X4, on the job whose handler never settles. *)
Lemma unsettled_handler_is_never_reported_witness :
  start rt hung empty = (Normal (details_of "HungJob"), started hung) /\
  run_job rt (details_of "HungJob") (started hung)
  = (Pending, ran hung "HungJob") /\
  perform rt hung empty = (Pending, ran hung "HungJob") /\
  adapter_calls (trace (ran hung "HungJob")) = adapter_calls (trace empty).
Proof.
  assert (Hs : start rt hung empty
               = (Normal (details_of "HungJob"), started hung))
    by (vm_compute; reflexivity).
  assert (Hr : run_job rt (details_of "HungJob") (started hung)
               = (Pending, ran hung "HungJob"))
    by (vm_compute; reflexivity).
  split; [exact Hs|]. split; [exact Hr|].
  apply (unsettled_handler_is_never_reported rt hung empty (started hung)
           (ran hung "HungJob") (details_of "HungJob") Hs Hr).
Defined.

(** X5, on the job of the scenario. *)
Lemma handler_is_given_the_arguments_of_the_job_witness :
  field "args" (details_fields "SendWelcomeEmailJob")
  = VArr [VObj [("userId", VNum 7)]] /\
  loadJob rt (field "handler" (details_fields "SendWelcomeEmailJob"))
          (store (started welcome))
  = (Normal (fulfilled welcome_module), no_jobs) /\
  settle (fulfilled welcome_module) = Got welcome_module /\
  nullish welcome_module = false /\
  property rt no_jobs welcome_module
           (ToString (field "handler" (details_fields "SendWelcomeEmailJob")))
  = VClass 0 /\
  construct rt 0 [] no_jobs = (Normal (VInstance 0), no_jobs) /\
  run_job rt (VObj (details_fields "SendWelcomeEmailJob")) (started welcome)
  = (running <- call (EPerform 0 [VObj [("userId", VNum 7)]])
                     (perform_of rt 0 [VObj [("userId", VNum 7)]]) ;;
     await running)
      (advanced no_jobs
         [ ELoadJob (field "handler" (details_fields "SendWelcomeEmailJob"));
           ENew 0 [] ]
         (started welcome)).
Proof.
  assert (Ha : field "args" (details_fields "SendWelcomeEmailJob")
               = VArr [VObj [("userId", VNum 7)]]) by reflexivity.
  assert (Hl : loadJob rt
                 (field "handler" (details_fields "SendWelcomeEmailJob"))
                 (store (started welcome))
               = (Normal (fulfilled welcome_module), no_jobs))
    by (vm_compute; reflexivity).
  assert (Hp : settle (fulfilled welcome_module) = Got welcome_module)
    by reflexivity.
  assert (Hn : nullish welcome_module = false) by reflexivity.
  assert (Hc : property rt no_jobs welcome_module
                 (ToString
                    (field "handler" (details_fields "SendWelcomeEmailJob")))
               = VClass 0) by reflexivity.
  assert (Hi : construct rt 0 [] no_jobs = (Normal (VInstance 0), no_jobs))
    by reflexivity.
  split; [exact Ha|]. split; [exact Hl|]. split; [exact Hp|].
  split; [exact Hn|]. split; [exact Hc|]. split; [exact Hi|].
  exact (handler_is_given_the_arguments_of_the_job rt
           (details_fields "SendWelcomeEmailJob")
           [VObj [("userId", VNum 7)]] (fulfilled welcome_module)
           welcome_module 0 0 no_jobs no_jobs (started welcome)
           Ha Hl Hp Hn Hc Hi).
Defined.

(** X6, on the job whose module lacks the export. *)
Lemma missing_export_is_reported_as_such_witness :
  adapter misnamed = VAdapter 0 /\
  start rt misnamed empty
  = (Normal (VObj (details_fields "MisnamedJob")), started misnamed) /\
  loadJob rt (field "handler" (details_fields "MisnamedJob"))
          (store (started misnamed))
  = (Normal (fulfilled (VObj [("OtherJob", VClass 0)])), no_jobs) /\
  (forall c,
     property rt no_jobs (VObj [("OtherJob", VClass 0)])
              (ToString (field "handler" (details_fields "MisnamedJob")))
     <> VClass c) /\
  logs rt "console" "error"
       [property rt no_jobs
                 (JobExportNotFoundError
                    (field "handler" (details_fields "MisnamedJob")))
                 "stack"]
       no_jobs no_jobs /\
  filter is_failure (trace (snd (perform_body rt misnamed empty)))
  = [ EFailure 0 (job_for "MisnamedJob")
               (JobExportNotFoundError (VStr "MisnamedJob")) retry_options ] /\
  filter (fun ev => Nat.eqb (stage ev) 2 || Nat.eqb (stage ev) 3)
         (trace (snd (perform_body rt misnamed empty))) = [].
Proof.
  assert (Ha : adapter misnamed = VAdapter 0) by reflexivity.
  assert (Hs : start rt misnamed empty
               = (Normal (VObj (details_fields "MisnamedJob")),
                  started misnamed))
    by (vm_compute; reflexivity).
  assert (Hl : loadJob rt (field "handler" (details_fields "MisnamedJob"))
                       (store (started misnamed))
               = (Normal (fulfilled (VObj [("OtherJob", VClass 0)])), no_jobs))
    by (vm_compute; reflexivity).
  assert (Hno : forall c,
             property rt no_jobs (VObj [("OtherJob", VClass 0)])
                      (ToString
                         (field "handler" (details_fields "MisnamedJob")))
             <> VClass c)
    by (intros c H; vm_compute in H; discriminate).
  assert (Hg : logs rt "console" "error"
                    [property rt no_jobs
                              (JobExportNotFoundError
                                 (field "handler"
                                    (details_fields "MisnamedJob")))
                              "stack"]
                    no_jobs no_jobs)
    by (split; [reflexivity | exists VUndefined; vm_compute; reflexivity]).
  split; [exact Ha|]. split; [exact Hs|]. split; [exact Hl|].
  split; [exact Hno|]. split; [exact Hg|].
  destruct (missing_export_is_reported_as_such rt misnamed 0 empty
              (started misnamed) (details_fields "MisnamedJob")
              (fulfilled (VObj [("OtherJob", VClass 0)]))
              (VObj [("OtherJob", VClass 0)]) no_jobs
              Ha Hs Hl eq_refl eq_refl Hno) as [lg [Hlg Hrun]].
  change (VLogger "console" = VLogger lg) in Hlg.
  injection Hlg as <-. cbv zeta in Hrun.
  rewrite (Hrun no_jobs Hg). split; vm_compute; reflexivity.
Defined.


(** X13, on the job whose handler field is [null]. *)
Lemma job_without_details_is_reported_witness :
  adapter detailless = VAdapter 0 /\
  start rt detailless empty = (Normal VNull, started detailless) /\
  nullish VNull = true /\
  logs rt "console" "error"
       [property rt (store (started detailless))
                 (cannot_read VNull "handler") "stack"]
       (store (started detailless)) (store (started detailless)) /\
  filter is_failure (trace (snd (perform_body rt detailless empty)))
  = [ EFailure 0 null_job
        (TypeError "Cannot read properties of null (reading 'handler')")
        retry_options ].
Proof.
  assert (Ha : adapter detailless = VAdapter 0) by reflexivity.
  assert (Hs : start rt detailless empty
               = (Normal VNull, started detailless))
    by (vm_compute; reflexivity).
  assert (Hg : logs rt "console" "error"
                    [property rt (store (started detailless))
                              (cannot_read VNull "handler") "stack"]
                    (store (started detailless))
                    (store (started detailless)))
    by (split; [reflexivity | exists VUndefined; vm_compute; reflexivity]).
  split; [exact Ha|]. split; [exact Hs|]. split; [reflexivity|].
  split; [exact Hg|].
  destruct (job_without_details_is_reported rt detailless 0 empty
              (started detailless) VNull Ha Hs eq_refl) as [lg [Hlg Hrun]].
  change (VLogger "console" = VLogger lg) in Hlg.
  injection Hlg as <-. cbv zeta in Hrun.
  rewrite (Hrun _ Hg). vm_compute. reflexivity.
Defined.

(** X9, on the process started with [--queue email --id 3]. *)
Lemma main_wires_the_worker_witness :
  strict email_rt = false /\
  yargs email_rt []
  = Normal [ ("id", VNum 3); ("queue", VStr "email");
             ("workoff", VBool false); ("clear", VBool false) ] /\
  load_logger email_rt (fresh no_jobs)
  = (Normal (VLogger "logger"), snd (load_logger email_rt (fresh no_jobs))) /\
  load_adapter email_rt (snd (load_logger email_rt (fresh no_jobs)))
  = (Normal (VAdapter 0),
     snd (load_adapter email_rt
            (snd (load_logger email_rt (fresh no_jobs))))) /\
  logs email_rt "logger" "info"
       [VStr ("[node] Starting work at " ++ timestamp 0 ++ "...")]
       (mkOutside [] 1) (mkOutside [] 1) /\
  exists msg w',
    main email_rt [] (fresh no_jobs) = (Throw (TypeError msg), w') /\
    title w' = "node" /\
    listeners w' = [("SIGINT", OnSIGINT (VLogger "logger"))] /\
    reactions w' = [ OnFinished (VLogger "logger") ].
Proof.
  assert (Hs : strict email_rt = false) by reflexivity.
  assert (Ha : yargs email_rt []
               = Normal [ ("id", VNum 3); ("queue", VStr "email");
                          ("workoff", VBool false); ("clear", VBool false) ])
    by reflexivity.
  assert (H1 : load_logger email_rt (fresh no_jobs)
               = (Normal (VLogger "logger"),
                  snd (load_logger email_rt (fresh no_jobs))))
    by (vm_compute; reflexivity).
  assert (H2 : load_adapter email_rt
                 (snd (load_logger email_rt (fresh no_jobs)))
               = (Normal (VAdapter 0),
                  snd (load_adapter email_rt
                         (snd (load_logger email_rt (fresh no_jobs))))))
    by (vm_compute; reflexivity).
  assert (Hg : logs email_rt "logger" "info"
                    [VStr ("[node] Starting work at " ++ timestamp 0 ++ "...")]
                    (mkOutside [] 1) (mkOutside [] 1))
    by (split; [reflexivity | exists VUndefined; vm_compute; reflexivity]).
  split; [exact Hs|]. split; [exact Ha|]. split; [exact H1|].
  split; [exact H2|]. split; [exact Hg|].
  destruct (main_wires_the_worker email_rt [] no_jobs _ "logger" (VAdapter 0)
              _ _ (mkOutside [] 1) Hs Ha H1 H2 Hg)
    as [msg [w' [Hm [_ [Hti [_ [Hli Hr]]]]]]].
  exists msg, w'. split; [exact Hm|]. split; [exact Hti|].
  split; [exact Hli | exact Hr].
Defined.

(** X10, on the process whose logger does not load. *)
Lemma logger_failure_is_not_handled_witness :
  strict loggerless = false /\
  yargs loggerless [] = Normal default_options /\
  load_logger loggerless (fresh no_jobs)
  = (Throw (VError "Error" "no logger configured"),
     snd (load_logger loggerless (fresh no_jobs))) /\
  fst (main loggerless [] (fresh no_jobs))
  = Throw (VError "Error" "no logger configured") /\
  trace (snd (main loggerless [] (fresh no_jobs))) = [ELoadLogger].
Proof.
  assert (Hs : strict loggerless = false) by reflexivity.
  assert (Ha : yargs loggerless [] = Normal default_options) by reflexivity.
  assert (H1 : load_logger loggerless (fresh no_jobs)
               = (Throw (VError "Error" "no logger configured"),
                  snd (load_logger loggerless (fresh no_jobs))))
    by (vm_compute; reflexivity).
  split; [exact Hs|]. split; [exact Ha|]. split; [exact H1|].
  destruct (logger_failure_is_not_handled loggerless [] no_jobs _ _ _
              Hs Ha H1)
    as [Hb [Ht _]].
  rewrite Hb. split; [reflexivity | exact Ht].
Defined.

(** X15, on the process whose module runs as strict code. *)
Lemma strict_main_stops_at_the_title_witness :
  strict strict_rt = true /\
  yargs strict_rt [] = Normal default_options /\
  exists msg,
    main strict_rt [] (fresh no_jobs) = (Throw (TypeError msg), fresh no_jobs).
Proof.
  assert (Hs : strict strict_rt = true) by reflexivity.
  assert (Ha : yargs strict_rt [] = Normal default_options) by reflexivity.
  split; [exact Hs|]. split; [exact Ha|].
  exact (strict_main_stops_at_the_title strict_rt [] no_jobs default_options
           Hs Ha).
Defined.

(** X14, on the job of the scenario. *)
Lemma fulfilled_perform_has_reported_witness :
  fst (perform rt welcome empty) = Normal (VStr "deleted") /\
  exists (evs : list event) (ev : event),
    trace (snd (perform rt welcome empty)) = (trace empty ++ evs ++ [ev])%list
    /\ is_adapter_call ev = true
    /\ reported_job ev = Some (job welcome).
Proof.
  assert (H : fst (perform rt welcome empty) = Normal (VStr "deleted"))
    by (vm_compute; reflexivity).
  split; [exact H|].
  exact (fulfilled_perform_has_reported rt welcome empty (VStr "deleted") H).
Defined.

End Runs.
